(** * Cloud session orchestration of vibe-server: registry, session manager,
      socket handlers and cloud runner.

    Shallow embedding of
      - sources/app/cloud/endpointRegistry.ts   (module [EndpointRegistry])
      - the cloud session manager               (module [CloudSessionManager])
      - the Socket.IO endpoint handlers         (module [Handlers])
      - the cloud runner's session start        (module [CloudRunner])
      - the cloud runner's other handlers       (module [RunnerLifecycle])
      - sources/app/cloud/e2bProvider.ts        (modules [E2BProvider], [E2BSandboxes])

    Conventions.
      - A JavaScript [Map] keeps its keys in insertion order, and the code
        iterates over [values()]; it is an association list here ([JsMap]).
        A [Set] of strings is a duplicate-free list ([JsSet]).
      - [new Date()] and [Date.now()] are a parameter [now : Z] of the
        operation that reads the clock.
      - A [string] is the sequence of the UTF-16 code units of the
        JavaScript string, each below 256; the ids, tokens and urls the code
        handles are such strings.
      - Timestamps and sequence numbers are [Z]; sizes are [nat]; a
        [number] that reaches the code unvalidated ([maxSessions],
        [maxConcurrentSessions], [timeoutMs]) is a [JsNumber.t]: a rational,
        [NaN] or an infinity.  Sums and quotients of such numbers are
        floating-point and are left out.
      - A library function whose result depends on the Unicode tables
        ([String.prototype.trim]) is a parameter of the operation that
        calls it.
      - Values that come from outside the process (random bytes, the sandbox
        provider, the database, the child process) are given to an operation
        as an explicit outcome. *)

From Stdlib Require Import List String Ascii ZArith QArith Bool Lia.
Import ListNotations.

Local Open Scope string_scope.
Local Open Scope list_scope.
Local Open Scope Z_scope.

(* ------------------------------------------------------------------ *)
(** ** JavaScript values: truthiness of strings, [String.prototype] helpers *)

(** [s || d] for a string that may be [undefined]: the empty string is falsy. *)
Definition truthy (s : option string) : bool :=
  match s with
  | Some s' => negb (String.eqb s' "")
  | None => false
  end.

Definition or_else (s : option string) (d : string) : string :=
  if truthy s then match s with Some s' => s' | None => d end else d.

(** [s.substring(0, n)]. *)
Definition substring0 (n : nat) (s : string) : string := String.substring 0 n s.

(** [s.replace(pat, rep)] with a string pattern: only the first occurrence. *)
Fixpoint replace_first (pat rep s : string) {struct s} : string :=
  if String.prefix pat s
  then String.append rep (String.substring (String.length pat) (String.length s) s)
  else match s with
       | EmptyString => EmptyString
       | String c s' => String c (replace_first pat rep s')
       end.

(** [arr.includes(x)] on an array of strings. *)
Definition includes (x : string) (arr : list string) : bool :=
  existsb (String.eqb x) arr.

(* ------------------------------------------------------------------ *)
(** ** JavaScript numbers

    A [number] is a double: a rational, [NaN] or an infinity ([-0] compares
    and tests like [0]).  The code compares such a number with a size and
    tests it for truthiness; both are exact on the rational. *)

Module JsNumber.

Inductive t :=
| finite (q : Q)
| NaN
| PosInfinity
| NegInfinity.

Definition of_Z (z : Z) : t := finite (inject_Z z).

(** [n < x] for a size [n]. *)
Definition nat_lt (n : nat) (x : t) : bool :=
  match x with
  | finite q => negb (Qle_bool q (inject_Z (Z.of_nat n)))
  | PosInfinity => true
  | NaN | NegInfinity => false
  end.

(** [n <= x] for a size [n]. *)
Definition nat_le (n : nat) (x : t) : bool :=
  match x with
  | finite q => Qle_bool (inject_Z (Z.of_nat n)) q
  | PosInfinity => true
  | NaN | NegInfinity => false
  end.

(** Truthiness, as in [x || d]: [0] and [NaN] are falsy. *)
Definition truthy (x : t) : bool :=
  match x with
  | finite q => negb (Qeq_bool q 0)
  | NaN => false
  | PosInfinity | NegInfinity => true
  end.

(** [x] is an integer that is not negative. *)
Definition is_count (x : t) : bool :=
  match x with
  | finite q => (0 <=? Qnum q) && (Qnum q mod Zpos (Qden q) =? 0)
  | NaN | PosInfinity | NegInfinity => false
  end.

End JsNumber.

(* ------------------------------------------------------------------ *)
(** ** [Map<string, V>]: insertion-ordered, keys unique *)

Module JsMap.
Section Ops.
Context {V : Type}.

Definition t := list (string * V).

Definition empty : t := [].

Fixpoint get (k : string) (m : t) : option V :=
  match m with
  | [] => None
  | (k', v) :: m' => if String.eqb k k' then Some v else get k m'
  end.

Definition has (k : string) (m : t) : bool :=
  match get k m with Some _ => true | None => false end.

(** [m.set(k, v)]: an existing key keeps its position, a new key goes last. *)
Fixpoint set (k : string) (v : V) (m : t) : t :=
  match m with
  | [] => [(k, v)]
  | (k', v') :: m' =>
      if String.eqb k k' then (k, v) :: m' else (k', v') :: set k v m'
  end.

Definition delete (k : string) (m : t) : t :=
  filter (fun kv => negb (String.eqb k (fst kv))) m.

Definition values (m : t) : list V := map snd m.

Definition keys (m : t) : list string := map fst m.

Definition size (m : t) : nat := List.length m.
End Ops.
Arguments t : clear implicits.
End JsMap.

(** ** [Set<string>] *)

Module JsSet.
Definition t := list string.

Definition empty : t := [].

Definition has (x : string) (s : t) : bool := existsb (String.eqb x) s.

Definition add (x : string) (s : t) : t := if has x s then s else s ++ [x].

Definition delete (x : string) (s : t) : t :=
  filter (fun y => negb (String.eqb x y)) s.

Definition size (s : t) : nat := List.length s.
End JsSet.

(** [Array.prototype.sort(cmp)]: a stable sort (ECMAScript 2019).  For a
    comparator that is a total preorder the result of a stable sort is
    unique; it is computed here by insertion from the right, an element
    going before the first one it does not compare greater than. *)
Section Sort.
Context {A : Type} (cmp : A -> A -> Z).

Fixpoint insert_sorted (x : A) (l : list A) : list A :=
  match l with
  | [] => [x]
  | y :: l' => if cmp x y <=? 0 then x :: y :: l' else y :: insert_sorted x l'
  end.

Definition js_sort (l : list A) : list A := fold_right insert_sorted [] l.
End Sort.

(* ------------------------------------------------------------------ *)
(** ** e2bProvider.ts: the endpoint descriptor *)

Inductive EndpointStatus := st_spawning | st_online | st_offline | st_error.

(** The [type] field: the interface says ['cloud-e2b'], a registration may
    carry ['local'], which [registerEndpoint] stores through a cast. *)
Inductive EndpointType := ty_local | ty_cloud_e2b.

Record Capabilities := {
  maxSessions : JsNumber.t;
  supportedAgents : list string
}.

(** [metadata]: the keys spread in from the registration, shadowed by the
    two timestamps the registry writes. *)
Record EndpointMetadata := {
  md_extra : list (string * string);
  spawnedAt : Z;
  lastSeen : option Z
}.

Record CloudEndpoint := {
  ce_id : string;
  ce_type : EndpointType;
  ce_sandboxId : string;
  ce_status : EndpointStatus;
  ce_capabilities : Capabilities;
  ce_metadata : EndpointMetadata
}.

Definition status_eqb (a b : EndpointStatus) : bool :=
  match a, b with
  | st_spawning, st_spawning | st_online, st_online
  | st_offline, st_offline | st_error, st_error => true
  | _, _ => false
  end.

(* ------------------------------------------------------------------ *)
(** ** endpointRegistry.ts *)

Record EndpointRegistration := {
  reg_endpointId : string;
  reg_type : EndpointType;
  reg_capabilities : Capabilities;
  reg_metadata : option (list (string * string))
}.

Record SessionAssignment := {
  sa_endpointId : string;
  sa_sessionId : string;
  sa_assignedAt : Z
}.

Module EndpointRegistry.

Record t := {
  endpoints : JsMap.t CloudEndpoint;
  sessionAssignments : JsMap.t SessionAssignment;
  endpointSessions : JsMap.t JsSet.t
}.

Definition empty : t :=
  {| endpoints := JsMap.empty;
     sessionAssignments := JsMap.empty;
     endpointSessions := JsMap.empty |}.

Definition registerEndpoint (now : Z) (registration : EndpointRegistration) (r : t) : t :=
  let endpoint :=
    {| ce_id := reg_endpointId registration;
       ce_type := reg_type registration;
       ce_sandboxId := replace_first "e2b-" "" (reg_endpointId registration);
       ce_status := st_online;
       ce_capabilities := reg_capabilities registration;
       ce_metadata :=
         {| md_extra := match reg_metadata registration with
                        | Some kvs => kvs
                        | None => []
                        end;
            spawnedAt := now;
            lastSeen := Some now |} |} in
  {| endpoints := JsMap.set (reg_endpointId registration) endpoint (endpoints r);
     sessionAssignments := sessionAssignments r;
     endpointSessions :=
       JsMap.set (reg_endpointId registration) JsSet.empty (endpointSessions r) |}.

Definition unregisterEndpoint (endpointId : string) (r : t) : t :=
  let sessions := JsMap.get endpointId (endpointSessions r) in
  {| endpoints := JsMap.delete endpointId (endpoints r);
     sessionAssignments :=
       match sessions with
       | Some ss => fold_left (fun m sessionId => JsMap.delete sessionId m) ss
                              (sessionAssignments r)
       | None => sessionAssignments r
       end;
     endpointSessions := JsMap.delete endpointId (endpointSessions r) |}.

Definition updateLastSeen (now : Z) (endpointId : string) (r : t) : t :=
  match JsMap.get endpointId (endpoints r) with
  | Some endpoint =>
      let endpoint' :=
        {| ce_id := ce_id endpoint;
           ce_type := ce_type endpoint;
           ce_sandboxId := ce_sandboxId endpoint;
           ce_status := ce_status endpoint;
           ce_capabilities := ce_capabilities endpoint;
           ce_metadata :=
             {| md_extra := md_extra (ce_metadata endpoint);
                spawnedAt := spawnedAt (ce_metadata endpoint);
                lastSeen := Some now |} |} in
      {| endpoints := JsMap.set endpointId endpoint' (endpoints r);
         sessionAssignments := sessionAssignments r;
         endpointSessions := endpointSessions r |}
  | None => r
  end.

(** [this.endpointSessions.get(id)?.size || 0] *)
Definition currentSessions (r : t) (endpointId : string) : nat :=
  match JsMap.get endpointId (endpointSessions r) with
  | Some ss => JsSet.size ss
  | None => 0%nat
  end.

(** The filter callback of [findAvailableEndpoint]. *)
Definition available (r : t) (agentType : string) (endpoint : CloudEndpoint) : bool :=
  if negb (status_eqb (ce_status endpoint) st_online) then false
  else if negb (includes agentType (supportedAgents (ce_capabilities endpoint))) then false
  else JsNumber.nat_lt (currentSessions r (ce_id endpoint))
                       (maxSessions (ce_capabilities endpoint)).

(** The sort callback of [findAvailableEndpoint]: [aLoad - bLoad]. *)
Definition byLoad (r : t) (a b : CloudEndpoint) : Z :=
  Z.of_nat (currentSessions r (ce_id a)) - Z.of_nat (currentSessions r (ce_id b)).

(** [agentType] is [None] when the argument is [undefined]: the default
    parameter value ['claude'] applies. *)
Definition findAvailableEndpoint (agentType : option string) (r : t) : option CloudEndpoint :=
  let agent := match agentType with Some a => a | None => "claude" end in
  let availableEndpoints := filter (available r agent) (JsMap.values (endpoints r)) in
  match availableEndpoints with
  | [] => None
  | _ => hd_error (js_sort (byLoad r) availableEndpoints)
  end.

Definition assignSession (now : Z) (sessionId endpointId : string) (r : t)
  : SessionAssignment * t :=
  let assignment :=
    {| sa_endpointId := endpointId; sa_sessionId := sessionId; sa_assignedAt := now |} in
  (assignment,
   {| endpoints := endpoints r;
      sessionAssignments := JsMap.set sessionId assignment (sessionAssignments r);
      endpointSessions :=
        match JsMap.get endpointId (endpointSessions r) with
        | Some sessions =>
            JsMap.set endpointId (JsSet.add sessionId sessions) (endpointSessions r)
        | None => endpointSessions r
        end |}).

Definition unassignSession (sessionId : string) (r : t) : t :=
  match JsMap.get sessionId (sessionAssignments r) with
  | Some assignment =>
      {| endpoints := endpoints r;
         sessionAssignments := JsMap.delete sessionId (sessionAssignments r);
         endpointSessions :=
           match JsMap.get (sa_endpointId assignment) (endpointSessions r) with
           | Some sessions =>
               JsMap.set (sa_endpointId assignment) (JsSet.delete sessionId sessions)
                         (endpointSessions r)
           | None => endpointSessions r
           end |}
  | None => r
  end.

Definition getSessionAssignment (sessionId : string) (r : t) : option SessionAssignment :=
  JsMap.get sessionId (sessionAssignments r).

Definition getAllEndpoints (r : t) : list CloudEndpoint := JsMap.values (endpoints r).

Definition getEndpoint (endpointId : string) (r : t) : option CloudEndpoint :=
  JsMap.get endpointId (endpoints r).

(** [getStats()].  [capacity] is a floating-point sum of the [maxSessions]
    of the online endpoints and [utilization] a floating-point quotient;
    both are left out. *)
Record Stats := {
  totalEndpoints : nat;
  onlineEndpoints : nat;
  totalSessions : nat
}.

Definition getStats (r : t) : Stats :=
  let eps := JsMap.values (endpoints r) in
  let online := filter (fun e => status_eqb (ce_status e) st_online) eps in
  {| totalEndpoints := List.length eps;
     onlineEndpoints := List.length online;
     totalSessions := JsMap.size (sessionAssignments r) |}.

End EndpointRegistry.

(* ------------------------------------------------------------------ *)
(** ** e2bProvider.ts: what [spawnEndpoint] returns *)

(** A call that may throw: [Threw message] is [throw new Error(message)]. *)
Inductive Outcome (A : Type) :=
| Returned (a : A)
| Threw (message : string).
Arguments Returned {A} a.
Arguments Threw {A} message.

Record SpawnOptions := {
  sp_authToken : string;
  sp_serverUrl : string;
  sp_maxConcurrentSessions : option JsNumber.t;
  sp_timeoutMs : option JsNumber.t
}.

Module E2BProvider.

(** [spawnEndpoint(options)].  The API-key and server-URL validation and
    the E2B SDK calls are outside the process state modelled here; their
    joint result is [sandbox]: the id of the sandbox that was created, or
    the error that reaches the caller. *)
Definition spawnEndpoint (now : Z) (options : SpawnOptions) (sandbox : Outcome string)
  : Outcome CloudEndpoint :=
  match sandbox with
  | Threw message => Threw message
  | Returned sandboxId =>
      Returned
        {| ce_id := String.append "e2b-" sandboxId;
           ce_type := ty_cloud_e2b;
           ce_sandboxId := sandboxId;
           ce_status := st_online;
           ce_capabilities :=
             {| maxSessions := match sp_maxConcurrentSessions options with
                               | Some n => if JsNumber.truthy n then n
                                           else JsNumber.of_Z 1
                               | None => JsNumber.of_Z 1
                               end;
                supportedAgents := ["claude"] |};
           ce_metadata := {| md_extra := []; spawnedAt := now; lastSeen := None |} |}
  end.

End E2BProvider.

(* ------------------------------------------------------------------ *)
(** ** The cloud session manager *)

Inductive AgentType := claude | codex.

Definition agent_name (a : AgentType) : string :=
  match a with claude => "claude" | codex => "codex" end.

Inductive SessionStatus := pending | starting | running | ended | error.

Definition session_status_eqb (a b : SessionStatus) : bool :=
  match a, b with
  | pending, pending | starting, starting | running, running
  | ended, ended | error, error => true
  | _, _ => false
  end.

Record SessionOptions := {
  so_agentType : AgentType;
  so_workingDirectory : option string;
  so_initialMessage : option string
}.

Record CloudSession := {
  cs_sessionId : string;
  cs_userId : string;
  cs_endpointId : string;
  cs_status : SessionStatus;
  cs_createdAt : Z;
  cs_startedAt : option Z;
  cs_endedAt : option Z;
  cs_options : option SessionOptions
}.

Record CreateCloudSessionOptions := {
  o_userId : string;
  o_sessionId : option string;
  o_workingDirectory : option string;
  o_initialMessage : option string;
  o_agentType : option AgentType
}.

(** Events sent over Socket.IO, by name, with the payload fields the code fills in. *)
Inductive Event :=
| ev_session_start (sessionId : string) (agentType : AgentType)
                   (workingDirectory initialMessage : option string)
| ev_error (message : string)
| ev_endpoint_registered (endpointId : string)
| ev_session_status (sessionId : string) (status : SessionStatus)
| ev_session_error (sessionId : string) (err : option string)
| ev_session_started (sessionId endpointId : string)
| ev_message_from_agent (sessionId message : string)
| ev_message_send (sessionId message : string).

(** [io.to(room).emit(event)]: the room and the event. *)
Definition Emitted := (string * Event)%type.

Definition endpoint_room (endpointId : string) : string :=
  String.append "endpoint:" endpointId.

Definition session_room (sessionId : string) : string :=
  String.append "session:" sessionId.

(** The durable store ([db.session]) and the update router, as far as
    [createCloudSession] writes to them. *)
Record SessionMetadata := {
  sm_path : string;
  sm_host : string;
  sm_machineId : string;
  sm_lifecycleStateSince : Z;
  sm_flavor : AgentType
}.

Record DbSession := {
  db_id : string;
  db_accountId : string;
  db_tag : string;
  db_metadata : SessionMetadata;
  db_dataEncryptionKey : option string
}.

Record Update := {
  up_userId : string;
  up_sessionId : string;
  up_seq : Z;
  up_key : string
}.

(** What one [createCloudSession] call receives from outside the process. *)
Record CreateOutcomes := {
  x_now : Z;
  x_sessionId : string;          (* generateSessionId() *)
  x_authToken : string;          (* generateAuthToken() *)
  x_sandbox : Outcome string;    (* the provider's sandbox, see E2BProvider *)
  x_userSeq : Outcome Z;         (* allocateUserSeq(userId) *)
  x_dbSessionId : Outcome string;(* the id of the row db.session.create makes *)
  x_updateKey : string           (* randomKeyNaked(12) *)
}.

Module CloudSessionManager.

Record t := {
  endpointRegistry : EndpointRegistry.t;
  sessions : JsMap.t CloudSession;
  pendingEndpoints : JsMap.t string;   (* endpointId -> authToken *)
  serverUrl : string;
  io : bool                            (* false while [this.io] is null *)
}.

Definition create (serverUrl : string) : t :=
  {| endpointRegistry := EndpointRegistry.empty;
     sessions := JsMap.empty;
     pendingEndpoints := JsMap.empty;
     serverUrl := serverUrl;
     io := false |}.

Definition with_registry (r : EndpointRegistry.t) (m : t) : t :=
  {| endpointRegistry := r; sessions := sessions m;
     pendingEndpoints := pendingEndpoints m; serverUrl := serverUrl m; io := io m |}.

Definition with_sessions (s : JsMap.t CloudSession) (m : t) : t :=
  {| endpointRegistry := endpointRegistry m; sessions := s;
     pendingEndpoints := pendingEndpoints m; serverUrl := serverUrl m; io := io m |}.

Definition with_pendingEndpoints (p : JsMap.t string) (m : t) : t :=
  {| endpointRegistry := endpointRegistry m; sessions := sessions m;
     pendingEndpoints := p; serverUrl := serverUrl m; io := io m |}.

Definition setSocketIOServer (m : t) : t :=
  {| endpointRegistry := endpointRegistry m; sessions := sessions m;
     pendingEndpoints := pendingEndpoints m; serverUrl := serverUrl m; io := true |}.

(** The process state [createCloudSession] runs in: the manager, the
    durable store, the updates handed to the event router, and what has
    been emitted through the Socket.IO server. *)
Record World := {
  manager : t;
  db_sessions : list DbSession;
  updates : list Update;
  io_log : list Emitted
}.

Definition with_manager (m : t) (w : World) : World :=
  {| manager := m; db_sessions := db_sessions w; updates := updates w; io_log := io_log w |}.

(** State and exceptions of an [async] method body. *)
Definition M (A : Type) : Type := World -> Outcome A * World.

Definition ret {A} (a : A) : M A := fun w => (Returned a, w).

Definition throw {A} (message : string) : M A := fun w => (Threw message, w).

Definition bind {A B} (c : M A) (k : A -> M B) : M B :=
  fun w => match c w with
           | (Returned a, w') => k a w'
           | (Threw message, w') => (Threw message, w')
           end.

Definition await {A} (o : Outcome A) : M A :=
  match o with Returned a => ret a | Threw message => throw message end.

Definition read : M t := fun w => (Returned (manager w), w).

Definition update (f : t -> t) : M unit :=
  fun w => (Returned tt, with_manager (f (manager w)) w).

Definition emit (es : list Emitted) : M unit :=
  fun w => (Returned tt,
            {| manager := manager w; db_sessions := db_sessions w;
               updates := updates w; io_log := io_log w ++ es |}).

Definition db_session_create (row : DbSession) : M unit :=
  fun w => (Returned tt,
            {| manager := manager w; db_sessions := db_sessions w ++ [row];
               updates := updates w; io_log := io_log w |}).

Definition emitUpdate (u : Update) : M unit :=
  fun w => (Returned tt,
            {| manager := manager w; db_sessions := db_sessions w;
               updates := updates w ++ [u]; io_log := io_log w |}).

(** A synchronous method that changes the manager and emits events. *)
Definition run (f : t -> t * list Emitted) : M unit :=
  fun w => let '(m', es) := f (manager w) in
           (Returned tt,
            {| manager := m'; db_sessions := db_sessions w;
               updates := updates w; io_log := io_log w ++ es |}).

Notation "x <- c ;; k" := (bind c (fun x => k))
  (at level 61, c at next level, right associativity).
Notation "c ;;; k" := (bind c (fun _ => k))
  (at level 61, right associativity).

Definition set_status (st : SessionStatus) (s : CloudSession) : CloudSession :=
  {| cs_sessionId := cs_sessionId s; cs_userId := cs_userId s;
     cs_endpointId := cs_endpointId s; cs_status := st;
     cs_createdAt := cs_createdAt s; cs_startedAt := cs_startedAt s;
     cs_endedAt := cs_endedAt s; cs_options := cs_options s |}.

Definition set_startedAt (now : Z) (s : CloudSession) : CloudSession :=
  {| cs_sessionId := cs_sessionId s; cs_userId := cs_userId s;
     cs_endpointId := cs_endpointId s; cs_status := cs_status s;
     cs_createdAt := cs_createdAt s; cs_startedAt := Some now;
     cs_endedAt := cs_endedAt s; cs_options := cs_options s |}.

Definition set_endedAt (now : Z) (s : CloudSession) : CloudSession :=
  {| cs_sessionId := cs_sessionId s; cs_userId := cs_userId s;
     cs_endpointId := cs_endpointId s; cs_status := cs_status s;
     cs_createdAt := cs_createdAt s; cs_startedAt := cs_startedAt s;
     cs_endedAt := Some now; cs_options := cs_options s |}.

(** [startSessionOnEndpoint(sessionId, options)] *)
Definition startSessionOnEndpoint (sessionId : string) (options : CreateCloudSessionOptions)
           (m : t) : t * list Emitted :=
  match JsMap.get sessionId (sessions m) with
  | None => (m, [])
  | Some session =>
      if negb (io m) then (m, [])
      else
        (with_sessions (JsMap.set sessionId (set_status starting session) (sessions m)) m,
         [(endpoint_room (cs_endpointId session),
           ev_session_start sessionId
             (match o_agentType options with Some a => a | None => claude end)
             (o_workingDirectory options) (o_initialMessage options))])
  end.

(** [startPendingSessionsForEndpoint(endpointId)]: the events it emits;
    it assigns to no field. *)
Definition startPendingSessionsForEndpoint (endpointId : string) (m : t) : list Emitted :=
  let pendingSessions :=
    filter (fun s => String.eqb (cs_endpointId s) endpointId
                     && session_status_eqb (cs_status s) pending)
           (JsMap.values (sessions m)) in
  flat_map
    (fun session =>
       match cs_options session with
       | Some options =>
           if io m
           then [(endpoint_room endpointId,
                  ev_session_start (cs_sessionId session) (so_agentType options)
                    (so_workingDirectory options) (so_initialMessage options))]
           else []
       | None => []
       end)
    pendingSessions.

(** [spawnNewEndpoint()] *)
Definition spawnNewEndpoint (x : CreateOutcomes) : M CloudEndpoint :=
  let authToken := x_authToken x in
  m <- read ;;
  endpoint <- await (E2BProvider.spawnEndpoint (x_now x)
                       {| sp_authToken := authToken;
                          sp_serverUrl := serverUrl m;
                          sp_maxConcurrentSessions := Some (JsNumber.of_Z 1);
                          sp_timeoutMs := Some (JsNumber.of_Z 3600000) |}
                       (x_sandbox x)) ;;
  update (fun m => with_pendingEndpoints
                     (JsMap.set (ce_id endpoint) authToken (pendingEndpoints m)) m) ;;;
  ret endpoint.

(** [createCloudSession(options)].  The call is run to its end as one
    step: an [await] is where an outcome of [x] comes in, and no other call
    of the manager runs between the [await]s. *)
Definition createCloudSession (x : CreateOutcomes) (options : CreateCloudSessionOptions)
  : M CloudSession :=
  let sessionId := or_else (o_sessionId options) (x_sessionId x) in
  let tag := String.append "cloud-" sessionId in
  m <- read ;;
  endpoint <-
    match EndpointRegistry.findAvailableEndpoint
            (option_map agent_name (o_agentType options)) (endpointRegistry m) with
    | Some endpoint => ret endpoint
    | None => spawnNewEndpoint x
    end ;;
  updSeq <- await (x_userSeq x) ;;
  let workingDir := or_else (o_workingDirectory options) "/home/user" in
  let endpointShortId :=
    if (8 <=? String.length (ce_id endpoint))%nat
    then substring0 8 (ce_id endpoint) else ce_id endpoint in
  let metadata :=
    {| sm_path := workingDir;
       sm_host := String.append "cloud-" endpointShortId;
       sm_machineId := String.append "cloud-" (ce_id endpoint);
       sm_lifecycleStateSince := x_now x;
       sm_flavor := match o_agentType options with Some a => a | None => claude end |} in
  dbId <- await (x_dbSessionId x) ;;
  db_session_create
    {| db_id := dbId; db_accountId := o_userId options; db_tag := tag;
       db_metadata := metadata; db_dataEncryptionKey := None |} ;;;
  emitUpdate {| up_userId := o_userId options; up_sessionId := dbId;
                up_seq := updSeq; up_key := x_updateKey x |} ;;;
  let session :=
    {| cs_sessionId := dbId;
       cs_userId := o_userId options;
       cs_endpointId := ce_id endpoint;
       cs_status := pending;
       cs_createdAt := x_now x;
       cs_startedAt := None;
       cs_endedAt := None;
       cs_options :=
         Some {| so_agentType := match o_agentType options with
                                 | Some a => a | None => claude end;
                 so_workingDirectory := o_workingDirectory options;
                 so_initialMessage := o_initialMessage options |} |} in
  update (fun m => with_sessions (JsMap.set dbId session (sessions m)) m) ;;;
  update (fun m => with_registry
                     (snd (EndpointRegistry.assignSession (x_now x) dbId (ce_id endpoint)
                                                          (endpointRegistry m))) m) ;;;
  m <- read ;;
  match EndpointRegistry.getEndpoint (ce_id endpoint) (endpointRegistry m) with
  | Some endpointInfo =>
      if status_eqb (ce_status endpointInfo) st_online && io m
      then run (startSessionOnEndpoint dbId options)
      else ret tt
  | None => ret tt
  end ;;;
  (* [return session]: the object stored in [sessions], as it is now *)
  m <- read ;;
  ret (match JsMap.get dbId (sessions m) with Some s => s | None => session end).

(** [sessionStarted(sessionId)] *)
Definition sessionStarted (now : Z) (sessionId : string) (m : t) : t :=
  match JsMap.get sessionId (sessions m) with
  | Some session =>
      with_sessions
        (JsMap.set sessionId (set_startedAt now (set_status running session)) (sessions m)) m
  | None => m
  end.

(** [cleanupIdleEndpoints()]: the endpoints it reports as idle; nothing is
    torn down. *)
Definition cleanupIdleEndpoints (m : t) : list string :=
  flat_map
    (fun endpoint =>
       match find (fun s => String.eqb (cs_endpointId s) (ce_id endpoint)
                            && session_status_eqb (cs_status s) running)
                  (JsMap.values (sessions m)) with
       | Some _ => []
       | None => [ce_id endpoint]
       end)
    (EndpointRegistry.getAllEndpoints (endpointRegistry m)).

(** [sessionEnded(sessionId)] *)
Definition sessionEnded (now : Z) (sessionId : string) (m : t) : t :=
  match JsMap.get sessionId (sessions m) with
  | Some session =>
      let m1 := with_sessions
                  (JsMap.set sessionId (set_endedAt now (set_status ended session))
                             (sessions m)) m in
      let m2 := with_registry
                  (EndpointRegistry.unassignSession sessionId (endpointRegistry m1)) m1 in
      let _idle := cleanupIdleEndpoints m2 in
      m2
  | None => m
  end.

(** [sessionError(sessionId)] *)
Definition sessionError (now : Z) (sessionId : string) (m : t) : t :=
  match JsMap.get sessionId (sessions m) with
  | Some session =>
      let m1 := with_sessions
                  (JsMap.set sessionId (set_endedAt now (set_status error session))
                             (sessions m)) m in
      with_registry (EndpointRegistry.unassignSession sessionId (endpointRegistry m1)) m1
  | None => m
  end.

Definition getSession (sessionId : string) (m : t) : option CloudSession :=
  JsMap.get sessionId (sessions m).

(** [validateEndpointToken(endpointId, token)]: [expected && expected === token] *)
Definition validateEndpointToken (endpointId token : string) (m : t) : bool :=
  match JsMap.get endpointId (pendingEndpoints m) with
  | Some expected => negb (String.eqb expected "") && String.eqb expected token
  | None => false
  end.

Definition findEndpointByToken (token : string) (m : t) : option string :=
  option_map fst (find (fun kv => String.eqb (snd kv) token) (pendingEndpoints m)).

Record Stats := {
  totalSessions : nat;
  activeSessions : nat;
  endpointStats : EndpointRegistry.Stats
}.

Definition getStats (m : t) : Stats :=
  {| totalSessions := JsMap.size (sessions m);
     activeSessions :=
       List.length (filter (fun s => session_status_eqb (cs_status s) running)
                           (JsMap.values (sessions m)));
     endpointStats := EndpointRegistry.getStats (endpointRegistry m) |}.

End CloudSessionManager.

(* ------------------------------------------------------------------ *)
(** ** The Socket.IO handlers of [setupCloudEndpointHandlers] *)

Module Handlers.
Import CloudSessionManager.

(** The server process: the manager's world, what each socket was sent
    ([socket.emit]) and which rooms each socket joined ([socket.join]). *)
Record Server := {
  world : World;
  socket_log : list Emitted;      (* socket id, event *)
  rooms : list (string * string)  (* socket id, room *)
}.

Definition with_world (w : World) (s : Server) : Server :=
  {| world := w; socket_log := socket_log s; rooms := rooms s |}.

Definition on_manager (f : CloudSessionManager.t -> CloudSessionManager.t) (s : Server)
  : Server :=
  with_world (with_manager (f (manager (world s))) (world s)) s.

Definition io_emit (room : string) (e : Event) (s : Server) : Server :=
  with_world
    {| manager := manager (world s); db_sessions := db_sessions (world s);
       updates := updates (world s); io_log := io_log (world s) ++ [(room, e)] |} s.

Definition socket_emit (socket : string) (e : Event) (s : Server) : Server :=
  {| world := world s; socket_log := socket_log s ++ [(socket, e)]; rooms := rooms s |}.

Definition socket_join (socket room : string) (s : Server) : Server :=
  {| world := world s; socket_log := socket_log s; rooms := rooms s ++ [(socket, room)] |}.

(** [setupCloudEndpointHandlers(io)] on a fresh manager. *)
Definition setupCloudEndpointHandlers (serverUrl : string) : Server :=
  {| world := {| manager := setSocketIOServer (CloudSessionManager.create serverUrl);
                 db_sessions := []; updates := []; io_log := [] |};
     socket_log := []; rooms := [] |}.

(** The payload of [endpoint:register]: a registration and the token. *)
Record RegisterData := {
  rd_registration : EndpointRegistration;
  rd_authToken : option string
}.

Definition on_endpoint_register (now : Z) (socket : string) (data : RegisterData)
           (s : Server) : Server :=
  let endpointId := reg_endpointId (rd_registration data) in
  let isValid :=
    validateEndpointToken endpointId (or_else (rd_authToken data) "") (manager (world s)) in
  if negb isValid && truthy (rd_authToken data)
  then socket_emit socket (ev_error "Invalid auth token") s
  else
    let s1 := on_manager
                (fun m => with_registry
                            (EndpointRegistry.registerEndpoint now (rd_registration data)
                                                               (endpointRegistry m)) m) s in
    let s2 := socket_join socket (endpoint_room endpointId) s1 in
    let s3 := socket_emit socket (ev_endpoint_registered endpointId) s2 in
    fold_left (fun acc re => io_emit (fst re) (snd re) acc)
              (startPendingSessionsForEndpoint endpointId (manager (world s3))) s3.

Definition on_endpoint_unregister (endpointId : string) (s : Server) : Server :=
  on_manager (fun m => with_registry
                         (EndpointRegistry.unregisterEndpoint endpointId (endpointRegistry m))
                         m) s.

Definition on_session_started (now : Z) (sessionId : string) (s : Server) : Server :=
  io_emit (session_room sessionId) (ev_session_status sessionId running)
          (on_manager (sessionStarted now sessionId) s).

Definition on_session_ended (now : Z) (sessionId : string) (s : Server) : Server :=
  io_emit (session_room sessionId) (ev_session_status sessionId ended)
          (on_manager (sessionEnded now sessionId) s).

Definition on_session_error (now : Z) (sessionId : string) (err : option string)
           (s : Server) : Server :=
  io_emit (session_room sessionId) (ev_session_error sessionId err)
          (on_manager (sessionError now sessionId) s).

Definition on_message_from_claude (sessionId message : string) (s : Server) : Server :=
  io_emit (session_room sessionId) (ev_message_from_agent sessionId message) s.

Definition on_message_to_claude (socket sessionId message : string) (s : Server) : Server :=
  match EndpointRegistry.getSessionAssignment sessionId
          (endpointRegistry (manager (world s))) with
  | None => socket_emit socket
              (ev_error "Session not found or not assigned to endpoint") s
  | Some assignment =>
      io_emit (endpoint_room (sa_endpointId assignment)) (ev_message_send sessionId message) s
  end.

Definition on_endpoint_heartbeat (now : Z) (endpointId : string) (s : Server) : Server :=
  on_manager (fun m => with_registry
                         (EndpointRegistry.updateLastSeen now endpointId (endpointRegistry m))
                         m) s.

(** [POST /v1/cloud-session]: the manager call inside the route. *)
Definition create_session (x : CreateOutcomes) (options : CreateCloudSessionOptions)
           (s : Server) : Outcome CloudSession * Server :=
  let '(res, w) := createCloudSession x options (world s) in
  (res, with_world w s).

End Handlers.

(* ------------------------------------------------------------------ *)
(** ** The cloud runner: [startSession] *)

Module CloudRunner.

Inductive Status := starting | running | ended | error.

Record Session := {
  sessionId : string;
  process : option Z;               (* the child process, by pid *)
  status : Status;
  agentType : AgentType;
  workingDirectory : option string
}.

Record t := {
  endpointId : string;
  (** [parseInt(process.env.MAX_CONCURRENT_SESSIONS || '1', 10)];
      [None] is [NaN]. *)
  maxConcurrentSessions : option Z;
  activeSessions : JsMap.t Session;
  socket : bool;                    (* false while [this.socket] is null *)
  sent : list Event;                (* [this.socket?.emit] *)
  spawned : list string             (* session ids [spawnAgent] was called for *)
}.

Record StartData := {
  sd_sessionId : string;
  sd_agentType : AgentType;
  sd_workingDirectory : option string;
  sd_initialMessage : option string
}.

Definition socket_emit (e : Event) (r : t) : t :=
  if socket r
  then {| endpointId := endpointId r; maxConcurrentSessions := maxConcurrentSessions r;
          activeSessions := activeSessions r; socket := socket r;
          sent := sent r ++ [e]; spawned := spawned r |}
  else r.

Definition with_activeSessions (a : JsMap.t Session) (r : t) : t :=
  {| endpointId := endpointId r; maxConcurrentSessions := maxConcurrentSessions r;
     activeSessions := a; socket := socket r; sent := sent r; spawned := spawned r |}.

Definition note_spawn (sid : string) (r : t) : t :=
  {| endpointId := endpointId r; maxConcurrentSessions := maxConcurrentSessions r;
     activeSessions := activeSessions r; socket := socket r; sent := sent r;
     spawned := spawned r ++ [sid] |}.

(** [this.activeSessions.size >= this.maxConcurrentSessions] *)
Definition atCapacity (r : t) : bool :=
  match maxConcurrentSessions r with
  | Some n => n <=? Z.of_nat (JsMap.size (activeSessions r))
  | None => false
  end.

(** [startSession(data)]; [child] is what [spawnAgent] gives when it is
    reached: the child's pid, or the error it throws. *)
Definition startSession (data : StartData) (child : Outcome Z) (r : t) : t :=
  if atCapacity r
  then socket_emit (ev_session_error (sd_sessionId data)
                                     (Some "Max concurrent sessions reached")) r
  else if JsMap.has (sd_sessionId data) (activeSessions r)
  then r
  else
    let session :=
      {| sessionId := sd_sessionId data;
         process := None;
         status := starting;
         agentType := sd_agentType data;
         workingDirectory := Some (or_else (sd_workingDirectory data) "/home/user") |} in
    let r1 := with_activeSessions
                (JsMap.set (sd_sessionId data) session (activeSessions r)) r in
    let r2 := note_spawn (sd_sessionId data) r1 in
    match child with
    | Returned pid =>
        let session' :=
          {| sessionId := sessionId session; process := Some pid; status := running;
             agentType := agentType session;
             workingDirectory := workingDirectory session |} in
        socket_emit (ev_session_started (sd_sessionId data) (endpointId r))
          (with_activeSessions
             (JsMap.set (sd_sessionId data) session' (activeSessions r2)) r2)
    | Threw message =>
        socket_emit (ev_session_error (sd_sessionId data) (Some message))
          (with_activeSessions (JsMap.delete (sd_sessionId data) (activeSessions r2)) r2)
    end.

End CloudRunner.

(* ------------------------------------------------------------------ *)
(** ** Operation sequences *)

(** Calls on the registry. *)
Inductive RegistryOp :=
| op_register (now : Z) (registration : EndpointRegistration)
| op_unregister (endpointId : string)
| op_heartbeat (now : Z) (endpointId : string)
| op_assign (now : Z) (sessionId endpointId : string)
| op_unassign (sessionId : string).

Definition apply_op (op : RegistryOp) (r : EndpointRegistry.t) : EndpointRegistry.t :=
  match op with
  | op_register now registration => EndpointRegistry.registerEndpoint now registration r
  | op_unregister endpointId => EndpointRegistry.unregisterEndpoint endpointId r
  | op_heartbeat now endpointId => EndpointRegistry.updateLastSeen now endpointId r
  | op_assign now sessionId endpointId =>
      snd (EndpointRegistry.assignSession now sessionId endpointId r)
  | op_unassign sessionId => EndpointRegistry.unassignSession sessionId r
  end.

Definition apply_ops (ops : list RegistryOp) (r : EndpointRegistry.t) : EndpointRegistry.t :=
  fold_left (fun r op => apply_op op r) ops r.

(** The number of sessions assigned to an endpoint: the entries of
    [sessionAssignments] whose [endpointId] is the endpoint's. *)
Definition assigned_to (r : EndpointRegistry.t) (endpointId : string) : nat :=
  List.length
    (filter (fun kv => String.eqb (sa_endpointId (snd kv)) endpointId)
            (EndpointRegistry.sessionAssignments r)).

(** The number of sessions in the set that [endpointSessions] keeps for an
    endpoint, 0 when it keeps none.  The set is empty when the endpoint
    registers. *)
Definition session_set_size (r : EndpointRegistry.t) (endpointId : string) : nat :=
  match JsMap.get endpointId (EndpointRegistry.endpointSessions r) with
  | Some sessions => List.length sessions
  | None => 0%nat
  end.

(** Every registered endpoint has at most [maxSessions] sessions assigned
    to it, and at most [maxSessions] sessions in its session set. *)
Definition within_capacity (r : EndpointRegistry.t) : bool :=
  forallb (fun kv =>
             JsNumber.nat_le (assigned_to r (fst kv)) (maxSessions (ce_capabilities (snd kv)))
             && JsNumber.nat_le (session_set_size r (fst kv))
                                (maxSessions (ce_capabilities (snd kv))))
          (EndpointRegistry.endpoints r).

(** The endpoint is not registered, or its session set is smaller than its
    [maxSessions]: the capacity test of [findAvailableEndpoint]. *)
Definition has_free_slot (endpointId : string) (r : EndpointRegistry.t) : bool :=
  match JsMap.get endpointId (EndpointRegistry.endpoints r) with
  | Some e => JsNumber.nat_lt (session_set_size r endpointId) (maxSessions (ce_capabilities e))
  | None => true
  end.

(** The calls of a guarded sequence: a registration declares a
    [maxSessions] that is an integer and not negative, for an endpoint id
    to which no session is assigned at that moment; an assignment goes to
    an endpoint with a free slot. *)
Definition op_allowed (op : RegistryOp) (r : EndpointRegistry.t) : bool :=
  match op with
  | op_register _ registration =>
      JsNumber.is_count (maxSessions (reg_capabilities registration))
      && (assigned_to r (reg_endpointId registration) =? 0)%nat
  | op_assign _ _ endpointId => has_free_slot endpointId r
  | _ => true
  end.

Fixpoint ops_allowed (ops : list RegistryOp) (r : EndpointRegistry.t) : bool :=
  match ops with
  | [] => true
  | op :: ops' => op_allowed op r && ops_allowed ops' (apply_op op r)
  end.

(** Calls on the session manager, the registry being reachable through
    [getEndpointRegistry()]. *)
Inductive ManagerCall :=
| call_setSocketIOServer
| call_createCloudSession (x : CreateOutcomes) (options : CreateCloudSessionOptions)
| call_startPendingSessionsForEndpoint (endpointId : string)
| call_sessionStarted (now : Z) (sessionId : string)
| call_sessionEnded (now : Z) (sessionId : string)
| call_sessionError (now : Z) (sessionId : string)
| call_registry (op : RegistryOp).

Definition apply_call (c : ManagerCall) (w : CloudSessionManager.World)
  : CloudSessionManager.World :=
  let on f := CloudSessionManager.with_manager (f (CloudSessionManager.manager w)) w in
  match c with
  | call_setSocketIOServer => on CloudSessionManager.setSocketIOServer
  | call_createCloudSession x options =>
      snd (CloudSessionManager.createCloudSession x options w)
  | call_startPendingSessionsForEndpoint endpointId =>
      snd (CloudSessionManager.emit
             (CloudSessionManager.startPendingSessionsForEndpoint
                endpointId (CloudSessionManager.manager w)) w)
  | call_sessionStarted now sessionId => on (CloudSessionManager.sessionStarted now sessionId)
  | call_sessionEnded now sessionId => on (CloudSessionManager.sessionEnded now sessionId)
  | call_sessionError now sessionId => on (CloudSessionManager.sessionError now sessionId)
  | call_registry op =>
      on (fun m => CloudSessionManager.with_registry
                     (apply_op op (CloudSessionManager.endpointRegistry m)) m)
  end.

Definition apply_calls (cs : list ManagerCall) (w : CloudSessionManager.World)
  : CloudSessionManager.World :=
  fold_left (fun w c => apply_call c w) cs w.

Definition count_status (st : SessionStatus) (m : CloudSessionManager.t) : nat :=
  List.length (filter (fun s => session_status_eqb (cs_status s) st)
                      (JsMap.values (CloudSessionManager.sessions m))).

(** What reaches the server: the create-session route and the socket events. *)
Inductive Incoming :=
| in_create_session (x : CreateOutcomes) (options : CreateCloudSessionOptions)
| in_endpoint_register (now : Z) (socket : string) (data : Handlers.RegisterData)
| in_endpoint_unregister (endpointId : string)
| in_session_started (now : Z) (sessionId : string)
| in_session_ended (now : Z) (sessionId : string)
| in_session_error (now : Z) (sessionId : string) (err : option string)
| in_message_from_claude (sessionId message : string)
| in_message_to_claude (socket sessionId message : string)
| in_endpoint_heartbeat (now : Z) (endpointId : string).

Definition handle (i : Incoming) (s : Handlers.Server) : Handlers.Server :=
  match i with
  | in_create_session x options => snd (Handlers.create_session x options s)
  | in_endpoint_register now socket data => Handlers.on_endpoint_register now socket data s
  | in_endpoint_unregister endpointId => Handlers.on_endpoint_unregister endpointId s
  | in_session_started now sessionId => Handlers.on_session_started now sessionId s
  | in_session_ended now sessionId => Handlers.on_session_ended now sessionId s
  | in_session_error now sessionId err => Handlers.on_session_error now sessionId err s
  | in_message_from_claude sessionId message =>
      Handlers.on_message_from_claude sessionId message s
  | in_message_to_claude socket sessionId message =>
      Handlers.on_message_to_claude socket sessionId message s
  | in_endpoint_heartbeat now endpointId => Handlers.on_endpoint_heartbeat now endpointId s
  end.

Definition handle_all (events : list Incoming) (s : Handlers.Server) : Handlers.Server :=
  fold_left (fun s i => handle i s) events s.

Definition terminal (st : SessionStatus) : bool :=
  match st with ended | error => true | _ => false end.

(** The session's status in the manager of a server, if the session is known. *)
Definition status_of (sessionId : string) (m : CloudSessionManager.t) : option SessionStatus :=
  option_map cs_status (CloudSessionManager.getSession sessionId m).

Definition endedAt_of (sessionId : string) (m : CloudSessionManager.t) : option (option Z) :=
  option_map cs_endedAt (CloudSessionManager.getSession sessionId m).



(** [e] is the first element of least [load] in [l]. *)
Definition first_least {A : Type} (load : A -> nat) (l : list A) (e : A) : Prop :=
  exists before after,
    l = before ++ e :: after /\
    (forall y, In y before -> (load e < load y)%nat) /\
    (forall y, In y after -> (load e <= load y)%nat).

(** A session that has reached [ended] or [error] holds no assignment. *)
Definition terminal_unassigned (m : CloudSessionManager.t) : Prop :=
  forall sessionId s,
    JsMap.get sessionId (CloudSessionManager.sessions m) = Some s ->
    terminal (cs_status s) = true ->
    JsMap.get sessionId
      (EndpointRegistry.sessionAssignments (CloudSessionManager.endpointRegistry m)) = None.

(* ------------------------------------------------------------------ *)
(** ** Sample inputs *)

Definition sample_registration (endpointId : string) (n : Z) : EndpointRegistration :=
  {| reg_endpointId := endpointId;
     reg_type := ty_cloud_e2b;
     reg_capabilities := {| maxSessions := JsNumber.of_Z n;
                            supportedAgents := ["claude"; "codex"] |};
     reg_metadata := None |}.

Definition sample_options : CreateCloudSessionOptions :=
  {| o_userId := "user-1"; o_sessionId := None; o_workingDirectory := None;
     o_initialMessage := None; o_agentType := Some claude |}.

(** A [createCloudSession] call whose database row gets id [S1]. *)
Definition sample_outcomes (sandbox : Outcome string) : CreateOutcomes :=
  {| x_now := 100; x_sessionId := "0f0e"; x_authToken := "tok-1";
     x_sandbox := sandbox; x_userSeq := Returned 7;
     x_dbSessionId := Returned "S1"; x_updateKey := "k1" |}.

Definition fresh_server : Handlers.Server :=
  Handlers.setupCloudEndpointHandlers "https://vibe.example".

(** The server after one [createCloudSession] that had to provision the
    endpoint [e2b-sbx]. *)
Definition server_with_pending_session : Handlers.Server :=
  handle (in_create_session (sample_outcomes (Returned "sbx")) sample_options) fresh_server.

(** The register event of the runner in sandbox [sbx]. *)
Definition runner_registration (token : option string) : Handlers.RegisterData :=
  {| Handlers.rd_registration := sample_registration "e2b-sbx" 1;
     Handlers.rd_authToken := token |}.

(** Scenario: create, register, started, ended (at time 400). *)
Definition server_after_session_ended : Handlers.Server :=
  handle_all [in_endpoint_register 200 "sock-1" (runner_registration (Some "tok-1"));
              in_session_started 300 "S1";
              in_session_ended 400 "S1"]
             server_with_pending_session.

(** A runner limited to one session, with session [S1] running. *)
Definition busy_runner : CloudRunner.t :=
  {| CloudRunner.endpointId := "e2b-sbx";
     CloudRunner.maxConcurrentSessions := Some 1;
     CloudRunner.activeSessions :=
       [("S1", {| CloudRunner.sessionId := "S1"; CloudRunner.process := Some 4242;
                  CloudRunner.status := CloudRunner.running;
                  CloudRunner.agentType := claude;
                  CloudRunner.workingDirectory := Some "/home/user" |})];
     CloudRunner.socket := true;
     CloudRunner.sent := [];
     CloudRunner.spawned := [] |}.

Definition start_S1 : CloudRunner.StartData :=
  {| CloudRunner.sd_sessionId := "S1"; CloudRunner.sd_agentType := claude;
     CloudRunner.sd_workingDirectory := None; CloudRunner.sd_initialMessage := None |}.


(** Three endpoints with two slots each, registered in the order [e2b-a],
    [e2b-b], [e2b-c]; [e2b-a] holds one session, the others none. *)
Definition registry_with_tie : EndpointRegistry.t :=
  apply_ops [op_register 1 (sample_registration "e2b-a" 2);
             op_register 2 (sample_registration "e2b-b" 2);
             op_register 3 (sample_registration "e2b-c" 2);
             op_assign 4 "s1" "e2b-a"]
            EndpointRegistry.empty.

(** Register [e2b-a] with two slots and assign [s1] to it. *)
Definition registry_with_one_session : EndpointRegistry.t :=
  apply_ops [op_register 1 (sample_registration "e2b-a" 2); op_assign 2 "s1" "e2b-a"]
            EndpointRegistry.empty.

(** Every key of [a] is a key of [b], and [b] is at least as large. *)
Definition kept {V : Type} (a b : JsMap.t V) : Prop :=
  (JsMap.size a <= JsMap.size b)%nat /\
  forall k, JsMap.has k a = true -> JsMap.has k b = true.

(* ------------------------------------------------------------------ *)
(** ** The cloud runner: stopping, process exit, messages, shutdown *)

Module RunnerLifecycle.

Inductive Signal := SIGTERM | SIGKILL.

(** The [error] field of a [session:error] the runner sends after start:
    [`Process exited with code ${code}`] ([None] is [null], a death by
    signal), or the message of the child's [error] event. *)
Inductive ErrorReason :=
| exited_with_code (code : option Z)
| process_error (message : string).

(** What these handlers do besides changing the session table. *)
Inductive Effect :=
| emit_session_ended (sessionId endpointId : string)
| emit_session_error (sessionId : string) (reason : ErrorReason)
| emit_endpoint_unregister (endpointId : string)
| kill (pid : Z) (signal : Signal)
| stdin_write (pid : Z) (data : string)
| schedule_force_kill (pid : Z)          (* setTimeout(..., 5000) in stopSession *)
| schedule_forget (sessionId : string)   (* setTimeout(..., 5000) in the exit handler *)
| socket_disconnect.

(** [this.socket?.emit(...)] *)
Definition emit (r : CloudRunner.t) (e : Effect) : list Effect :=
  if CloudRunner.socket r then [e] else [].

Definition with_status (st : CloudRunner.Status) (s : CloudRunner.Session)
  : CloudRunner.Session :=
  {| CloudRunner.sessionId := CloudRunner.sessionId s;
     CloudRunner.process := CloudRunner.process s;
     CloudRunner.status := st;
     CloudRunner.agentType := CloudRunner.agentType s;
     CloudRunner.workingDirectory := CloudRunner.workingDirectory s |}.

Definition without_process (s : CloudRunner.Session) : CloudRunner.Session :=
  {| CloudRunner.sessionId := CloudRunner.sessionId s;
     CloudRunner.process := None;
     CloudRunner.status := CloudRunner.status s;
     CloudRunner.agentType := CloudRunner.agentType s;
     CloudRunner.workingDirectory := CloudRunner.workingDirectory s |}.

(** [stopSession(sessionId)] *)
Definition stopSession (sessionId : string) (r : CloudRunner.t)
  : CloudRunner.t * list Effect :=
  match JsMap.get sessionId (CloudRunner.activeSessions r) with
  | None => (r, [])
  | Some session =>
      (CloudRunner.with_activeSessions
         (JsMap.delete sessionId (CloudRunner.activeSessions r)) r,
       match CloudRunner.process session with
       | Some pid => [kill pid SIGTERM; schedule_force_kill pid]
       | None => []
       end
       ++ emit r (emit_session_ended sessionId (CloudRunner.endpointId r)))
  end.

(** The [exit] handler [spawnAgent] installs on the child of [sessionId]. *)
Definition on_exit (sessionId : string) (code : option Z) (r : CloudRunner.t)
  : CloudRunner.t * list Effect :=
  let clean := match code with Some c => c =? 0 | None => false end in
  let r' :=
    match JsMap.get sessionId (CloudRunner.activeSessions r) with
    | Some session =>
        CloudRunner.with_activeSessions
          (JsMap.set sessionId
             (without_process
                (with_status (if clean then CloudRunner.ended else CloudRunner.error)
                             session))
             (CloudRunner.activeSessions r)) r
    | None => r
    end in
  (r',
   emit r (if clean
           then emit_session_ended sessionId (CloudRunner.endpointId r)
           else emit_session_error sessionId (exited_with_code code))
   ++ [schedule_forget sessionId]).

(** The [error] handler [spawnAgent] installs on the child of [sessionId]. *)
Definition on_process_error (sessionId message : string) (r : CloudRunner.t)
  : CloudRunner.t * list Effect :=
  (match JsMap.get sessionId (CloudRunner.activeSessions r) with
   | Some session =>
       CloudRunner.with_activeSessions
         (JsMap.set sessionId (with_status CloudRunner.error session)
                    (CloudRunner.activeSessions r)) r
   | None => r
   end,
   emit r (emit_session_error sessionId (process_error message))).

(** The callback the exit handler schedules: [activeSessions.delete(sessionId)]. *)
Definition on_forget_timer (sessionId : string) (r : CloudRunner.t) : CloudRunner.t :=
  CloudRunner.with_activeSessions
    (JsMap.delete sessionId (CloudRunner.activeSessions r)) r.

Definition status_eqb (a b : CloudRunner.Status) : bool :=
  match a, b with
  | CloudRunner.starting, CloudRunner.starting
  | CloudRunner.running, CloudRunner.running
  | CloudRunner.ended, CloudRunner.ended
  | CloudRunner.error, CloudRunner.error => true
  | _, _ => false
  end.

(** [sendMessageToAgent(sessionId, message)]; [text] is the message as a
    string (itself, or its [JSON.stringify]), [stdin_open] whether the
    child has a [stdin] stream. *)
Definition sendMessageToAgent (sessionId text : string) (stdin_open : bool)
           (r : CloudRunner.t) : list Effect :=
  match JsMap.get sessionId (CloudRunner.activeSessions r) with
  | None => []
  | Some session =>
      match CloudRunner.process session with
      | None => []
      | Some pid =>
          if negb (status_eqb (CloudRunner.status session) CloudRunner.running) then []
          else if stdin_open
               then [stdin_write pid (String.append text (String "010"%char EmptyString))]
               else []
      end
  end.

(** [cleanup()]: stop the sessions in table order, unregister when the
    socket is connected, disconnect when there is a socket. *)
Definition stop_next (acc : CloudRunner.t * list Effect) (sessionId : string)
  : CloudRunner.t * list Effect :=
  let '(r1, es) := stopSession sessionId (fst acc) in (r1, snd acc ++ es).

Definition cleanup (connected : bool) (r : CloudRunner.t) : CloudRunner.t * list Effect :=
  let '(r', effects) :=
    fold_left stop_next (JsMap.keys (CloudRunner.activeSessions r)) (r, []) in
  (r',
   effects
   ++ (if CloudRunner.socket r' && connected
       then [emit_endpoint_unregister (CloudRunner.endpointId r')] else [])
   ++ (if CloudRunner.socket r' then [socket_disconnect] else [])).

(** What the runner reacts to. *)
Inductive Incident :=
| i_start (data : CloudRunner.StartData) (child : Outcome Z)
| i_stop (sessionId : string)
| i_message (sessionId text : string) (stdin_open : bool)
| i_exit (sessionId : string) (code : option Z)
| i_process_error (sessionId message : string)
| i_forget (sessionId : string).

Definition react (i : Incident) (r : CloudRunner.t) : CloudRunner.t :=
  match i with
  | i_start data child => CloudRunner.startSession data child r
  | i_stop sessionId => fst (stopSession sessionId r)
  | i_message _ _ _ => r
  | i_exit sessionId code => fst (on_exit sessionId code r)
  | i_process_error sessionId message => fst (on_process_error sessionId message r)
  | i_forget sessionId => on_forget_timer sessionId r
  end.

Definition react_all (incidents : list Incident) (r : CloudRunner.t) : CloudRunner.t :=
  fold_left (fun r i => react i r) incidents r.

End RunnerLifecycle.

(* ------------------------------------------------------------------ *)
(** ** e2bProvider.ts: the provider and its table of sandboxes *)

(** [s.includes(pat)] on strings. *)
Fixpoint str_includes (pat s : string) : bool :=
  String.prefix pat s
  || match s with
     | EmptyString => false
     | String _ s' => str_includes pat s'
     end.

(** White space and line terminators of ECMAScript among the code units
    below 256: tab, line feed, vertical tab, form feed, carriage return,
    space and no-break space. *)
Definition is_white_space (c : ascii) : bool :=
  let n := nat_of_ascii c in
  (((9 <=? n) && (n <=? 13)) || (n =? 32) || (n =? 160))%nat.

Fixpoint trim_start (s : string) : string :=
  match s with
  | EmptyString => EmptyString
  | String c s' => if is_white_space c then trim_start s' else s
  end.

Fixpoint trim_end (s : string) : string :=
  match s with
  | EmptyString => EmptyString
  | String c s' =>
      match trim_end s' with
      | EmptyString => if is_white_space c then EmptyString else String c EmptyString
      | rest => String c rest
      end
  end.

(** [String.prototype.trim] on the strings of this development, whose code
    units are below 256. *)
Definition trim_latin1 (s : string) : string := trim_end (trim_start s).

Module E2BSandboxes.

(** The provider object; a sandbox handle carries nothing the code reads
    but its id, the key of the table. *)
Record t := {
  e2bApiKey : string;
  sandboxTemplate : string;
  activeSandboxes : JsMap.t unit
}.

Definition create (apiKey : string) : t :=
  {| e2bApiKey := apiKey; sandboxTemplate := "vibe-runner";
     activeSandboxes := JsMap.empty |}.

Definition with_activeSandboxes (a : JsMap.t unit) (p : t) : t :=
  {| e2bApiKey := e2bApiKey p; sandboxTemplate := sandboxTemplate p;
     activeSandboxes := a |}.

(** What the E2B SDK answers during one [spawnEndpoint]: the id of the
    sandbox [Sandbox.create] makes, and the pid of [npm start] from
    [sandbox.commands.run]; either call may throw. *)
Record Sdk := {
  sdk_create : Outcome string;
  sdk_run : Outcome Z
}.

Definition api_key_required : string :=
  "E2B_API_KEY is required for cloud sessions. Please set it in your .env file or as an environment variable.".

Definition localhost_refused : string :=
  String.append
    "Cannot use localhost with E2B sandboxes. E2B sandboxes are isolated and cannot reach "
    (String.append
       "localhost on the host machine. Use a tunnel service (ngrok/localtunnel) for local development, "
       "or deploy the server publicly. See server logs for detailed instructions.").

Definition spawn_failed (message : string) : string :=
  String.append "Failed to spawn E2B sandbox: " message.

(** [validateApiKey()] throws: [!this.e2bApiKey || this.e2bApiKey.trim() === ''].
    [trim] is [String.prototype.trim]. *)
Definition api_key_missing (trim : string -> string) (p : t) : bool :=
  String.eqb (e2bApiKey p) "" || String.eqb (trim (e2bApiKey p)) "".

(** [spawnEndpoint(options)]; [startRunner] is the option of that name
    ([None] when it is not given), [trim] is [String.prototype.trim]. *)
Definition spawnEndpoint (trim : string -> string) (now : Z) (options : SpawnOptions)
           (startRunner : option bool) (sdk : Sdk) (p : t) : Outcome CloudEndpoint * t :=
  if api_key_missing trim p
  then (Threw api_key_required, p)
  else if str_includes "localhost" (sp_serverUrl options)
          || str_includes "127.0.0.1" (sp_serverUrl options)
  then (Threw localhost_refused, p)
  else
    match sdk_create sdk with
    | Threw message => (Threw (spawn_failed message), p)
    | Returned sandboxId =>
        let p1 := with_activeSandboxes (JsMap.set sandboxId tt (activeSandboxes p)) p in
        let started :=
          match startRunner with
          | Some false => Returned tt
          | _ => match sdk_run sdk with
                 | Returned _ => Returned tt
                 | Threw message => Threw message
                 end
          end in
        match started with
        | Threw message => (Threw (spawn_failed message), p1)
        | Returned _ =>
            (E2BProvider.spawnEndpoint now options (Returned sandboxId), p1)
        end
    end.

(** [killEndpoint(sandboxId)]; [killed] is what the SDK's kill call does
    when it is reached. *)
Definition killEndpoint (sandboxId : string) (killed : Outcome unit) (p : t) : t :=
  match JsMap.get sandboxId (activeSandboxes p) with
  | None => p
  | Some _ =>
      match killed with
      | Returned _ => with_activeSandboxes (JsMap.delete sandboxId (activeSandboxes p)) p
      | Threw _ => p
      end
  end.

Inductive SandboxStatus := sb_running | sb_stopped | sb_unknown.

(** [getSandboxStatus(sandboxId)]; [ping] is the outcome of the [echo]
    command when the sandbox is in the table. *)
Definition getSandboxStatus (sandboxId : string) (ping : Outcome unit) (p : t)
  : SandboxStatus :=
  match JsMap.get sandboxId (activeSandboxes p) with
  | None => sb_unknown
  | Some _ => match ping with Returned _ => sb_running | Threw _ => sb_stopped end
  end.

(** [cleanup()]: [killEndpoint] for every sandbox in the table; [killed]
    gives the outcome of each kill. *)
Definition cleanup (killed : string -> Outcome unit) (p : t) : t :=
  fold_left (fun p sandboxId => killEndpoint sandboxId (killed sandboxId) p)
            (JsMap.keys (activeSandboxes p)) p.

End E2BSandboxes.

(* ------------------------------------------------------------------ *)
(** ** Further invariants and relations *)

(** Every session set of the registry is duplicate-free, as a [Set] is. *)
Definition sets_ok (r : EndpointRegistry.t) : Prop :=
  forall k ss, JsMap.get k (EndpointRegistry.endpointSessions r) = Some ss -> NoDup ss.

(** Two endpoint records that differ at most in their metadata. *)
Definition same_endpoint (a b : CloudEndpoint) : Prop :=
  ce_id a = ce_id b /\ ce_type a = ce_type b /\ ce_sandboxId a = ce_sandboxId b
  /\ ce_status a = ce_status b /\ ce_capabilities a = ce_capabilities b.

Definition is_online (e : CloudEndpoint) : bool := status_eqb (ce_status e) st_online.

(** The event is the create-session route. *)
Definition is_create (i : Incoming) : bool :=
  match i with in_create_session _ _ => true | _ => false end.

(** The pending tokens of a server. *)
Definition pending_of (s : Handlers.Server) : JsMap.t string :=
  CloudSessionManager.pendingEndpoints (CloudSessionManager.manager (Handlers.world s)).

(** Endpoint keys are unique and each endpoint is stored under its own id. *)
Definition keyed_ok (r : EndpointRegistry.t) : Prop :=
  NoDup (JsMap.keys (EndpointRegistry.endpoints r)) /\
  forall k e, JsMap.get k (EndpointRegistry.endpoints r) = Some e -> ce_id e = k.

(** The first of the two store calls of [createCloudSession] that throws. *)
Definition store_failure (x : CreateOutcomes) : option string :=
  match x_userSeq x with
  | Threw message => Some message
  | Returned _ =>
      match x_dbSessionId x with
      | Threw message => Some message
      | Returned _ => None
      end
  end.

(** The session [createCloudSession] stores for [options] on [endpointId]. *)
Definition new_session (x : CreateOutcomes) (options : CreateCloudSessionOptions)
           (dbId endpointId : string) (st : SessionStatus) : CloudSession :=
  {| cs_sessionId := dbId;
     cs_userId := o_userId options;
     cs_endpointId := endpointId;
     cs_status := st;
     cs_createdAt := x_now x;
     cs_startedAt := None;
     cs_endedAt := None;
     cs_options :=
       Some {| so_agentType := match o_agentType options with
                               | Some a => a | None => claude end;
               so_workingDirectory := o_workingDirectory options;
               so_initialMessage := o_initialMessage options |} |}.

(** The [session:start] event for [options]. *)
Definition start_event (options : CreateCloudSessionOptions) (dbId endpointId : string)
  : Emitted :=
  (endpoint_room endpointId,
   ev_session_start dbId (match o_agentType options with Some a => a | None => claude end)
                    (o_workingDirectory options) (o_initialMessage options)).

(** The error a socket gets for a message to a session without assignment. *)
Definition not_assigned : string := "Session not found or not assigned to endpoint".

(** The kill of a sandbox succeeded. *)
Definition kill_succeeded (killed : string -> Outcome unit) (sandboxId : string) : bool :=
  match killed sandboxId with Returned _ => true | Threw _ => false end.

(** The options [spawnNewEndpoint] passes for a server at [serverUrl]. *)
Definition manager_spawn_options (authToken serverUrl : string) : SpawnOptions :=
  {| sp_authToken := authToken; sp_serverUrl := serverUrl;
     sp_maxConcurrentSessions := Some (JsNumber.of_Z 1);
     sp_timeoutMs := Some (JsNumber.of_Z 3600000) |}.

(* ------------------------------------------------------------------ *)
(** ** More sample inputs *)

(** A second [createCloudSession] call, whose database row gets id [S2]. *)
Definition second_outcomes (sandbox : Outcome string) : CreateOutcomes :=
  {| x_now := 250; x_sessionId := "1a1b"; x_authToken := "tok-2";
     x_sandbox := sandbox; x_userSeq := Returned 8;
     x_dbSessionId := Returned "S2"; x_updateKey := "k2" |}.

(** A call whose database write fails after the sequence number was given. *)
Definition failing_store_outcomes : CreateOutcomes :=
  {| x_now := 100; x_sessionId := "0f0e"; x_authToken := "tok-1";
     x_sandbox := Returned "sbx"; x_userSeq := Returned 7;
     x_dbSessionId := Threw "database unavailable"; x_updateKey := "k1" |}.

(** Create (provisioning [e2b-sbx]), then the registration of [e2b-sbx]. *)
Definition events_until_registered : list Incoming :=
  [in_create_session (sample_outcomes (Returned "sbx")) sample_options;
   in_endpoint_register 200 "sock-1" (runner_registration (Some "tok-1"))].


(** The endpoint [e2b-sbx] as the registry holds it after that registration. *)
Definition registered_sbx : CloudEndpoint :=
  {| ce_id := "e2b-sbx"; ce_type := ty_cloud_e2b; ce_sandboxId := "sbx";
     ce_status := st_online;
     ce_capabilities := {| maxSessions := JsNumber.of_Z 1;
                           supportedAgents := ["claude"; "codex"] |};
     ce_metadata := {| md_extra := []; spawnedAt := 200; lastSeen := Some 200 |} |}.

(** A runner with room for two sessions and an empty table. *)
Definition idle_runner : CloudRunner.t :=
  {| CloudRunner.endpointId := "e2b-sbx";
     CloudRunner.maxConcurrentSessions := Some 2;
     CloudRunner.activeSessions := [];
     CloudRunner.socket := true;
     CloudRunner.sent := [];
     CloudRunner.spawned := [] |}.

(** Two endpoints with session sets, as after two registrations. *)
Definition registry_with_two_endpoints : EndpointRegistry.t :=
  apply_ops [op_register 1 (sample_registration "e2b-a" 2);
             op_register 2 (sample_registration "e2b-b" 2)]
            EndpointRegistry.empty.

(* ================================================================== *)
(** * Properties *)

(** ** [JsMap] and [JsSet] *)

Section JsMapFacts.
Context {V : Type}.
Implicit Types (m : JsMap.t V) (k : string) (v : V).

Lemma get_set_same k v m : JsMap.get k (JsMap.set k v m) = Some v.
Proof.
  induction m as [|[k' v'] m IH]; simpl.
  - now rewrite String.eqb_refl.
  - destruct (String.eqb k k') eqn:E; simpl.
    + now rewrite String.eqb_refl.
    + now rewrite E.
Qed.

Lemma get_set_other k k' v m :
  k <> k' -> JsMap.get k' (JsMap.set k v m) = JsMap.get k' m.
Proof.
  intros Hne. induction m as [|[k0 v0] m IH]; simpl.
  - destruct (String.eqb_spec k' k); congruence.
  - destruct (String.eqb_spec k k0) as [->|Hk]; simpl.
    + destruct (String.eqb_spec k' k0); congruence.
    + destruct (String.eqb_spec k' k0); congruence.
Qed.

Lemma get_set k k' v m :
  JsMap.get k' (JsMap.set k v m) = if String.eqb k k' then Some v else JsMap.get k' m.
Proof.
  destruct (String.eqb_spec k k') as [->|Hne].
  - apply get_set_same.
  - now apply get_set_other.
Qed.

Lemma set_set k v1 v2 m : JsMap.set k v2 (JsMap.set k v1 m) = JsMap.set k v2 m.
Proof.
  induction m as [|[k' v'] m IH]; simpl.
  - now rewrite String.eqb_refl.
  - destruct (String.eqb k k') eqn:E; simpl.
    + now rewrite String.eqb_refl.
    + now rewrite E, IH.
Qed.

Lemma keys_set k v m :
  JsMap.keys (JsMap.set k v m)
  = if JsMap.has k m then JsMap.keys m else JsMap.keys m ++ [k].
Proof.
  unfold JsMap.has. induction m as [|[k' v'] m IH]; simpl; [reflexivity|].
  destruct (String.eqb_spec k k') as [->|Hne]; simpl; [reflexivity|].
  rewrite IH. now destruct (JsMap.get k m).
Qed.

Lemma size_set k v m :
  JsMap.size (JsMap.set k v m)
  = if JsMap.has k m then JsMap.size m else S (JsMap.size m).
Proof.
  unfold JsMap.size, JsMap.has. induction m as [|[k' v'] m IH]; simpl; [reflexivity|].
  destruct (String.eqb_spec k k') as [->|Hne]; simpl; [reflexivity|].
  rewrite IH. now destruct (JsMap.get k m).
Qed.

Lemma size_set_le k v m : (JsMap.size m <= JsMap.size (JsMap.set k v m))%nat.
Proof. rewrite size_set. destruct (JsMap.has k m); lia. Qed.

Lemma get_delete k k' m :
  JsMap.get k' (JsMap.delete k m) = if String.eqb k k' then None else JsMap.get k' m.
Proof.
  unfold JsMap.delete. induction m as [|[k0 v0] m IH]; simpl.
  - now destruct (String.eqb k k').
  - destruct (String.eqb_spec k k0) as [->|Hk]; simpl.
    + rewrite IH. destruct (String.eqb_spec k0 k') as [->|Hk']; [reflexivity|].
      destruct (String.eqb_spec k' k0); congruence.
    + rewrite IH. destruct (String.eqb_spec k k') as [->|Hk'].
      * destruct (String.eqb_spec k' k0); congruence.
      * reflexivity.
Qed.

Lemma get_delete_none k k' m :
  JsMap.get k' m = None -> JsMap.get k' (JsMap.delete k m) = None.
Proof. intros H. rewrite get_delete, H. now destruct (String.eqb k k'). Qed.

Lemma get_In k v m : JsMap.get k m = Some v -> In (k, v) m.
Proof.
  induction m as [|[k' v'] m IH]; simpl; [discriminate|].
  destruct (String.eqb_spec k k') as [->|Hne].
  - intros [= ->]. now left.
  - intros H. right. now apply IH.
Qed.

Lemma In_get k v m : NoDup (JsMap.keys m) -> In (k, v) m -> JsMap.get k m = Some v.
Proof.
  induction m as [|[k' v'] m IH]; simpl; [contradiction|].
  intros Hnd [[= -> ->]|Hin].
  - now rewrite String.eqb_refl.
  - inversion Hnd as [|? ? Hnotin Hnd']; subst.
    destruct (String.eqb_spec k k') as [->|Hne].
    + exfalso. apply Hnotin. change k' with (fst (k', v)). now apply in_map.
    + now apply IH.
Qed.

Lemma NoDup_keys_set k v m : NoDup (JsMap.keys m) -> NoDup (JsMap.keys (JsMap.set k v m)).
Proof.
  intros Hnd. rewrite keys_set. unfold JsMap.has.
  destruct (JsMap.get k m) eqn:E; [assumption|].
  apply NoDup_app; [assumption| repeat constructor; intros [] |].
  intros x Hin [<-|[]].
  apply in_map_iff in Hin as [[k0 v0] [Hk Hin]]; simpl in Hk; subst k0.
  apply (In_get _ _ _ Hnd) in Hin. congruence.
Qed.

Lemma NoDup_keys_delete k m : NoDup (JsMap.keys m) -> NoDup (JsMap.keys (JsMap.delete k m)).
Proof.
  unfold JsMap.delete, JsMap.keys.
  induction m as [|[k' v'] m IH]; simpl; [trivial|].
  intros Hnd. inversion Hnd as [|? ? Hnotin Hnd']; subst.
  destruct (negb (String.eqb k k')); simpl; [|now apply IH].
  constructor; [|now apply IH].
  intros Hin. apply Hnotin.
  apply in_map_iff in Hin as [x [Hx Hin]]. apply filter_In in Hin as [Hin _].
  rewrite <- Hx. now apply in_map.
Qed.
End JsMapFacts.



Lemma jsset_has_In x s : JsSet.has x s = true <-> In x s.
Proof.
  unfold JsSet.has. rewrite existsb_exists. split.
  - intros (y & Hin & Heq). apply String.eqb_eq in Heq. now subst.
  - intros Hin. exists x. split; [assumption | apply String.eqb_refl].
Qed.

Lemma fold_delete_get {V} (ss : list string) : forall (m : JsMap.t V) k,
  JsMap.get k (fold_left (fun m sessionId => JsMap.delete sessionId m) ss m)
  = if JsSet.has k ss then None else JsMap.get k m.
Proof.
  induction ss as [|x ss IH]; simpl; intros m k; [reflexivity|].
  rewrite IH, get_delete. rewrite (String.eqb_sym k x).
  destruct (JsSet.has k ss), (String.eqb x k); reflexivity.
Qed.

Lemma jsset_add_NoDup x s : NoDup s -> NoDup (JsSet.add x s).
Proof.
  intros Hnd. unfold JsSet.add. destruct (JsSet.has x s) eqn:Hhas; [assumption|].
  apply NoDup_app; [assumption | repeat constructor; intros [] |].
  intros y Hin [<-|[]]. apply jsset_has_In in Hin. congruence.
Qed.

Lemma jsset_delete_NoDup x s : NoDup s -> NoDup (JsSet.delete x s).
Proof. apply NoDup_filter. Qed.




(** ** Numbers compared with sizes *)




(** ** Capacity accounting of the registry *)













(** [assignSession] never refuses: the assignment is recorded whatever the
    endpoint's load. *)
Lemma assignSession_always_records now sessionId endpointId r :
  EndpointRegistry.getSessionAssignment sessionId
    (snd (EndpointRegistry.assignSession now sessionId endpointId r))
  = Some {| sa_endpointId := endpointId; sa_sessionId := sessionId; sa_assignedAt := now |}.
Proof. apply get_set_same. Qed.


(** ** Placement: the head of the sorted list of available endpoints *)

Section SortHead.
Context {A : Type} (load : A -> nat) (cmp : A -> A -> Z).
Hypothesis cmp_load : forall a b, cmp a b = Z.of_nat (load a) - Z.of_nat (load b).

Lemma hd_insert_sorted x l :
  hd_error (insert_sorted cmp x l)
  = Some (match l with
          | [] => x
          | y :: _ => if (load x <=? load y)%nat then x else y
          end).
Proof.
  destruct l as [|y l]; simpl; [reflexivity|]. rewrite cmp_load.
  destruct (Nat.leb_spec (load x) (load y));
    destruct (Z.leb_spec (Z.of_nat (load x) - Z.of_nat (load y)) 0);
    try lia; reflexivity.
Qed.

Lemma js_sort_nil l : js_sort cmp l = [] -> l = [].
Proof.
  destruct l as [|x l]; [reflexivity|]. simpl. intros H.
  pose proof (hd_insert_sorted x (js_sort cmp l)) as Hhd.
  rewrite H in Hhd. discriminate.
Qed.

Lemma js_sort_hd l e : hd_error (js_sort cmp l) = Some e -> first_least load l e.
Proof.
  revert e. induction l as [|x l IH]; simpl; intros e; [discriminate|].
  rewrite hd_insert_sorted.
  destruct (js_sort cmp l) as [|h t] eqn:Hs.
  - intros [= <-]. apply js_sort_nil in Hs; subst l.
    exists [], []. repeat split; intros y [].
  - destruct (IH h eq_refl) as (b & a & Hl & Hb & Ha).
    destruct (Nat.leb_spec (load x) (load h)) as [Hle|Hlt]; intros [= <-].
    + exists [], l. repeat split; [intros y []|].
      intros y Hin. rewrite Hl in Hin. apply in_app_or in Hin as [Hin|[<-|Hin]].
      * specialize (Hb y Hin). lia.
      * assumption.
      * specialize (Ha y Hin). lia.
    + exists (x :: b), a. rewrite Hl. repeat split; [|assumption].
      intros y [<-|Hin]; [assumption | now apply Hb].
Qed.
End SortHead.





(** Of two idle endpoints the one registered first is chosen, and a full
    registry gives no placement. *)
Example findAvailableEndpoint_tie :
  option_map ce_id (EndpointRegistry.findAvailableEndpoint (Some "claude") registry_with_tie)
  = Some "e2b-b".
Proof. reflexivity. Qed.

Example findAvailableEndpoint_unsupported_agent :
  EndpointRegistry.findAvailableEndpoint (Some "gemini") registry_with_tie = None.
Proof. reflexivity. Qed.

Example findAvailableEndpoint_full :
  EndpointRegistry.findAvailableEndpoint None
    (apply_ops [op_register 1 (sample_registration "e2b-a" 1); op_assign 2 "s1" "e2b-a"]
               EndpointRegistry.empty)
  = None.
Proof. reflexivity. Qed.

(** ** Violations of the capacity bound and of idempotent registration *)



(** Why the guarded sequences ask more of a registration.  A second
    registration of an endpoint empties its session set, so a second
    session passes the capacity test of a one-slot endpoint; and below a
    [maxSessions] of 3/2 there is room for a second session. *)
Example reregistration_hides_assignment :
  let ops := [op_register 1 (sample_registration "e2b-a" 1); op_assign 2 "s1" "e2b-a";
              op_register 3 (sample_registration "e2b-a" 1); op_assign 4 "s2" "e2b-a"] in
  let r := apply_ops ops EndpointRegistry.empty in
  ops_allowed (firstn 2 ops) EndpointRegistry.empty = true
  /\ ops_allowed ops EndpointRegistry.empty = false
  /\ has_free_slot "e2b-a" (apply_ops (firstn 3 ops) EndpointRegistry.empty) = true
  /\ assigned_to r "e2b-a" = 2%nat
  /\ session_set_size r "e2b-a" = 1%nat.
Proof. vm_compute. repeat split. Qed.

Example fractional_capacity_is_exceeded :
  let registration :=
    {| reg_endpointId := "e2b-a"; reg_type := ty_cloud_e2b;
       reg_capabilities := {| maxSessions := JsNumber.finite (3 # 2);
                              supportedAgents := ["claude"] |};
       reg_metadata := None |} in
  let r1 := snd (EndpointRegistry.assignSession 2 "s1" "e2b-a"
                   (EndpointRegistry.registerEndpoint 1 registration EndpointRegistry.empty)) in
  let r2 := snd (EndpointRegistry.assignSession 3 "s2" "e2b-a" r1) in
  JsNumber.is_count (JsNumber.finite (3 # 2)) = false
  /\ has_free_slot "e2b-a" r1 = true
  /\ option_map ce_id (EndpointRegistry.findAvailableEndpoint None r1) = Some "e2b-a"
  /\ assigned_to r2 "e2b-a" = 2%nat
  /\ within_capacity r2 = false.
Proof. vm_compute. repeat split. Qed.

(** C8, counterexample.  Registering [e2b-a] a second time, with the same
    descriptor and at the same time, empties its assignment set: the load
    falls from 1 to 0 and the registry differs from the one before. *)
Lemma C8_reregistration_resets_sessions :
  let r := registry_with_one_session in
  let r' := EndpointRegistry.registerEndpoint 1 (sample_registration "e2b-a" 2) r in
  EndpointRegistry.getEndpoint "e2b-a" r <> None
  /\ EndpointRegistry.currentSessions r "e2b-a" = 1%nat
  /\ EndpointRegistry.currentSessions r' "e2b-a" = 0%nat
  /\ r' <> r.
Proof.
  vm_compute. repeat split; try discriminate.
Qed.

(** C8 (as amended).  [registerEndpoint] is an upsert that overwrites: the
    endpoint is stored online under its id, its assignment set is reset to
    the empty set (also when the id was registered before), the session
    assignments are left as they were, and an id that was registered keeps
    its place in registration order while a new id goes last.  Registering
    the same descriptor twice in a row gives the state of registering it
    once at the later time. *)
Theorem C8_registerEndpoint_overwrites :
  forall (now1 now2 : Z) (registration : EndpointRegistration) (r : EndpointRegistry.t),
    let k := reg_endpointId registration in
    let r1 := EndpointRegistry.registerEndpoint now1 registration r in
    EndpointRegistry.registerEndpoint now2 registration r1
    = EndpointRegistry.registerEndpoint now2 registration r
    /\ JsMap.get k (EndpointRegistry.endpointSessions r1) = Some JsSet.empty
    /\ EndpointRegistry.currentSessions r1 k = 0%nat
    /\ option_map ce_status (EndpointRegistry.getEndpoint k r1) = Some st_online
    /\ option_map ce_capabilities (EndpointRegistry.getEndpoint k r1)
       = Some (reg_capabilities registration)
    /\ EndpointRegistry.sessionAssignments r1 = EndpointRegistry.sessionAssignments r
    /\ JsMap.keys (EndpointRegistry.endpoints r1)
       = (if JsMap.has k (EndpointRegistry.endpoints r)
          then JsMap.keys (EndpointRegistry.endpoints r)
          else JsMap.keys (EndpointRegistry.endpoints r) ++ [k]).
Proof.
  intros now1 now2 registration r k r1.
  unfold r1, EndpointRegistry.registerEndpoint, EndpointRegistry.currentSessions,
    EndpointRegistry.getEndpoint; simpl.
  rewrite !set_set, !get_set_same, keys_set.
  repeat split.
Qed.

(** ** Session status *)

(** C3, counterexample.  Session [S1] has ended; [sessionStarted] puts it
    back to [running]. *)
Lemma C3_ended_session_restarts :
  let m := CloudSessionManager.manager (Handlers.world server_after_session_ended) in
  status_of "S1" m = Some ended
  /\ status_of "S1" (CloudSessionManager.sessionStarted 500 "S1" m) = Some running.
Proof. vm_compute. split; reflexivity. Qed.

Lemma status_of_set sessionId s m :
  status_of sessionId
    (CloudSessionManager.with_sessions
       (JsMap.set sessionId s (CloudSessionManager.sessions m)) m)
  = Some (cs_status s).
Proof.
  unfold status_of, CloudSessionManager.getSession; simpl. now rewrite get_set_same.
Qed.

(** C3 (as amended).  The three reports do not look at the current status.
    On a known session, whatever its status, [sessionStarted] sets it to
    [running], [sessionEnded] to [ended] and [sessionError] to [error]; no
    report is rejected, and none sets [pending] or [starting].  On an
    unknown session id each of them leaves the manager as it is. *)
Theorem C3_reports_overwrite_status :
  forall (now : Z) (sessionId : string) (m : CloudSessionManager.t),
    match CloudSessionManager.getSession sessionId m with
    | Some _ =>
        status_of sessionId (CloudSessionManager.sessionStarted now sessionId m) = Some running
        /\ status_of sessionId (CloudSessionManager.sessionEnded now sessionId m) = Some ended
        /\ status_of sessionId (CloudSessionManager.sessionError now sessionId m) = Some error
    | None =>
        CloudSessionManager.sessionStarted now sessionId m = m
        /\ CloudSessionManager.sessionEnded now sessionId m = m
        /\ CloudSessionManager.sessionError now sessionId m = m
    end.
Proof.
  intros now sessionId m.
  unfold CloudSessionManager.getSession, CloudSessionManager.sessionStarted,
    CloudSessionManager.sessionEnded, CloudSessionManager.sessionError.
  destruct (JsMap.get sessionId (CloudSessionManager.sessions m)) as [s|]; [|now repeat split].
  repeat split.
  - apply status_of_set.
  - unfold status_of, CloudSessionManager.getSession; simpl. now rewrite get_set_same.
  - unfold status_of, CloudSessionManager.getSession; simpl. now rewrite get_set_same.
Qed.

(** ** Registration of an endpoint *)

(** C2, counterexample.  The token [tok-1] is pending for [e2b-sbx]; a
    register event for [e2b-sbx] without a token is not validated: the
    endpoint is registered, the socket joins the endpoint room and the
    pending session is started.  An empty token does the same. *)
Lemma C2_missing_token_registers :
  let s := server_with_pending_session in
  let m := CloudSessionManager.manager (Handlers.world s) in
  let s' := handle (in_endpoint_register 200 "sock-9" (runner_registration None)) s in
  let m' := CloudSessionManager.manager (Handlers.world s') in
  JsMap.get "e2b-sbx" (CloudSessionManager.pendingEndpoints m) = Some "tok-1"
  /\ CloudSessionManager.validateEndpointToken "e2b-sbx" "" m = false
  /\ EndpointRegistry.getEndpoint "e2b-sbx" (CloudSessionManager.endpointRegistry m) = None
  /\ EndpointRegistry.getEndpoint "e2b-sbx" (CloudSessionManager.endpointRegistry m') <> None
  /\ Handlers.rooms s' = [("sock-9", "endpoint:e2b-sbx")]
  /\ Handlers.socket_log s' = [("sock-9", ev_endpoint_registered "e2b-sbx")]
  /\ CloudSessionManager.io_log (Handlers.world s')
     = [("endpoint:e2b-sbx", ev_session_start "S1" claude None None)]
  /\ handle (in_endpoint_register 200 "sock-9" (runner_registration (Some ""))) s = s'.
Proof.
  vm_compute. repeat split; discriminate.
Qed.

Lemma validateEndpointToken_mismatch endpointId token m :
  token <> "" ->
  JsMap.get endpointId (CloudSessionManager.pendingEndpoints m) <> Some token ->
  CloudSessionManager.validateEndpointToken endpointId token m = false.
Proof.
  intros Hne Hget. unfold CloudSessionManager.validateEndpointToken.
  destruct (JsMap.get endpointId (CloudSessionManager.pendingEndpoints m)) as [expected|];
    [|reflexivity].
  destruct (String.eqb_spec expected token) as [->|]; [congruence|].
  apply andb_false_r.
Qed.

(** C2 (as amended).  A register event that carries a non-empty token which
    is not the token pending for its endpoint id is rejected before any
    change: the socket is sent the error [Invalid auth token] and nothing
    else happens (the endpoint is not registered, the socket joins no room,
    no session is started).  A register event without a token, or with the
    empty token, is not validated. *)
Theorem C2_wrong_token_rejected :
  forall (now : Z) (socket token : string) (registration : EndpointRegistration)
         (s : Handlers.Server),
    token <> "" ->
    JsMap.get (reg_endpointId registration)
      (CloudSessionManager.pendingEndpoints (CloudSessionManager.manager (Handlers.world s)))
    <> Some token ->
    let s' := Handlers.on_endpoint_register now socket
                {| Handlers.rd_registration := registration;
                   Handlers.rd_authToken := Some token |} s in
    Handlers.world s' = Handlers.world s
    /\ Handlers.rooms s' = Handlers.rooms s
    /\ Handlers.socket_log s'
       = Handlers.socket_log s ++ [(socket, ev_error "Invalid auth token")].
Proof.
  intros now socket token registration s Hne Hget s'.
  unfold s', Handlers.on_endpoint_register; simpl.
  assert (Htruthy : negb (String.eqb token "") = true).
  { destruct (String.eqb_spec token ""); [contradiction | reflexivity]. }
  unfold or_else; simpl. rewrite Htruthy.
  rewrite (validateEndpointToken_mismatch _ _ _ Hne Hget); simpl.
  repeat split.
Qed.

Lemma C2_wrong_token_rejected_witness :
  "tok-2" <> ""
  /\ JsMap.get (reg_endpointId (sample_registration "e2b-sbx" 1))
       (CloudSessionManager.pendingEndpoints
          (CloudSessionManager.manager (Handlers.world server_with_pending_session)))
     <> Some "tok-2"
  /\ Handlers.world
       (Handlers.on_endpoint_register 200 "sock-9" (runner_registration (Some "tok-2"))
                                      server_with_pending_session)
     = Handlers.world server_with_pending_session.
Proof.
  assert (H1 : "tok-2" <> "") by discriminate.
  assert (H2 : JsMap.get (reg_endpointId (sample_registration "e2b-sbx" 1))
                 (CloudSessionManager.pendingEndpoints
                    (CloudSessionManager.manager
                       (Handlers.world server_with_pending_session)))
               <> Some "tok-2") by (vm_compute; discriminate).
  split; [exact H1|]. split; [exact H2|].
  exact (proj1 (C2_wrong_token_rejected 200 "sock-9" "tok-2"
                  (sample_registration "e2b-sbx" 1) server_with_pending_session H1 H2)).
Defined.

(** ** [createCloudSession] *)

(** C5.  When no registered endpoint is available and the provider's spawn
    throws, [createCloudSession] throws that error and the world is the one
    it started in: the durable store has no new row, the session table, the
    registry (with its assignments) and the pending tokens are unchanged,
    and nothing was emitted. *)
Theorem C5_failed_provisioning_leaves_no_state :
  forall (x : CreateOutcomes) (options : CreateCloudSessionOptions)
         (w : CloudSessionManager.World) (message : string),
    EndpointRegistry.findAvailableEndpoint
      (option_map agent_name (o_agentType options))
      (CloudSessionManager.endpointRegistry (CloudSessionManager.manager w)) = None ->
    x_sandbox x = Threw message ->
    CloudSessionManager.createCloudSession x options w = (Threw message, w).
Proof.
  intros x options w message Hnone Hspawn.
  unfold CloudSessionManager.createCloudSession, CloudSessionManager.bind,
    CloudSessionManager.read; simpl.
  rewrite Hnone.
  unfold CloudSessionManager.spawnNewEndpoint, CloudSessionManager.bind,
    CloudSessionManager.read; simpl.
  rewrite Hspawn. reflexivity.
Qed.

Lemma C5_failed_provisioning_leaves_no_state_witness :
  CloudSessionManager.createCloudSession
    (sample_outcomes (Threw "sandbox quota exceeded")) sample_options
    (Handlers.world fresh_server)
  = (Threw "sandbox quota exceeded", Handlers.world fresh_server).
Proof.
  apply C5_failed_provisioning_leaves_no_state; reflexivity.
Defined.

(** What a [createCloudSession] call does to the session table and to the
    registry: nothing when it throws; otherwise one session, [pending] or
    [starting], is stored under the id of the new database row and assigned. *)
Lemma createCloudSession_effect x options w :
  let res := CloudSessionManager.createCloudSession x options w in
  let m := CloudSessionManager.manager w in
  let m' := CloudSessionManager.manager (snd res) in
  (CloudSessionManager.sessions m' = CloudSessionManager.sessions m
   /\ CloudSessionManager.endpointRegistry m' = CloudSessionManager.endpointRegistry m)
  \/ (exists dbId endpointId s,
         CloudSessionManager.sessions m'
         = JsMap.set dbId s (CloudSessionManager.sessions m)
         /\ terminal (cs_status s) = false
         /\ CloudSessionManager.endpointRegistry m'
            = snd (EndpointRegistry.assignSession (x_now x) dbId endpointId
                     (CloudSessionManager.endpointRegistry m))).
Proof.
  unfold CloudSessionManager.createCloudSession, CloudSessionManager.spawnNewEndpoint,
    CloudSessionManager.bind, CloudSessionManager.read, CloudSessionManager.await,
    CloudSessionManager.update, CloudSessionManager.db_session_create,
    CloudSessionManager.emitUpdate, CloudSessionManager.ret, CloudSessionManager.throw.
  cbv zeta.
  destruct (EndpointRegistry.findAvailableEndpoint _ _) as [ep|];
    [|destruct (x_sandbox x) as [sandboxId|]; simpl; [|left; now split]];
    (destruct (x_userSeq x) as [seq|]; simpl; [|left; now split]);
    (destruct (x_dbSessionId x) as [dbId|]; simpl; [|left; now split]);
    right.
  all: match goal with
       | |- context [EndpointRegistry.getEndpoint ?k ?r] =>
           destruct (EndpointRegistry.getEndpoint k r) as [info|]
       end.
  all: try match goal with
       | |- context [status_eqb ?a ?b && ?c] => destruct (status_eqb a b && c)
       end.
  all: unfold CloudSessionManager.run, CloudSessionManager.startSessionOnEndpoint,
         CloudSessionManager.ret; simpl;
       rewrite ?get_set_same; simpl.
  all: try match goal with
       | |- context [negb ?c] => destruct c; simpl
       end.
  all: rewrite ?set_set; simpl; do 3 eexists; repeat split; reflexivity.
Qed.

(** ** Reports on sessions that have already ended *)

Lemma unassignSession_get sessionId k r :
  JsMap.get k (EndpointRegistry.sessionAssignments
                 (EndpointRegistry.unassignSession sessionId r))
  = if String.eqb sessionId k then None
    else JsMap.get k (EndpointRegistry.sessionAssignments r).
Proof.
  unfold EndpointRegistry.unassignSession.
  destruct (JsMap.get sessionId (EndpointRegistry.sessionAssignments r)) as [a|] eqn:Ha;
    simpl.
  - apply get_delete.
  - destruct (String.eqb_spec sessionId k) as [<-|]; [assumption | reflexivity].
Qed.

Lemma unassignSession_unassigned sessionId r :
  JsMap.get sessionId (EndpointRegistry.sessionAssignments r) = None ->
  EndpointRegistry.unassignSession sessionId r = r.
Proof. intros H. unfold EndpointRegistry.unassignSession. now rewrite H. Qed.

Lemma fold_delete_none {V} (ss : list string) : forall (m : JsMap.t V) k,
  JsMap.get k m = None ->
  JsMap.get k (fold_left (fun m sessionId => JsMap.delete sessionId m) ss m) = None.
Proof.
  induction ss as [|x ss IH]; simpl; intros m k H; [assumption|].
  apply IH. now apply get_delete_none.
Qed.

Lemma terminal_unassigned_registry m r :
  (forall k, JsMap.get k (EndpointRegistry.sessionAssignments
                            (CloudSessionManager.endpointRegistry m)) = None ->
             JsMap.get k (EndpointRegistry.sessionAssignments r) = None) ->
  terminal_unassigned m -> terminal_unassigned (CloudSessionManager.with_registry r m).
Proof.
  intros Hsub Hinv k s Hget Hterm. simpl in *. apply Hsub. now apply (Hinv k s).
Qed.

Lemma terminal_unassigned_apply_op op m :
  (match op with op_assign _ _ _ => False | _ => True end) ->
  terminal_unassigned m ->
  terminal_unassigned
    (CloudSessionManager.with_registry
       (apply_op op (CloudSessionManager.endpointRegistry m)) m).
Proof.
  intros Hop. apply terminal_unassigned_registry. intros k Hk.
  destruct op; simpl; try contradiction.
  - assumption.
  - destruct (JsMap.get endpointId _); [now apply fold_delete_none | assumption].
  - unfold EndpointRegistry.updateLastSeen.
    now destruct (JsMap.get endpointId _).
  - rewrite unassignSession_get, Hk. now destruct (String.eqb sessionId k).
Qed.

Lemma terminal_unassigned_started now sessionId m :
  terminal_unassigned m ->
  terminal_unassigned (CloudSessionManager.sessionStarted now sessionId m).
Proof.
  intros Hinv. unfold CloudSessionManager.sessionStarted.
  destruct (JsMap.get sessionId (CloudSessionManager.sessions m)) as [s0|]; [|assumption].
  intros k s; simpl. rewrite get_set.
  destruct (String.eqb sessionId k).
  - intros [= <-]; discriminate.
  - apply Hinv.
Qed.

Lemma terminal_unassigned_closed st now sessionId m s0 :
  terminal_unassigned m ->
  terminal_unassigned
    (CloudSessionManager.with_registry
       (EndpointRegistry.unassignSession sessionId (CloudSessionManager.endpointRegistry m))
       (CloudSessionManager.with_sessions
          (JsMap.set sessionId
             (CloudSessionManager.set_endedAt now (CloudSessionManager.set_status st s0))
             (CloudSessionManager.sessions m)) m)).
Proof.
  intros Hinv k s; simpl. rewrite get_set, unassignSession_get.
  destruct (String.eqb sessionId k); [reflexivity|]. apply Hinv.
Qed.

Lemma terminal_unassigned_ended now sessionId m :
  terminal_unassigned m ->
  terminal_unassigned (CloudSessionManager.sessionEnded now sessionId m).
Proof.
  intros Hinv. unfold CloudSessionManager.sessionEnded.
  destruct (JsMap.get sessionId (CloudSessionManager.sessions m)) as [s0|]; [|assumption].
  exact (terminal_unassigned_closed ended now sessionId m s0 Hinv).
Qed.

Lemma terminal_unassigned_error now sessionId m :
  terminal_unassigned m ->
  terminal_unassigned (CloudSessionManager.sessionError now sessionId m).
Proof.
  intros Hinv. unfold CloudSessionManager.sessionError.
  destruct (JsMap.get sessionId (CloudSessionManager.sessions m)) as [s0|]; [|assumption].
  exact (terminal_unassigned_closed error now sessionId m s0 Hinv).
Qed.

Lemma terminal_unassigned_create x options w :
  terminal_unassigned (CloudSessionManager.manager w) ->
  terminal_unassigned
    (CloudSessionManager.manager (snd (CloudSessionManager.createCloudSession x options w))).
Proof.
  intros Hinv.
  destruct (createCloudSession_effect x options w)
    as [[Hs Hr]|(dbId & endpointId & s0 & Hs & Hterm & Hr)];
    intros k s; rewrite Hs, Hr.
  - apply Hinv.
  - simpl. rewrite !get_set. destruct (String.eqb dbId k).
    + intros [= <-]. congruence.
    + apply Hinv.
Qed.

Lemma fold_io_emit_manager (es : list Emitted) : forall s,
  CloudSessionManager.manager
    (Handlers.world (fold_left (fun acc re => Handlers.io_emit (fst re) (snd re) acc) es s))
  = CloudSessionManager.manager (Handlers.world s).
Proof.
  induction es as [|e es IH]; simpl; intros s; [reflexivity|]. now rewrite IH.
Qed.

Lemma terminal_unassigned_handle i s :
  terminal_unassigned (CloudSessionManager.manager (Handlers.world s)) ->
  terminal_unassigned (CloudSessionManager.manager (Handlers.world (handle i s))).
Proof.
  intros Hinv. destruct i; simpl.
  - unfold Handlers.create_session.
    pose proof (terminal_unassigned_create x options (Handlers.world s) Hinv) as H.
    destruct (CloudSessionManager.createCloudSession x options (Handlers.world s)).
    exact H.
  - unfold Handlers.on_endpoint_register.
    destruct (negb _ && truthy _); [exact Hinv|].
    rewrite fold_io_emit_manager; simpl.
    apply (terminal_unassigned_apply_op
             (op_register now (Handlers.rd_registration data)) _ I Hinv).
  - apply (terminal_unassigned_apply_op (op_unregister endpointId) _ I Hinv).
  - now apply terminal_unassigned_started.
  - now apply terminal_unassigned_ended.
  - now apply terminal_unassigned_error.
  - exact Hinv.
  - unfold Handlers.on_message_to_claude.
    now destruct (EndpointRegistry.getSessionAssignment _ _).
  - apply (terminal_unassigned_apply_op (op_heartbeat now endpointId) _ I Hinv).
Qed.

Lemma terminal_unassigned_reachable events : forall s,
  terminal_unassigned (CloudSessionManager.manager (Handlers.world s)) ->
  terminal_unassigned (CloudSessionManager.manager (Handlers.world (handle_all events s))).
Proof.
  induction events as [|i events IH]; simpl; intros s H; [assumption|].
  apply IH. now apply terminal_unassigned_handle.
Qed.

(** C7, counterexample.  Session [S1] ended at time 400.  A second
    [sessionEnded], at time 500, moves its [endedAt] to 500, and a
    [sessionError] also turns its status from [ended] into [error]. *)
Lemma C7_second_report_changes_session :
  let m := CloudSessionManager.manager (Handlers.world server_after_session_ended) in
  status_of "S1" m = Some ended
  /\ endedAt_of "S1" m = Some (Some 400)
  /\ endedAt_of "S1" (CloudSessionManager.sessionEnded 500 "S1" m) = Some (Some 500)
  /\ status_of "S1" (CloudSessionManager.sessionError 500 "S1" m) = Some error
  /\ CloudSessionManager.sessionEnded 500 "S1" m <> m.
Proof. vm_compute. repeat split; discriminate. Qed.

(** C7 (as amended).  In every state the server reaches from start-up, a
    [sessionEnded] or [sessionError] report for a session that is already
    [ended] or [error] returns normally and leaves the registry as it is:
    no assignment is removed and no endpoint's session count changes, so a
    second report does not free a slot a second time.  The session itself
    is written again: its status becomes [ended], respectively [error], and
    its [endedAt] becomes the time of the report. *)
Theorem C7_report_on_terminal_session :
  forall (serverUrl : string) (events : list Incoming) (now : Z) (sessionId : string)
         (st : SessionStatus),
    let m := CloudSessionManager.manager
               (Handlers.world
                  (handle_all events (Handlers.setupCloudEndpointHandlers serverUrl))) in
    status_of sessionId m = Some st ->
    terminal st = true ->
    let m1 := CloudSessionManager.sessionEnded now sessionId m in
    let m2 := CloudSessionManager.sessionError now sessionId m in
    CloudSessionManager.endpointRegistry m1 = CloudSessionManager.endpointRegistry m
    /\ CloudSessionManager.endpointRegistry m2 = CloudSessionManager.endpointRegistry m
    /\ status_of sessionId m1 = Some ended
    /\ status_of sessionId m2 = Some error
    /\ endedAt_of sessionId m1 = Some (Some now)
    /\ endedAt_of sessionId m2 = Some (Some now).
Proof.
  intros serverUrl events now sessionId st m Hst Hterm m1 m2.
  assert (Hinv : terminal_unassigned m).
  { apply terminal_unassigned_reachable. intros k s; discriminate. }
  unfold status_of, CloudSessionManager.getSession in Hst.
  destruct (JsMap.get sessionId (CloudSessionManager.sessions m)) as [s|] eqn:Hs;
    [|discriminate].
  injection Hst as Hst. rewrite <- Hst in Hterm.
  pose proof (Hinv sessionId s Hs Hterm) as Hun.
  unfold m1, m2, CloudSessionManager.sessionEnded, CloudSessionManager.sessionError,
    status_of, endedAt_of, CloudSessionManager.getSession.
  rewrite Hs; simpl.
  rewrite (unassignSession_unassigned _ _ Hun), !get_set_same.
  repeat split.
Qed.

Lemma C7_report_on_terminal_session_witness :
  let m := CloudSessionManager.manager (Handlers.world server_after_session_ended) in
  status_of "S1" m = Some ended
  /\ terminal ended = true
  /\ CloudSessionManager.endpointRegistry (CloudSessionManager.sessionEnded 500 "S1" m)
     = CloudSessionManager.endpointRegistry m.
Proof.
  split; [reflexivity|]. split; [reflexivity|].
  exact (proj1 (C7_report_on_terminal_session
                  "https://vibe.example"
                  [in_create_session (sample_outcomes (Returned "sbx")) sample_options;
                   in_endpoint_register 200 "sock-1" (runner_registration (Some "tok-1"));
                   in_session_started 300 "S1";
                   in_session_ended 400 "S1"]
                  500 "S1" ended eq_refl eq_refl)).
Defined.

(** ** The session table only grows *)

Lemma kept_refl {V} (a : JsMap.t V) : kept a a.
Proof. split; [lia | auto]. Qed.

Lemma kept_trans {V} (a b c : JsMap.t V) : kept a b -> kept b c -> kept a c.
Proof. intros [H1 H2] [H3 H4]. split; [lia | auto]. Qed.

Lemma kept_set {V} k (v : V) (a : JsMap.t V) : kept a (JsMap.set k v a).
Proof.
  split; [apply size_set_le|].
  intros k'. unfold JsMap.has. rewrite get_set.
  now destruct (String.eqb k k').
Qed.

Create HintDb kept_db.
#[local] Hint Resolve kept_refl kept_set : kept_db.

(** Split on whether the session of a report is in the table. *)
Ltac known_session :=
  unfold CloudSessionManager.sessionStarted, CloudSessionManager.sessionEnded,
    CloudSessionManager.sessionError;
  match goal with
  | |- context [JsMap.get ?k (CloudSessionManager.sessions ?m)] =>
      destruct (JsMap.get k (CloudSessionManager.sessions m)); simpl
  end.

Lemma apply_call_kept c w :
  kept (CloudSessionManager.sessions (CloudSessionManager.manager w))
       (CloudSessionManager.sessions (CloudSessionManager.manager (apply_call c w))).
Proof.
  destruct c; simpl; auto with kept_db.
  - destruct (createCloudSession_effect x options w)
      as [[Hs _]|(dbId & endpointId & s0 & Hs & _)]; rewrite Hs; auto with kept_db.
  - known_session; auto with kept_db.
  - known_session; auto with kept_db.
  - known_session; auto with kept_db.
Qed.

Lemma apply_calls_kept calls : forall w,
  kept (CloudSessionManager.sessions (CloudSessionManager.manager w))
       (CloudSessionManager.sessions (CloudSessionManager.manager (apply_calls calls w))).
Proof.
  induction calls as [|c calls IH]; simpl; intros w; [apply kept_refl|].
  eapply kept_trans; [apply apply_call_kept | apply IH].
Qed.

Lemma has_key {V} (m : JsMap.t V) k : In k (JsMap.keys m) -> JsMap.has k m = true.
Proof.
  unfold JsMap.has. induction m as [|[k' v'] m IH]; simpl; [contradiction|].
  intros [->|Hin]; [now rewrite String.eqb_refl|].
  destruct (String.eqb k k'); [reflexivity | now apply IH].
Qed.

Lemma length_by_status (l : list CloudSession) :
  List.length l
  = (List.length (filter (fun s => session_status_eqb (cs_status s) pending) l)
     + List.length (filter (fun s => session_status_eqb (cs_status s) starting) l)
     + List.length (filter (fun s => session_status_eqb (cs_status s) running) l)
     + List.length (filter (fun s => session_status_eqb (cs_status s) ended) l)
     + List.length (filter (fun s => session_status_eqb (cs_status s) error) l))%nat.
Proof.
  induction l as [|s l IH]; simpl; [reflexivity|].
  destruct (cs_status s); simpl; lia.
Qed.

(** C10.  Whatever calls are made on the session manager (and on the
    registry it hands out), and from whatever state, every session id in
    the table is still in it afterwards and [getStats().totalSessions] has
    not gone down; [totalSessions] counts the sessions of every status,
    [ended] and [error] included, while [activeSessions] counts the
    [running] ones only. *)
Theorem C10_sessions_never_removed :
  forall (calls : list ManagerCall) (w : CloudSessionManager.World),
    let m := CloudSessionManager.manager w in
    let m' := CloudSessionManager.manager (apply_calls calls w) in
    (CloudSessionManager.totalSessions (CloudSessionManager.getStats m)
     <= CloudSessionManager.totalSessions (CloudSessionManager.getStats m'))%nat
    /\ forallb (fun k => JsMap.has k (CloudSessionManager.sessions m'))
               (JsMap.keys (CloudSessionManager.sessions m)) = true
    /\ CloudSessionManager.totalSessions (CloudSessionManager.getStats m')
       = (count_status pending m' + count_status starting m' + count_status running m'
          + count_status ended m' + count_status error m')%nat
    /\ CloudSessionManager.activeSessions (CloudSessionManager.getStats m')
       = count_status running m'.
Proof.
  intros calls w m m'.
  destruct (apply_calls_kept calls w) as [Hsize Hhas].
  repeat split.
  - exact Hsize.
  - apply forallb_forall. intros k Hin. apply Hhas. now apply has_key.
  - unfold CloudSessionManager.getStats, count_status; simpl.
    unfold JsMap.size, JsMap.values. rewrite <- (length_map snd).
    apply length_by_status.
Qed.

(** ** Deferred start at registration *)

Lemma on_endpoint_register_keeps_sessions now socket data s :
  CloudSessionManager.sessions
    (CloudSessionManager.manager
       (Handlers.world (Handlers.on_endpoint_register now socket data s)))
  = CloudSessionManager.sessions (CloudSessionManager.manager (Handlers.world s)).
Proof.
  unfold Handlers.on_endpoint_register.
  destruct (negb _ && truthy _); [reflexivity|].
  now rewrite fold_io_emit_manager.
Qed.

(** C4, the code at the scenario.  With no endpoint registered,
    [createCloudSession] provisions [e2b-sbx], stores its token and returns
    the session [S1] as [pending], with nothing emitted.  When [e2b-sbx]
    then registers with that token, [session:start] for [S1] is emitted to
    the endpoint room, but the status of [S1] stays [pending]: it does not
    become [starting]. *)
Theorem C4_registration_starts_without_status_change :
  let created := Handlers.create_session (sample_outcomes (Returned "sbx")) sample_options
                                         fresh_server in
  let s1 := snd created in
  let s2 := Handlers.on_endpoint_register 200 "sock-1"
              (runner_registration (Some "tok-1")) s1 in
  EndpointRegistry.getAllEndpoints
    (CloudSessionManager.endpointRegistry
       (CloudSessionManager.manager (Handlers.world fresh_server))) = []
  /\ match fst created with
     | Returned session =>
         cs_sessionId session = "S1" /\ cs_endpointId session = "e2b-sbx"
         /\ cs_status session = pending
     | Threw _ => False
     end
  /\ CloudSessionManager.io_log (Handlers.world s1) = []
  /\ CloudSessionManager.validateEndpointToken "e2b-sbx" "tok-1"
       (CloudSessionManager.manager (Handlers.world s1)) = true
  /\ option_map ce_status
       (EndpointRegistry.getEndpoint "e2b-sbx"
          (CloudSessionManager.endpointRegistry
             (CloudSessionManager.manager (Handlers.world s2)))) = Some st_online
  /\ CloudSessionManager.io_log (Handlers.world s2)
     = [(endpoint_room "e2b-sbx", ev_session_start "S1" claude None None)]
  /\ status_of "S1" (CloudSessionManager.manager (Handlers.world s2)) = Some pending.
Proof. vm_compute. repeat split. Qed.

(** ** The runner at its session limit *)

(** C9, the code at the failing input.  The runner is limited to one
    session and [S1] is running.  A second [session:start] for [S1] is
    answered with [session:error]; no process is spawned and the table is
    unchanged.  (With a limit of two the same duplicate is ignored.) *)
Theorem C9_duplicate_start_at_capacity_reports_error :
  forall child : Outcome Z,
    let r := CloudRunner.startSession start_S1 child busy_runner in
    JsMap.has "S1" (CloudRunner.activeSessions busy_runner) = true
    /\ CloudRunner.atCapacity busy_runner = true
    /\ CloudRunner.sent r
       = [ev_session_error "S1" (Some "Max concurrent sessions reached")]
    /\ CloudRunner.spawned r = []
    /\ CloudRunner.activeSessions r = CloudRunner.activeSessions busy_runner.
Proof. intros child. vm_compute. repeat split. Qed.

(** Below the limit the duplicate check is reached: a start for a session
    that is in the table changes nothing. *)
Lemma startSession_duplicate_below_capacity data child r :
  CloudRunner.atCapacity r = false ->
  JsMap.has (CloudRunner.sd_sessionId data) (CloudRunner.activeSessions r) = true ->
  CloudRunner.startSession data child r = r.
Proof. intros Hcap Hhas. unfold CloudRunner.startSession. now rewrite Hcap, Hhas. Qed.

(** At the limit every start, duplicate or not, is answered with
    [session:error]. *)
Lemma startSession_at_capacity data child r :
  CloudRunner.atCapacity r = true ->
  CloudRunner.startSession data child r
  = CloudRunner.socket_emit
      (ev_session_error (CloudRunner.sd_sessionId data)
                        (Some "Max concurrent sessions reached")) r.
Proof. intros Hcap. unfold CloudRunner.startSession. now rewrite Hcap. Qed.

(* ================================================================== *)
(** * Further properties of the registry *)

(** X1.  [unregisterEndpoint] removes the endpoint and its session set, and
    drops the assignment of exactly the sessions that were in that set;
    every other endpoint, its load, and every other assignment are left as
    they were. *)
Theorem X1_unregisterEndpoint_cascades :
  forall (endpointId k sessionId : string) (r : EndpointRegistry.t),
    let r' := EndpointRegistry.unregisterEndpoint endpointId r in
    EndpointRegistry.getEndpoint endpointId r' = None
    /\ JsMap.get endpointId (EndpointRegistry.endpointSessions r') = None
    /\ EndpointRegistry.getSessionAssignment sessionId r'
       = (if match JsMap.get endpointId (EndpointRegistry.endpointSessions r) with
             | Some ss => JsSet.has sessionId ss
             | None => false
             end
          then None
          else EndpointRegistry.getSessionAssignment sessionId r)
    /\ (if String.eqb endpointId k then True
        else EndpointRegistry.getEndpoint k r' = EndpointRegistry.getEndpoint k r
             /\ EndpointRegistry.currentSessions r' k
                = EndpointRegistry.currentSessions r k).
Proof.
  intros endpointId k sessionId r r'.
  unfold r', EndpointRegistry.unregisterEndpoint, EndpointRegistry.getEndpoint,
    EndpointRegistry.getSessionAssignment, EndpointRegistry.currentSessions; simpl.
  rewrite !get_delete, String.eqb_refl.
  repeat split.
  - destruct (JsMap.get endpointId (EndpointRegistry.endpointSessions r)) as [ss|];
      [apply fold_delete_get | reflexivity].
  - destruct (String.eqb endpointId k); [exact I | split; reflexivity].
Qed.

Lemma jsset_delete_absent x s : JsSet.has x s = false -> JsSet.delete x s = s.
Proof.
  unfold JsSet.has, JsSet.delete. induction s as [|y s IH]; simpl; [reflexivity|].
  intros H. apply orb_false_iff in H as [Hxy Hrest].
  rewrite Hxy; simpl. now rewrite IH.
Qed.

Lemma jsset_delete_present x s :
  NoDup s -> JsSet.has x s = true ->
  JsSet.size s = S (JsSet.size (JsSet.delete x s)).
Proof.
  unfold JsSet.size. induction s as [|y s IH]; simpl; [discriminate|].
  intros Hnd Hhas. inversion Hnd as [|? ? Hnotin Hnd']; subst.
  destruct (String.eqb_spec x y) as [<-|Hne]; simpl.
  - f_equal. fold (JsSet.delete x s). rewrite jsset_delete_absent; [reflexivity|].
    destruct (JsSet.has x s) eqn:E; [|reflexivity].
    apply jsset_has_In in E. contradiction.
  - f_equal. apply IH; assumption.
Qed.

Lemma sets_ok_step op r : sets_ok r -> sets_ok (apply_op op r).
Proof.
  intros Hok. destruct op; simpl.
  - intros k ss; simpl. rewrite get_set.
    destruct (String.eqb (reg_endpointId registration) k).
    + intros [= <-]. constructor.
    + apply Hok.
  - intros k ss; simpl. rewrite get_delete.
    destruct (String.eqb endpointId k); [discriminate | apply Hok].
  - unfold EndpointRegistry.updateLastSeen.
    now destruct (JsMap.get endpointId (EndpointRegistry.endpoints r)).
  - intros k ss; simpl.
    destruct (JsMap.get endpointId (EndpointRegistry.endpointSessions r)) as [s0|] eqn:Hs0;
      [|apply Hok].
    rewrite get_set. destruct (String.eqb endpointId k).
    + intros [= <-]. apply jsset_add_NoDup. now apply (Hok endpointId).
    + apply Hok.
  - unfold EndpointRegistry.unassignSession.
    destruct (JsMap.get sessionId (EndpointRegistry.sessionAssignments r)) as [a|];
      [|assumption].
    intros k ss; simpl.
    destruct (JsMap.get (sa_endpointId a) (EndpointRegistry.endpointSessions r))
      as [s0|] eqn:Hs0; [|apply Hok].
    rewrite get_set. destruct (String.eqb (sa_endpointId a) k).
    + intros [= <-]. apply jsset_delete_NoDup. now apply (Hok (sa_endpointId a)).
    + apply Hok.
Qed.

Lemma sets_ok_run ops : forall r, sets_ok r -> sets_ok (apply_ops ops r).
Proof.
  induction ops as [|op ops IH]; simpl; intros r H; [assumption|].
  apply IH. now apply sets_ok_step.
Qed.

(** X2.  In a registry built by registry calls, [unassignSession] removes
    the session's assignment, leaves the endpoints as they are, and lowers
    the load of one endpoint by exactly one: the endpoint the session was
    assigned to, when the session is in that endpoint's set.  The load of
    every other endpoint is unchanged, and nothing is freed when the
    session was assigned before the endpoint registered (it is in no set). *)
Theorem X2_unassignSession_frees_one_slot :
  forall (ops : list RegistryOp) (sessionId k : string),
    let r := apply_ops ops EndpointRegistry.empty in
    let r' := EndpointRegistry.unassignSession sessionId r in
    EndpointRegistry.getSessionAssignment sessionId r' = None
    /\ EndpointRegistry.endpoints r' = EndpointRegistry.endpoints r
    /\ EndpointRegistry.currentSessions r k
       = (EndpointRegistry.currentSessions r' k
          + match EndpointRegistry.getSessionAssignment sessionId r,
                  JsMap.get k (EndpointRegistry.endpointSessions r) with
            | Some a, Some ss =>
                if String.eqb (sa_endpointId a) k && JsSet.has sessionId ss then 1 else 0
            | _, _ => 0
            end)%nat.
Proof.
  intros ops sessionId k r r'.
  assert (Hok : sets_ok r) by (apply sets_ok_run; intros ? ?; discriminate).
  split; [|split].
  - unfold r', EndpointRegistry.getSessionAssignment.
    now rewrite unassignSession_get, String.eqb_refl.
  - unfold r', EndpointRegistry.unassignSession.
    now destruct (JsMap.get sessionId (EndpointRegistry.sessionAssignments r)).
  - unfold r', EndpointRegistry.unassignSession, EndpointRegistry.getSessionAssignment,
      EndpointRegistry.currentSessions.
    destruct (JsMap.get sessionId (EndpointRegistry.sessionAssignments r)) as [a|];
      simpl; [|lia].
    destruct (String.eqb_spec (sa_endpointId a) k) as [->|Hne]; simpl.
    + destruct (JsMap.get k (EndpointRegistry.endpointSessions r)) as [ss|] eqn:Hss;
        simpl; [|rewrite Hss; lia].
      rewrite get_set_same.
      destruct (JsSet.has sessionId ss) eqn:Hhas.
      * rewrite (jsset_delete_present _ _ (Hok k ss Hss) Hhas). lia.
      * rewrite (jsset_delete_absent _ _ Hhas). lia.
    + destruct (JsMap.get (sa_endpointId a) (EndpointRegistry.endpointSessions r));
        simpl; [rewrite get_set_other by assumption|];
        destruct (JsMap.get k (EndpointRegistry.endpointSessions r)); lia.
Qed.

Lemma in_set {V} k (v : V) (m : JsMap.t V) kv :
  In kv (JsMap.set k v m) -> kv = (k, v) \/ In kv m.
Proof.
  induction m as [|[k' v'] m IH]; simpl.
  - intros [<-|[]]. now left.
  - destruct (String.eqb k k'); simpl.
    + intros [<-|Hin]; [now left | right; now right].
    + intros [<-|Hin]; [right; now left|].
      destruct (IH Hin) as [->|Hin']; [now left | right; now right].
Qed.

Lemma in_delete {V} k (m : JsMap.t V) kv : In kv (JsMap.delete k m) -> In kv m.
Proof. unfold JsMap.delete. intros H. now apply filter_In in H. Qed.

Lemma all_online_step op r :
  forallb is_online (EndpointRegistry.getAllEndpoints r) = true ->
  forallb is_online (EndpointRegistry.getAllEndpoints (apply_op op r)) = true.
Proof.
  unfold EndpointRegistry.getAllEndpoints, JsMap.values.
  rewrite !forallb_forall. intros Hall.
  assert (Hkv : forall kv, In kv (EndpointRegistry.endpoints r) -> is_online (snd kv) = true)
    by (intros kv Hin; apply Hall; now apply in_map).
  destruct op; simpl; try exact Hall.
  - intros e Hin. apply in_map_iff in Hin as (kv & <- & Hin).
    apply in_set in Hin as [->|Hin]; [reflexivity | now apply Hkv].
  - intros e Hin. apply in_map_iff in Hin as (kv & <- & Hin).
    apply in_delete in Hin. now apply Hkv.
  - unfold EndpointRegistry.updateLastSeen.
    destruct (JsMap.get endpointId (EndpointRegistry.endpoints r)) as [ep|] eqn:Hep;
      [|exact Hall].
    simpl. intros e Hin. apply in_map_iff in Hin as (kv & <- & Hin).
    apply in_set in Hin as [->|Hin]; [|now apply Hkv].
    simpl. apply get_In in Hep. apply (Hkv _ Hep).
  - unfold EndpointRegistry.unassignSession.
    destruct (JsMap.get sessionId (EndpointRegistry.sessionAssignments r)); exact Hall.
Qed.

Lemma all_online_run ops : forall r,
  forallb is_online (EndpointRegistry.getAllEndpoints r) = true ->
  forallb is_online (EndpointRegistry.getAllEndpoints (apply_ops ops r)) = true.
Proof.
  induction ops as [|op ops IH]; simpl; intros r H; [assumption|].
  apply IH. now apply all_online_step.
Qed.

Lemma filter_all {A} (f : A -> bool) l : forallb f l = true -> filter f l = l.
Proof.
  induction l as [|x l IH]; simpl; [reflexivity|].
  intros H. apply andb_true_iff in H as [Hx Hl]. now rewrite Hx, IH.
Qed.

(** X3.  No registry call ever stores an endpoint that is not [online]:
    registration stores [online] and nothing changes a status afterwards.
    So in every registry built by registry calls each endpoint is online,
    [getStats] reports as many online endpoints as endpoints, and its
    [totalSessions] is the number of assignments. *)
Theorem X3_registered_endpoints_stay_online :
  forall (ops : list RegistryOp),
    let r := apply_ops ops EndpointRegistry.empty in
    let stats := EndpointRegistry.getStats r in
    forallb is_online (EndpointRegistry.getAllEndpoints r) = true
    /\ EndpointRegistry.onlineEndpoints stats = EndpointRegistry.totalEndpoints stats
    /\ EndpointRegistry.totalEndpoints stats
       = List.length (EndpointRegistry.getAllEndpoints r)
    /\ EndpointRegistry.totalSessions stats
       = JsMap.size (EndpointRegistry.sessionAssignments r).
Proof.
  intros ops r stats.
  assert (Hall : forallb is_online (EndpointRegistry.getAllEndpoints r) = true)
    by (apply all_online_run; reflexivity).
  unfold stats, EndpointRegistry.getStats; simpl.
  unfold EndpointRegistry.getAllEndpoints in *.
  change (fun e : CloudEndpoint => status_eqb (ce_status e) st_online) with is_online.
  rewrite (filter_all _ _ Hall). repeat split. exact Hall.
Qed.

(** ** Heartbeats and placement *)

Section Related.
Context {A : Type} (R : A -> A -> Prop).
Context (f g : A -> bool) (cmp cmp' : A -> A -> Z).
Hypothesis f_g : forall a b, R a b -> f a = g b.
Hypothesis cmp_cmp' : forall a b a' b', R a a' -> R b b' -> cmp a b = cmp' a' b'.

Lemma Forall2_filter l l' : Forall2 R l l' -> Forall2 R (filter f l) (filter g l').
Proof.
  induction 1 as [|a b l l' Hab Hl IH]; simpl; [constructor|].
  rewrite (f_g a b Hab). destruct (g b); [constructor|]; assumption.
Qed.

Lemma Forall2_insert_sorted a a' l l' :
  R a a' -> Forall2 R l l' ->
  Forall2 R (insert_sorted cmp a l) (insert_sorted cmp' a' l').
Proof.
  intros Ha. induction 1 as [|b b' l l' Hb Hl IH]; simpl.
  - repeat constructor; assumption.
  - rewrite (cmp_cmp' a b a' b' Ha Hb).
    destruct (cmp' a' b' <=? 0); repeat constructor; assumption.
Qed.

Lemma Forall2_js_sort l l' : Forall2 R l l' -> Forall2 R (js_sort cmp l) (js_sort cmp' l').
Proof.
  induction 1 as [|a b l l' Hab Hl IH]; simpl; [constructor|].
  now apply Forall2_insert_sorted.
Qed.
End Related.

Lemma values_set_related (R : CloudEndpoint -> CloudEndpoint -> Prop) k e e' m :
  (forall x, R x x) -> JsMap.get k m = Some e -> R e e' ->
  Forall2 R (JsMap.values m) (JsMap.values (JsMap.set k e' m)).
Proof.
  intros Hrefl. unfold JsMap.values.
  induction m as [|[k0 v0] m IH]; simpl; [discriminate|].
  destruct (String.eqb k k0); simpl.
  - intros [= ->] HR. constructor; [assumption|].
    clear -Hrefl. induction m; simpl; constructor; auto.
  - intros Hget HR. constructor; [apply Hrefl | now apply IH].
Qed.

Lemma same_endpoint_refl e : same_endpoint e e.
Proof. repeat split. Qed.

Lemma heartbeat_related now endpointId r :
  Forall2 same_endpoint
    (EndpointRegistry.getAllEndpoints r)
    (EndpointRegistry.getAllEndpoints (EndpointRegistry.updateLastSeen now endpointId r)).
Proof.
  unfold EndpointRegistry.updateLastSeen, EndpointRegistry.getAllEndpoints.
  destruct (JsMap.get endpointId (EndpointRegistry.endpoints r)) as [ep|] eqn:Hep; simpl.
  - apply (values_set_related same_endpoint _ ep);
      [apply same_endpoint_refl | assumption | repeat split].
  - induction (JsMap.values (EndpointRegistry.endpoints r)); constructor;
      [apply same_endpoint_refl | assumption].
Qed.

Lemma hd_error_same_id l l' :
  Forall2 same_endpoint l l' ->
  option_map ce_id (hd_error l') = option_map ce_id (hd_error l).
Proof.
  destruct 1 as [|x y ? ? (Hid & _) _]; simpl; [reflexivity | now rewrite Hid].
Qed.

(** X4.  A heartbeat changes no placement and no accounting.
    [updateLastSeen] leaves the assignments and the session sets as they
    are, keeps the endpoints in the same order with the same id, type,
    status and capabilities, and [findAvailableEndpoint] picks the endpoint
    of the same id before and after it; for an unknown endpoint id the
    registry is unchanged. *)
Theorem X4_heartbeat_keeps_placement :
  forall (now : Z) (endpointId : string) (agentType : option string)
         (r : EndpointRegistry.t),
    let r' := EndpointRegistry.updateLastSeen now endpointId r in
    EndpointRegistry.sessionAssignments r' = EndpointRegistry.sessionAssignments r
    /\ EndpointRegistry.endpointSessions r' = EndpointRegistry.endpointSessions r
    /\ Forall2 same_endpoint (EndpointRegistry.getAllEndpoints r)
                             (EndpointRegistry.getAllEndpoints r')
    /\ option_map ce_id (EndpointRegistry.findAvailableEndpoint agentType r')
       = option_map ce_id (EndpointRegistry.findAvailableEndpoint agentType r)
    /\ (if JsMap.has endpointId (EndpointRegistry.endpoints r) then
          option_map (fun e => lastSeen (ce_metadata e))
                     (EndpointRegistry.getEndpoint endpointId r') = Some (Some now)
        else r' = r).
Proof.
  intros now endpointId agentType r r'.
  assert (Hsa : EndpointRegistry.sessionAssignments r' = EndpointRegistry.sessionAssignments r)
    by (unfold r', EndpointRegistry.updateLastSeen;
        now destruct (JsMap.get endpointId (EndpointRegistry.endpoints r))).
  assert (Hes : EndpointRegistry.endpointSessions r' = EndpointRegistry.endpointSessions r)
    by (unfold r', EndpointRegistry.updateLastSeen;
        now destruct (JsMap.get endpointId (EndpointRegistry.endpoints r))).
  pose proof (heartbeat_related now endpointId r) as Hrel. fold r' in Hrel.
  split; [exact Hsa|]. split; [exact Hes|]. split; [exact Hrel|]. split.
  - assert (Hload : forall k, EndpointRegistry.currentSessions r' k
                              = EndpointRegistry.currentSessions r k)
      by (intros k; unfold EndpointRegistry.currentSessions; now rewrite Hes).
    unfold EndpointRegistry.findAvailableEndpoint.
    set (agent := match agentType with Some a => a | None => "claude" end).
    assert (Hfil : Forall2 same_endpoint
                     (filter (EndpointRegistry.available r agent)
                             (JsMap.values (EndpointRegistry.endpoints r)))
                     (filter (EndpointRegistry.available r' agent)
                             (JsMap.values (EndpointRegistry.endpoints r')))).
    { apply Forall2_filter; [|exact Hrel].
      intros a b (Hid & _ & _ & Hst & Hcap).
      unfold EndpointRegistry.available. now rewrite Hid, Hst, Hcap, Hload. }
    assert (Hsort : forall l l', Forall2 same_endpoint l l' ->
                Forall2 same_endpoint (js_sort (EndpointRegistry.byLoad r) l)
                                      (js_sort (EndpointRegistry.byLoad r') l')).
    { apply Forall2_js_sort.
      intros a b a' b' (Ha & _) (Hb & _).
      unfold EndpointRegistry.byLoad. now rewrite !Hload, Ha, Hb. }
    specialize (Hsort _ _ Hfil).
    destruct Hfil as [|a b l l' Hab Hl]; [reflexivity|].
    now apply hd_error_same_id.
  - unfold r', EndpointRegistry.updateLastSeen, JsMap.has, EndpointRegistry.getEndpoint.
    destruct (JsMap.get endpointId (EndpointRegistry.endpoints r)) as [ep|]; simpl;
      [now rewrite get_set_same | reflexivity].
Qed.

(* ================================================================== *)
(** * Further properties of the session manager *)

(** ** Endpoint tokens *)

Lemma handle_keeps_pending i s :
  is_create i = false -> pending_of (handle i s) = pending_of s.
Proof.
  unfold pending_of. destruct i; simpl; try discriminate; intros _; try reflexivity.
  - unfold Handlers.on_endpoint_register.
    destruct (negb _ && truthy _); [reflexivity|].
    now rewrite fold_io_emit_manager.
  - unfold CloudSessionManager.sessionStarted.
    now destruct (JsMap.get sessionId _).
  - unfold CloudSessionManager.sessionEnded.
    now destruct (JsMap.get sessionId _).
  - unfold CloudSessionManager.sessionError.
    now destruct (JsMap.get sessionId _).
  - unfold Handlers.on_message_to_claude.
    now destruct (EndpointRegistry.getSessionAssignment _ _).
Qed.

(** X6.  [validateEndpointToken] accepts exactly the non-empty token stored
    for that endpoint id, and no socket event uses a token up: after any
    event other than a create-session call (a registration, a report, a
    heartbeat, an unregistration, a message) the stored tokens are the same,
    so the same pair is accepted again when the runner reconnects. *)
Theorem X6_tokens_exact_and_never_consumed :
  forall (i : Incoming) (s : Handlers.Server) (endpointId token : string),
    let m := CloudSessionManager.manager (Handlers.world s) in
    let m' := CloudSessionManager.manager (Handlers.world (handle i s)) in
    (CloudSessionManager.validateEndpointToken endpointId token m = true
     <-> JsMap.get endpointId (CloudSessionManager.pendingEndpoints m) = Some token
         /\ token <> "")
    /\ (if is_create i then True
        else CloudSessionManager.pendingEndpoints m' = CloudSessionManager.pendingEndpoints m
             /\ CloudSessionManager.validateEndpointToken endpointId token m'
                = CloudSessionManager.validateEndpointToken endpointId token m).
Proof.
  intros i s endpointId token m m'. split.
  - unfold CloudSessionManager.validateEndpointToken.
    destruct (JsMap.get endpointId (CloudSessionManager.pendingEndpoints m)) as [expected|].
    + rewrite andb_true_iff, negb_true_iff, String.eqb_eq, String.eqb_neq.
      split.
      * intros [Hne ->]. now split.
      * intros [[= ->] Hne]. now split.
    + split; [discriminate | intros [[=] _]].
  - destruct (is_create i) eqn:Hi; [exact I|].
    pose proof (handle_keeps_pending i s Hi) as Hp. unfold pending_of in Hp.
    fold m m' in Hp. split; [exact Hp|].
    unfold CloudSessionManager.validateEndpointToken. now rewrite Hp.
Qed.

(** The pending tokens after [createCloudSession]: unchanged, or one entry
    written for the endpoint the call provisioned. *)
Lemma createCloudSession_pending x options w :
  let m := CloudSessionManager.manager w in
  let m' := CloudSessionManager.manager
              (snd (CloudSessionManager.createCloudSession x options w)) in
  CloudSessionManager.pendingEndpoints m' = CloudSessionManager.pendingEndpoints m
  \/ exists sandboxId,
       x_sandbox x = Returned sandboxId
       /\ CloudSessionManager.pendingEndpoints m'
          = JsMap.set (String.append "e2b-" sandboxId) (x_authToken x)
                      (CloudSessionManager.pendingEndpoints m).
Proof.
  unfold CloudSessionManager.createCloudSession, CloudSessionManager.spawnNewEndpoint,
    CloudSessionManager.bind, CloudSessionManager.read, CloudSessionManager.await,
    CloudSessionManager.update, CloudSessionManager.db_session_create,
    CloudSessionManager.emitUpdate, CloudSessionManager.ret, CloudSessionManager.throw.
  cbv zeta.
  destruct (EndpointRegistry.findAvailableEndpoint _ _) as [ep|];
    [|destruct (x_sandbox x) as [sandboxId|] eqn:Hsb; simpl; [|now left]];
    (destruct (x_userSeq x) as [seq|]; simpl;
     [|first [now left | right; exists sandboxId; now split]]);
    (destruct (x_dbSessionId x) as [dbId|]; simpl;
     [|first [now left | right; exists sandboxId; now split]]).
  all: match goal with
       | |- context [EndpointRegistry.getEndpoint ?k ?r] =>
           destruct (EndpointRegistry.getEndpoint k r) as [info|]
       end.
  all: try match goal with
       | |- context [status_eqb ?a ?b && ?c] => destruct (status_eqb a b && c)
       end.
  all: unfold CloudSessionManager.run, CloudSessionManager.startSessionOnEndpoint,
         CloudSessionManager.ret; simpl;
       rewrite ?get_set_same; simpl.
  all: try match goal with
       | |- context [negb ?c] => destruct c; simpl
       end.
  all: first [now left | right; exists sandboxId; now split].
Qed.

Lemma pending_NoDup_handle i s :
  NoDup (JsMap.keys (pending_of s)) -> NoDup (JsMap.keys (pending_of (handle i s))).
Proof.
  intros Hnd. destruct (is_create i) eqn:Hi.
  - destruct i; try discriminate. unfold pending_of, handle, Handlers.create_session.
    pose proof (createCloudSession_pending x options (Handlers.world s)) as H.
    destruct (CloudSessionManager.createCloudSession x options (Handlers.world s))
      as [res w']; simpl in *.
    destruct H as [->|(sb & _ & ->)]; [exact Hnd | now apply NoDup_keys_set].
  - now rewrite handle_keeps_pending.
Qed.

Lemma pending_NoDup_reachable events : forall s,
  NoDup (JsMap.keys (pending_of s)) -> NoDup (JsMap.keys (pending_of (handle_all events s))).
Proof.
  induction events as [|i events IH]; simpl; intros s H; [assumption|].
  apply IH. now apply pending_NoDup_handle.
Qed.

(** X7.  In every state the server reaches, [findEndpointByToken] agrees
    with the stored tokens: the endpoint id it returns is one the token is
    stored for, and it returns [null] only when the token is stored for no
    endpoint. *)
Theorem X7_findEndpointByToken_agrees :
  forall (serverUrl : string) (events : list Incoming) (token : string),
    let m := CloudSessionManager.manager
               (Handlers.world
                  (handle_all events (Handlers.setupCloudEndpointHandlers serverUrl))) in
    match CloudSessionManager.findEndpointByToken token m with
    | Some endpointId =>
        JsMap.get endpointId (CloudSessionManager.pendingEndpoints m) = Some token
    | None =>
        forall endpointId,
          JsMap.get endpointId (CloudSessionManager.pendingEndpoints m) <> Some token
    end.
Proof.
  intros serverUrl events token m.
  assert (Hnd : NoDup (JsMap.keys (CloudSessionManager.pendingEndpoints m))).
  { apply (pending_NoDup_reachable events). constructor. }
  unfold CloudSessionManager.findEndpointByToken.
  destruct (find (fun kv => String.eqb (snd kv) token)
                 (CloudSessionManager.pendingEndpoints m)) as [[k v]|] eqn:Hfind; simpl.
  - apply find_some in Hfind as [Hin Heq]. simpl in Heq.
    apply String.eqb_eq in Heq; subst v. now apply In_get.
  - intros endpointId Hget. apply get_In in Hget.
    pose proof (find_none _ _ Hfind _ Hget) as H. simpl in H.
    now rewrite String.eqb_refl in H.
Qed.

(** ** [createCloudSession]: placement, provisioning, failures *)

Lemma keyed_ok_step op r : keyed_ok r -> keyed_ok (apply_op op r).
Proof.
  intros [Hnd Hid]. destruct op; simpl.
  - split; simpl; [now apply NoDup_keys_set|].
    intros k e. rewrite get_set.
    destruct (String.eqb_spec (reg_endpointId registration) k) as [<-|].
    + now intros [= <-].
    + apply Hid.
  - split; simpl; [now apply NoDup_keys_delete|].
    intros k e. rewrite get_delete.
    destruct (String.eqb endpointId k); [discriminate | apply Hid].
  - unfold EndpointRegistry.updateLastSeen.
    destruct (JsMap.get endpointId (EndpointRegistry.endpoints r)) as [ep|] eqn:Hep;
      [|now split].
    split; simpl; [now apply NoDup_keys_set|].
    intros k e. rewrite get_set.
    destruct (String.eqb_spec endpointId k) as [<-|].
    + intros [= <-]. simpl. now apply Hid.
    + apply Hid.
  - now split.
  - unfold EndpointRegistry.unassignSession.
    destruct (JsMap.get sessionId (EndpointRegistry.sessionAssignments r)); now split.
Qed.

Lemma keyed_ok_handle i s :
  keyed_ok (CloudSessionManager.endpointRegistry
              (CloudSessionManager.manager (Handlers.world s))) ->
  keyed_ok (CloudSessionManager.endpointRegistry
              (CloudSessionManager.manager (Handlers.world (handle i s)))).
Proof.
  intros Hok. destruct i; simpl.
  - unfold Handlers.create_session.
    pose proof (createCloudSession_effect x options (Handlers.world s)) as H.
    destruct (CloudSessionManager.createCloudSession x options (Handlers.world s))
      as [res w']; simpl in *.
    destruct H as [[_ ->]|(dbId & endpointId & s0 & _ & _ & ->)]; [exact Hok|].
    apply (keyed_ok_step (op_assign (x_now x) dbId endpointId) _ Hok).
  - unfold Handlers.on_endpoint_register.
    destruct (negb _ && truthy _); [exact Hok|].
    rewrite fold_io_emit_manager; simpl.
    apply (keyed_ok_step (op_register now (Handlers.rd_registration data)) _ Hok).
  - apply (keyed_ok_step (op_unregister endpointId) _ Hok).
  - unfold CloudSessionManager.sessionStarted.
    now destruct (JsMap.get sessionId _).
  - unfold CloudSessionManager.sessionEnded.
    destruct (JsMap.get sessionId _); [|exact Hok].
    apply (keyed_ok_step (op_unassign sessionId) _ Hok).
  - unfold CloudSessionManager.sessionError.
    destruct (JsMap.get sessionId _); [|exact Hok].
    apply (keyed_ok_step (op_unassign sessionId) _ Hok).
  - exact Hok.
  - unfold Handlers.on_message_to_claude.
    now destruct (EndpointRegistry.getSessionAssignment _ _).
  - apply (keyed_ok_step (op_heartbeat now endpointId) _ Hok).
Qed.

Lemma createCloudSession_io x options w :
  CloudSessionManager.io
    (CloudSessionManager.manager (snd (CloudSessionManager.createCloudSession x options w)))
  = CloudSessionManager.io (CloudSessionManager.manager w).
Proof.
  unfold CloudSessionManager.createCloudSession, CloudSessionManager.spawnNewEndpoint,
    CloudSessionManager.bind, CloudSessionManager.read, CloudSessionManager.await,
    CloudSessionManager.update, CloudSessionManager.db_session_create,
    CloudSessionManager.emitUpdate, CloudSessionManager.ret, CloudSessionManager.throw.
  cbv zeta.
  destruct (EndpointRegistry.findAvailableEndpoint _ _) as [ep|];
    [|destruct (x_sandbox x) as [sandboxId|]; simpl; [|reflexivity]];
    (destruct (x_userSeq x) as [seq|]; simpl; [|reflexivity]);
    (destruct (x_dbSessionId x) as [dbId|]; simpl; [|reflexivity]).
  all: match goal with
       | |- context [EndpointRegistry.getEndpoint ?k ?r] =>
           destruct (EndpointRegistry.getEndpoint k r) as [info|]
       end.
  all: try match goal with
       | |- context [status_eqb ?a ?b && ?c] => destruct (status_eqb a b && c)
       end.
  all: unfold CloudSessionManager.run, CloudSessionManager.startSessionOnEndpoint,
         CloudSessionManager.ret; simpl;
       rewrite ?get_set_same; simpl.
  all: try reflexivity.
  all: destruct (CloudSessionManager.io (CloudSessionManager.manager w)) eqn:Hio;
    simpl; rewrite ?Hio; reflexivity.
Qed.

Lemma handle_keeps_io i s :
  CloudSessionManager.io (CloudSessionManager.manager (Handlers.world (handle i s)))
  = CloudSessionManager.io (CloudSessionManager.manager (Handlers.world s)).
Proof.
  destruct i; simpl; try reflexivity.
  - unfold Handlers.create_session.
    pose proof (createCloudSession_io x options (Handlers.world s)) as H.
    now destruct (CloudSessionManager.createCloudSession x options (Handlers.world s)).
  - unfold Handlers.on_endpoint_register.
    destruct (negb _ && truthy _); [reflexivity|].
    now rewrite fold_io_emit_manager.
  - unfold CloudSessionManager.sessionStarted. now destruct (JsMap.get sessionId _).
  - unfold CloudSessionManager.sessionEnded. now destruct (JsMap.get sessionId _).
  - unfold CloudSessionManager.sessionError. now destruct (JsMap.get sessionId _).
  - unfold Handlers.on_message_to_claude.
    now destruct (EndpointRegistry.getSessionAssignment _ _).
Qed.

Lemma server_reachable serverUrl events :
  let m := CloudSessionManager.manager
             (Handlers.world
                (handle_all events (Handlers.setupCloudEndpointHandlers serverUrl))) in
  keyed_ok (CloudSessionManager.endpointRegistry m) /\ CloudSessionManager.io m = true.
Proof.
  simpl.
  assert (H : forall s,
             keyed_ok (CloudSessionManager.endpointRegistry
                         (CloudSessionManager.manager (Handlers.world s)))
             /\ CloudSessionManager.io (CloudSessionManager.manager (Handlers.world s)) = true ->
             keyed_ok (CloudSessionManager.endpointRegistry
                         (CloudSessionManager.manager
                            (Handlers.world (handle_all events s))))
             /\ CloudSessionManager.io
                  (CloudSessionManager.manager (Handlers.world (handle_all events s)))
                = true).
  { induction events as [|i events IH]; simpl; intros s Hs; [exact Hs|].
    apply IH. destruct Hs as [Hk Hio]. split.
    - now apply keyed_ok_handle.
    - now rewrite handle_keeps_io. }
  apply H. split; [|reflexivity]. split; [constructor | intros k e; discriminate].
Qed.

(** The endpoint [findAvailableEndpoint] returns is a registered one that
    passed the filter. *)
Lemma findAvailableEndpoint_found agentType r e :
  EndpointRegistry.findAvailableEndpoint agentType r = Some e ->
  In e (EndpointRegistry.getAllEndpoints r)
  /\ EndpointRegistry.available r (match agentType with Some a => a | None => "claude" end) e
     = true.
Proof.
  unfold EndpointRegistry.findAvailableEndpoint, EndpointRegistry.getAllEndpoints.
  set (agent := match agentType with Some a => a | None => "claude" end).
  set (all := JsMap.values (EndpointRegistry.endpoints r)).
  destruct (filter (EndpointRegistry.available r agent) all) as [|x l] eqn:Hf;
    [discriminate|].
  intros Hhd.
  apply (js_sort_hd (fun e => EndpointRegistry.currentSessions r (ce_id e))
                    (EndpointRegistry.byLoad r) (fun a b => eq_refl)) in Hhd.
  destruct Hhd as (b & a & Hl & _).
  assert (Hin : In e (filter (EndpointRegistry.available r agent) all))
    by (rewrite Hf, Hl; apply in_or_app; right; now left).
  now apply filter_In in Hin.
Qed.

Lemma keyed_ok_lookup r e :
  keyed_ok r -> In e (EndpointRegistry.getAllEndpoints r) ->
  EndpointRegistry.getEndpoint (ce_id e) r = Some e.
Proof.
  intros [Hnd Hid] Hin. unfold EndpointRegistry.getAllEndpoints, JsMap.values in Hin.
  apply in_map_iff in Hin as ([k e'] & He & Hin); simpl in He; subst e'.
  apply (In_get _ _ _ Hnd) in Hin.
  unfold EndpointRegistry.getEndpoint. now rewrite (Hid k e Hin).
Qed.

(** X8.  In every state the server reaches, a [createCloudSession] call
    that runs to its end with no other manager call in between, for which
    [findAvailableEndpoint] finds an endpoint and whose two store calls
    succeed, provisions nothing and starts the session at once: the session
    is returned and stored as [starting] on that endpoint, its assignment
    is recorded, [session:start] is the one event emitted, to that
    endpoint's room, one row and one update are written, and the pending
    tokens are untouched. *)
Theorem X8_placement_starts_immediately :
  forall (serverUrl : string) (events : list Incoming)
         (x : CreateOutcomes) (options : CreateCloudSessionOptions)
         (e : CloudEndpoint) (seq : Z) (dbId : string),
    let w := Handlers.world
               (handle_all events (Handlers.setupCloudEndpointHandlers serverUrl)) in
    let m := CloudSessionManager.manager w in
    EndpointRegistry.findAvailableEndpoint
      (option_map agent_name (o_agentType options))
      (CloudSessionManager.endpointRegistry m) = Some e ->
    x_userSeq x = Returned seq ->
    x_dbSessionId x = Returned dbId ->
    let res := CloudSessionManager.createCloudSession x options w in
    let m' := CloudSessionManager.manager (snd res) in
    let session := new_session x options dbId (ce_id e) starting in
    fst res = Returned session
    /\ CloudSessionManager.getSession dbId m' = Some session
    /\ EndpointRegistry.getSessionAssignment dbId (CloudSessionManager.endpointRegistry m')
       = Some {| sa_endpointId := ce_id e; sa_sessionId := dbId; sa_assignedAt := x_now x |}
    /\ CloudSessionManager.io_log (snd res)
       = CloudSessionManager.io_log w ++ [start_event options dbId (ce_id e)]
    /\ map db_id (CloudSessionManager.db_sessions (snd res))
       = map db_id (CloudSessionManager.db_sessions w) ++ [dbId]
    /\ CloudSessionManager.updates (snd res)
       = CloudSessionManager.updates w
         ++ [{| up_userId := o_userId options; up_sessionId := dbId;
                up_seq := seq; up_key := x_updateKey x |}]
    /\ CloudSessionManager.pendingEndpoints m' = CloudSessionManager.pendingEndpoints m.
Proof.
  intros serverUrl events x options e seq dbId w m Hfind Hseq Hdb res m' session.
  destruct (server_reachable serverUrl events) as [Hkeyed Hio].
  fold w m in Hkeyed, Hio.
  destruct (findAvailableEndpoint_found _ _ _ Hfind) as [Hin Hav].
  pose proof (keyed_ok_lookup _ _ Hkeyed Hin) as Hget.
  assert (Honline : ce_status e = st_online).
  { unfold EndpointRegistry.available in Hav.
    destruct (ce_status e); simpl in Hav; try discriminate. reflexivity. }
  unfold session, m', res, CloudSessionManager.createCloudSession, CloudSessionManager.bind,
    CloudSessionManager.read, CloudSessionManager.await, CloudSessionManager.update,
    CloudSessionManager.db_session_create, CloudSessionManager.emitUpdate,
    CloudSessionManager.ret.
  cbv zeta. fold m. rewrite Hfind, Hseq, Hdb. simpl.
  unfold EndpointRegistry.getEndpoint in Hget |- *. simpl.
  fold m. rewrite Hget, Honline, Hio. simpl.
  unfold CloudSessionManager.run, CloudSessionManager.startSessionOnEndpoint; simpl.
  rewrite !get_set_same. fold m. rewrite Hio. simpl.
  unfold CloudSessionManager.getSession, EndpointRegistry.getSessionAssignment; simpl.
  rewrite ?set_set, ?get_set_same, map_app. simpl.
  repeat split.
Qed.

(** X9.  When no endpoint is available, the provider returns a sandbox
    whose endpoint id is not registered yet, and the two store calls
    succeed, [createCloudSession] returns and stores the session as
    [pending] on the new endpoint [e2b-<sandbox>], stores the generated
    token for that endpoint, records the assignment, leaves the registered
    endpoints as they are, writes one row and one update, and emits nothing:
    the start waits for the endpoint to register. *)
Theorem X9_provisioning_defers_start :
  forall (x : CreateOutcomes) (options : CreateCloudSessionOptions)
         (w : CloudSessionManager.World) (sandboxId : string) (seq : Z) (dbId : string),
    let m := CloudSessionManager.manager w in
    let endpointId := String.append "e2b-" sandboxId in
    EndpointRegistry.findAvailableEndpoint
      (option_map agent_name (o_agentType options))
      (CloudSessionManager.endpointRegistry m) = None ->
    x_sandbox x = Returned sandboxId ->
    EndpointRegistry.getEndpoint endpointId (CloudSessionManager.endpointRegistry m) = None ->
    x_userSeq x = Returned seq ->
    x_dbSessionId x = Returned dbId ->
    let res := CloudSessionManager.createCloudSession x options w in
    let m' := CloudSessionManager.manager (snd res) in
    let session := new_session x options dbId endpointId pending in
    fst res = Returned session
    /\ CloudSessionManager.sessions m'
       = JsMap.set dbId session (CloudSessionManager.sessions m)
    /\ CloudSessionManager.pendingEndpoints m'
       = JsMap.set endpointId (x_authToken x) (CloudSessionManager.pendingEndpoints m)
    /\ EndpointRegistry.getSessionAssignment dbId (CloudSessionManager.endpointRegistry m')
       = Some {| sa_endpointId := endpointId; sa_sessionId := dbId;
                 sa_assignedAt := x_now x |}
    /\ EndpointRegistry.endpoints (CloudSessionManager.endpointRegistry m')
       = EndpointRegistry.endpoints (CloudSessionManager.endpointRegistry m)
    /\ CloudSessionManager.io_log (snd res) = CloudSessionManager.io_log w
    /\ map db_id (CloudSessionManager.db_sessions (snd res))
       = map db_id (CloudSessionManager.db_sessions w) ++ [dbId]
    /\ CloudSessionManager.updates (snd res)
       = CloudSessionManager.updates w
         ++ [{| up_userId := o_userId options; up_sessionId := dbId;
                up_seq := seq; up_key := x_updateKey x |}].
Proof.
  intros x options w sandboxId seq dbId m endpointId Hfind Hsb Hnew Hseq Hdb res m' session.
  unfold session, m', res, CloudSessionManager.createCloudSession,
    CloudSessionManager.spawnNewEndpoint, CloudSessionManager.bind,
    CloudSessionManager.read, CloudSessionManager.await, CloudSessionManager.update,
    CloudSessionManager.db_session_create, CloudSessionManager.emitUpdate,
    CloudSessionManager.ret.
  cbv zeta. fold m. rewrite Hfind, Hsb. simpl. rewrite Hseq, Hdb. simpl.
  unfold endpointId, EndpointRegistry.getEndpoint in Hnew |- *. simpl in Hnew |- *.
  fold m. rewrite Hnew. simpl.
  unfold EndpointRegistry.getSessionAssignment; simpl.
  rewrite ?get_set_same, map_app. simpl.
  repeat split.
Qed.

(** X10.  When an endpoint had to be provisioned and a store call then
    throws ([allocateUserSeq] or [db.session.create]), [createCloudSession]
    throws that error with no session, assignment, row, update or event
    written, but the token of the provisioned endpoint stays in the pending
    table: the sandbox is left running with no session for it. *)
Theorem X10_store_failure_orphans_endpoint :
  forall (x : CreateOutcomes) (options : CreateCloudSessionOptions)
         (w : CloudSessionManager.World) (sandboxId message : string),
    let m := CloudSessionManager.manager w in
    EndpointRegistry.findAvailableEndpoint
      (option_map agent_name (o_agentType options))
      (CloudSessionManager.endpointRegistry m) = None ->
    x_sandbox x = Returned sandboxId ->
    store_failure x = Some message ->
    let res := CloudSessionManager.createCloudSession x options w in
    let m' := CloudSessionManager.manager (snd res) in
    fst res = Threw message
    /\ CloudSessionManager.sessions m' = CloudSessionManager.sessions m
    /\ CloudSessionManager.endpointRegistry m' = CloudSessionManager.endpointRegistry m
    /\ CloudSessionManager.db_sessions (snd res) = CloudSessionManager.db_sessions w
    /\ CloudSessionManager.updates (snd res) = CloudSessionManager.updates w
    /\ CloudSessionManager.io_log (snd res) = CloudSessionManager.io_log w
    /\ CloudSessionManager.pendingEndpoints m'
       = JsMap.set (String.append "e2b-" sandboxId) (x_authToken x)
                   (CloudSessionManager.pendingEndpoints m).
Proof.
  intros x options w sandboxId message m Hfind Hsb Hfail res m'.
  unfold m', res, CloudSessionManager.createCloudSession,
    CloudSessionManager.spawnNewEndpoint, CloudSessionManager.bind,
    CloudSessionManager.read, CloudSessionManager.await, CloudSessionManager.update,
    CloudSessionManager.db_session_create, CloudSessionManager.emitUpdate,
    CloudSessionManager.ret, CloudSessionManager.throw.
  cbv zeta. fold m. rewrite Hfind, Hsb. simpl.
  unfold store_failure in Hfail.
  destruct (x_userSeq x) as [seq|msg1]; simpl.
  - destruct (x_dbSessionId x) as [dbId|msg2]; simpl; [discriminate|].
    injection Hfail as ->. repeat split.
  - injection Hfail as ->. repeat split.
Qed.

(** When the placement found a registered endpoint, a store failure leaves
    the world as it was. *)
Lemma store_failure_without_provisioning x options w e message :
  EndpointRegistry.findAvailableEndpoint
    (option_map agent_name (o_agentType options))
    (CloudSessionManager.endpointRegistry (CloudSessionManager.manager w)) = Some e ->
  store_failure x = Some message ->
  CloudSessionManager.createCloudSession x options w = (Threw message, w).
Proof.
  intros Hfind Hfail.
  unfold CloudSessionManager.createCloudSession, CloudSessionManager.bind,
    CloudSessionManager.read, CloudSessionManager.await,
    CloudSessionManager.ret, CloudSessionManager.throw.
  cbv zeta. rewrite Hfind. simpl.
  unfold store_failure in Hfail.
  destruct (x_userSeq x) as [seq|msg1]; simpl.
  - destruct (x_dbSessionId x) as [dbId|msg2]; simpl; [discriminate|].
    now injection Hfail as ->.
  - now injection Hfail as ->.
Qed.

(** What holds of a session that [createCloudSession] returns, on either
    path: it is the stored one, it is assigned to its endpoint, it is
    [pending] or [starting], and the call did not switch the socket server. *)
Lemma createCloudSession_returned x options w session :
  let res := CloudSessionManager.createCloudSession x options w in
  let m' := CloudSessionManager.manager (snd res) in
  fst res = Returned session ->
  CloudSessionManager.getSession (cs_sessionId session) m' = Some session
  /\ EndpointRegistry.getSessionAssignment (cs_sessionId session)
       (CloudSessionManager.endpointRegistry m')
     = Some {| sa_endpointId := cs_endpointId session;
               sa_sessionId := cs_sessionId session;
               sa_assignedAt := x_now x |}
  /\ terminal (cs_status session) = false
  /\ cs_status session <> running
  /\ cs_userId session = o_userId options
  /\ x_dbSessionId x = Returned (cs_sessionId session).
Proof.
  unfold CloudSessionManager.createCloudSession, CloudSessionManager.spawnNewEndpoint,
    CloudSessionManager.bind, CloudSessionManager.read, CloudSessionManager.await,
    CloudSessionManager.update, CloudSessionManager.db_session_create,
    CloudSessionManager.emitUpdate, CloudSessionManager.ret, CloudSessionManager.throw.
  cbv zeta.
  destruct (EndpointRegistry.findAvailableEndpoint _ _) as [ep|];
    [|destruct (x_sandbox x) as [sandboxId|]; simpl; [|discriminate]];
    (destruct (x_userSeq x) as [seq|]; simpl; [|discriminate]);
    (destruct (x_dbSessionId x) as [dbId|]; simpl; [|discriminate]).
  all: match goal with
       | |- context [EndpointRegistry.getEndpoint ?k ?r] =>
           destruct (EndpointRegistry.getEndpoint k r) as [info|]
       end.
  all: try match goal with
       | |- context [status_eqb ?a ?b && ?c] => destruct (status_eqb a b && c)
       end.
  all: unfold CloudSessionManager.run, CloudSessionManager.startSessionOnEndpoint,
         CloudSessionManager.ret; simpl;
       rewrite ?get_set_same; simpl.
  all: try match goal with
       | |- context [negb ?c] => destruct c; simpl
       end.
  all: rewrite ?get_set_same; intros [= <-]; simpl;
       unfold CloudSessionManager.getSession, EndpointRegistry.getSessionAssignment; simpl;
       rewrite ?get_set_same; repeat split; discriminate.
Qed.

(** X11.  A session that [createCloudSession] returns, on either path, is
    the one stored under its id; it belongs to the calling user, is
    [pending] or [starting] (never [running] or finished), and is assigned
    in the registry to the endpoint named in it. *)
Theorem X11_returned_session_is_stored_and_assigned :
  forall (x : CreateOutcomes) (options : CreateCloudSessionOptions)
         (w : CloudSessionManager.World) (session : CloudSession),
    let res := CloudSessionManager.createCloudSession x options w in
    let m' := CloudSessionManager.manager (snd res) in
    fst res = Returned session ->
    CloudSessionManager.getSession (cs_sessionId session) m' = Some session
    /\ option_map sa_endpointId
         (EndpointRegistry.getSessionAssignment (cs_sessionId session)
            (CloudSessionManager.endpointRegistry m'))
       = Some (cs_endpointId session)
    /\ (cs_status session = pending \/ cs_status session = starting)
    /\ cs_userId session = o_userId options.
Proof.
  intros x options w session res m' Hres.
  destruct (createCloudSession_returned x options w session Hres)
    as (Hget & Hassign & Hterm & Hrun & Huser & _).
  fold res m' in Hget, Hassign. rewrite Hassign. repeat split; try assumption.
  destruct (cs_status session); try discriminate; auto. congruence.
Qed.

Lemma fold_io_emit_log (es : list Emitted) : forall s,
  CloudSessionManager.io_log
    (Handlers.world (fold_left (fun acc re => Handlers.io_emit (fst re) (snd re) acc) es s))
  = CloudSessionManager.io_log (Handlers.world s) ++ es.
Proof.
  induction es as [|[room e] es IH]; simpl; intros s; [now rewrite app_nil_r|].
  rewrite IH. simpl. now rewrite <- app_assoc.
Qed.

Lemma fold_io_emit_sockets (es : list Emitted) : forall s,
  let s' := fold_left (fun acc re => Handlers.io_emit (fst re) (snd re) acc) es s in
  Handlers.rooms s' = Handlers.rooms s /\ Handlers.socket_log s' = Handlers.socket_log s.
Proof.
  induction es as [|e es IH]; simpl; intros s; [now split|].
  destruct (IH (Handlers.io_emit (fst e) (snd e) s)) as [-> ->]. now split.
Qed.

Lemma in_values_set {V} k (v : V) (m : JsMap.t V) : In v (JsMap.values (JsMap.set k v m)).
Proof.
  unfold JsMap.values. induction m as [|[k' v'] m IH]; simpl; [now left|].
  destruct (String.eqb k k'); simpl; [now left | now right].
Qed.

(** X12.  The deferred start is delivered at registration.  After a
    [createCloudSession] that provisioned the endpoint [e2b-<sandbox>]
    (with the socket server set), the register event of that endpoint
    carrying the generated token is accepted: the endpoint is registered
    online with the capabilities it declares, the socket joins the endpoint
    room and is acknowledged, and the [session:start] of the new session is
    among the events sent to that room. *)
Theorem X12_registration_delivers_deferred_start :
  forall (x : CreateOutcomes) (options : CreateCloudSessionOptions)
         (s : Handlers.Server) (sandboxId : string) (seq : Z) (dbId : string)
         (now : Z) (socket : string) (registration : EndpointRegistration),
    let m := CloudSessionManager.manager (Handlers.world s) in
    let endpointId := String.append "e2b-" sandboxId in
    CloudSessionManager.io m = true ->
    EndpointRegistry.findAvailableEndpoint
      (option_map agent_name (o_agentType options))
      (CloudSessionManager.endpointRegistry m) = None ->
    x_sandbox x = Returned sandboxId ->
    EndpointRegistry.getEndpoint endpointId (CloudSessionManager.endpointRegistry m) = None ->
    x_userSeq x = Returned seq ->
    x_dbSessionId x = Returned dbId ->
    reg_endpointId registration = endpointId ->
    let s1 := snd (Handlers.create_session x options s) in
    let s2 := Handlers.on_endpoint_register now socket
                {| Handlers.rd_registration := registration;
                   Handlers.rd_authToken := Some (x_authToken x) |} s1 in
    let m2 := CloudSessionManager.manager (Handlers.world s2) in
    option_map ce_status
      (EndpointRegistry.getEndpoint endpointId (CloudSessionManager.endpointRegistry m2))
    = Some st_online
    /\ option_map ce_capabilities
         (EndpointRegistry.getEndpoint endpointId (CloudSessionManager.endpointRegistry m2))
       = Some (reg_capabilities registration)
    /\ Handlers.rooms s2 = Handlers.rooms s ++ [(socket, endpoint_room endpointId)]
    /\ Handlers.socket_log s2
       = Handlers.socket_log s ++ [(socket, ev_endpoint_registered endpointId)]
    /\ (exists others_before others_after,
           CloudSessionManager.io_log (Handlers.world s2)
           = CloudSessionManager.io_log (Handlers.world s)
             ++ others_before ++ start_event options dbId endpointId :: others_after).
Proof.
  intros x options s sandboxId seq dbId now socket registration m endpointId
         Hio Hfind Hsb Hnew Hseq Hdb Hreg s1 s2 m2.
  (* the state after the create call *)
  assert (Hcreate :
    let w1 := Handlers.world s1 in
    CloudSessionManager.sessions (CloudSessionManager.manager w1)
    = JsMap.set dbId (new_session x options dbId endpointId pending)
                (CloudSessionManager.sessions m)
    /\ CloudSessionManager.pendingEndpoints (CloudSessionManager.manager w1)
       = JsMap.set endpointId (x_authToken x) (CloudSessionManager.pendingEndpoints m)
    /\ CloudSessionManager.io (CloudSessionManager.manager w1) = true
    /\ CloudSessionManager.io_log w1 = CloudSessionManager.io_log (Handlers.world s)
    /\ Handlers.rooms s1 = Handlers.rooms s
    /\ Handlers.socket_log s1 = Handlers.socket_log s).
  { unfold s1, Handlers.create_session.
    unfold CloudSessionManager.createCloudSession,
      CloudSessionManager.spawnNewEndpoint, CloudSessionManager.bind,
      CloudSessionManager.read, CloudSessionManager.await, CloudSessionManager.update,
      CloudSessionManager.db_session_create, CloudSessionManager.emitUpdate,
      CloudSessionManager.ret.
    cbv zeta. fold m. rewrite Hfind, Hsb. simpl. rewrite Hseq, Hdb. simpl.
    unfold endpointId, EndpointRegistry.getEndpoint in Hnew |- *. simpl in Hnew |- *.
    fold m. rewrite Hnew. simpl.
    repeat split. exact Hio. }
  destruct Hcreate as (Hsessions & Hpending & Hio1 & Hlog1 & Hrooms1 & Hsock1).
  (* the registration is accepted *)
  assert (Haccept :
    negb (CloudSessionManager.validateEndpointToken endpointId
            (or_else (Some (x_authToken x)) "")
            (CloudSessionManager.manager (Handlers.world s1)))
    && truthy (Some (x_authToken x)) = false).
  { unfold CloudSessionManager.validateEndpointToken, or_else, truthy.
    rewrite Hpending, get_set_same.
    destruct (String.eqb (x_authToken x) ""); simpl; [reflexivity|].
    now rewrite String.eqb_refl. }
  unfold m2, s2, Handlers.on_endpoint_register.
  simpl Handlers.rd_registration. simpl Handlers.rd_authToken.
  rewrite Hreg, Haccept.
  rewrite fold_io_emit_manager, fold_io_emit_log.
  match goal with
  | |- context [fold_left ?f ?es ?s0] =>
      destruct (fold_io_emit_sockets es s0) as [Hr Hs]
  end.
  cbv zeta in Hr, Hs. rewrite Hr, Hs. simpl.
  unfold EndpointRegistry.getEndpoint; simpl.
  rewrite Hreg, !get_set_same, Hrooms1, Hsock1, Hlog1. simpl.
  repeat split.
  unfold CloudSessionManager.startPendingSessionsForEndpoint; simpl.
  rewrite Hsessions, Hio1.
  set (session := new_session x options dbId endpointId pending).
  assert (Hin : In session
                  (filter (fun s0 => String.eqb (cs_endpointId s0) endpointId
                                     && session_status_eqb (cs_status s0) pending)
                          (JsMap.values (JsMap.set dbId session
                                                   (CloudSessionManager.sessions m))))).
  { apply filter_In. split; [apply in_values_set|].
    simpl. now rewrite String.eqb_refl. }
  apply in_split in Hin as (l1 & l2 & ->).
  rewrite flat_map_app. simpl.
  eexists. eexists. reflexivity.
Qed.

(** ** Reports, idle endpoints *)

(** X13.  A report about one session touches nothing else: the record and
    the assignment of every other session, the endpoints and the pending
    tokens are the same after [sessionStarted], [sessionEnded] and
    [sessionError]; [sessionStarted] leaves the whole registry as it is and
    stamps [startedAt] with the time of the report. *)
Theorem X13_reports_are_local :
  forall (now : Z) (sessionId other : string) (m : CloudSessionManager.t),
    let started := CloudSessionManager.sessionStarted now sessionId m in
    let closed := CloudSessionManager.sessionEnded now sessionId m in
    let failed := CloudSessionManager.sessionError now sessionId m in
    CloudSessionManager.endpointRegistry started = CloudSessionManager.endpointRegistry m
    /\ match CloudSessionManager.getSession sessionId m with
       | Some _ =>
           option_map cs_startedAt (CloudSessionManager.getSession sessionId started)
           = Some (Some now)
       | None => started = m
       end
    /\ EndpointRegistry.endpoints (CloudSessionManager.endpointRegistry closed)
       = EndpointRegistry.endpoints (CloudSessionManager.endpointRegistry m)
    /\ EndpointRegistry.endpoints (CloudSessionManager.endpointRegistry failed)
       = EndpointRegistry.endpoints (CloudSessionManager.endpointRegistry m)
    /\ CloudSessionManager.pendingEndpoints closed = CloudSessionManager.pendingEndpoints m
    /\ CloudSessionManager.pendingEndpoints failed = CloudSessionManager.pendingEndpoints m
    /\ (if String.eqb sessionId other then True
        else CloudSessionManager.getSession other started
             = CloudSessionManager.getSession other m
             /\ CloudSessionManager.getSession other closed
                = CloudSessionManager.getSession other m
             /\ CloudSessionManager.getSession other failed
                = CloudSessionManager.getSession other m
             /\ EndpointRegistry.getSessionAssignment other
                  (CloudSessionManager.endpointRegistry closed)
                = EndpointRegistry.getSessionAssignment other
                    (CloudSessionManager.endpointRegistry m)
             /\ EndpointRegistry.getSessionAssignment other
                  (CloudSessionManager.endpointRegistry failed)
                = EndpointRegistry.getSessionAssignment other
                    (CloudSessionManager.endpointRegistry m)).
Proof.
  intros now sessionId other m started closed failed.
  unfold started, closed, failed, CloudSessionManager.sessionStarted,
    CloudSessionManager.sessionEnded, CloudSessionManager.sessionError,
    CloudSessionManager.getSession, EndpointRegistry.getSessionAssignment.
  destruct (JsMap.get sessionId (CloudSessionManager.sessions m)) as [s|] eqn:Hs; simpl.
  - rewrite get_set_same; simpl.
    assert (Hep : EndpointRegistry.endpoints
                    (EndpointRegistry.unassignSession sessionId
                       (CloudSessionManager.endpointRegistry m))
                  = EndpointRegistry.endpoints (CloudSessionManager.endpointRegistry m)).
    { unfold EndpointRegistry.unassignSession.
      now destruct (JsMap.get sessionId
                      (EndpointRegistry.sessionAssignments
                         (CloudSessionManager.endpointRegistry m))). }
    rewrite Hep, !unassignSession_get, !get_set.
    destruct (String.eqb sessionId other); repeat split.
  - destruct (String.eqb sessionId other); repeat split.
Qed.

(** X14.  [cleanupIdleEndpoints] only reports.  The ids it lists are
    exactly the ids of registered endpoints on which no session is
    [running], in registration order, and [sessionEnded], which calls it,
    removes no endpoint. *)
Theorem X14_idle_endpoints_are_only_reported :
  forall (now : Z) (sessionId endpointId : string) (m : CloudSessionManager.t),
    (In endpointId (CloudSessionManager.cleanupIdleEndpoints m)
     <-> exists e,
           In e (EndpointRegistry.getAllEndpoints (CloudSessionManager.endpointRegistry m))
           /\ ce_id e = endpointId
           /\ forall s, In s (JsMap.values (CloudSessionManager.sessions m)) ->
                        cs_endpointId s = endpointId -> cs_status s <> running)
    /\ EndpointRegistry.getAllEndpoints
         (CloudSessionManager.endpointRegistry
            (CloudSessionManager.sessionEnded now sessionId m))
       = EndpointRegistry.getAllEndpoints (CloudSessionManager.endpointRegistry m).
Proof.
  intros now sessionId endpointId m. split.
  - unfold CloudSessionManager.cleanupIdleEndpoints. rewrite in_flat_map. split.
    + intros (e & Hin & Hid).
      destruct (find _ (JsMap.values (CloudSessionManager.sessions m))) eqn:Hfind;
        [destruct Hid|].
      destruct Hid as [<-|[]]. exists e. repeat split; [assumption|].
      intros s Hs Hep Hrun.
      pose proof (find_none _ _ Hfind s Hs) as H. simpl in H.
      rewrite Hep, String.eqb_refl, Hrun in H. discriminate.
    + intros (e & Hin & <- & Hnone). exists e. split; [assumption|].
      destruct (find _ (JsMap.values (CloudSessionManager.sessions m))) as [s|] eqn:Hfind;
        [|now left].
      apply find_some in Hfind as [Hs Hcond]. apply andb_true_iff in Hcond as [Hep Hst].
      apply String.eqb_eq in Hep. exfalso. apply (Hnone s Hs Hep).
      now destruct (cs_status s).
  - unfold CloudSessionManager.sessionEnded, EndpointRegistry.getAllEndpoints.
    destruct (JsMap.get sessionId (CloudSessionManager.sessions m)); [|reflexivity].
    simpl. unfold EndpointRegistry.unassignSession.
    now destruct (JsMap.get sessionId
                    (EndpointRegistry.sessionAssignments
                       (CloudSessionManager.endpointRegistry m))).
Qed.

(* ================================================================== *)
(** * Further properties of the socket handlers *)

(** X15.  Once a known session has been reported ended or failed, a
    [message:to-claude] for it is refused: the sending socket gets the
    error [Session not found or not assigned to endpoint] and nothing is
    relayed to any endpoint. *)
Theorem X15_closed_session_refuses_messages :
  forall (now : Z) (sessionId socket message : string) (err : option string)
         (s : Handlers.Server),
    CloudSessionManager.getSession sessionId
      (CloudSessionManager.manager (Handlers.world s)) <> None ->
    let closed := Handlers.on_session_ended now sessionId s in
    let failed := Handlers.on_session_error now sessionId err s in
    Handlers.on_message_to_claude socket sessionId message closed
    = Handlers.socket_emit socket (ev_error not_assigned) closed
    /\ Handlers.on_message_to_claude socket sessionId message failed
       = Handlers.socket_emit socket (ev_error not_assigned) failed.
Proof.
  intros now sessionId socket message err s Hknown closed failed.
  unfold CloudSessionManager.getSession in Hknown.
  unfold closed, failed, Handlers.on_message_to_claude, Handlers.on_session_ended,
    Handlers.on_session_error, EndpointRegistry.getSessionAssignment; simpl.
  unfold CloudSessionManager.sessionEnded, CloudSessionManager.sessionError.
  destruct (JsMap.get sessionId
              (CloudSessionManager.sessions
                 (CloudSessionManager.manager (Handlers.world s)))); [|congruence].
  simpl. rewrite unassignSession_get, String.eqb_refl. split; reflexivity.
Qed.

(** X16.  When an endpoint unregisters, no session is updated or told: the
    session table (every status) and the events sent so far are unchanged.
    Exactly the sessions in the endpoint's session set lose their
    assignment: a [message:to-claude] for one of them is refused with an
    error.  Every other session keeps its assignment, also one whose
    assignment names the unregistered endpoint (it was assigned before the
    endpoint registered, so it is not in the set): its messages are relayed
    to the endpoint's room as before. *)
Theorem X16_unregister_strands_sessions :
  forall (endpointId sessionId socket message : string) (s : Handlers.Server),
    let r := CloudSessionManager.endpointRegistry
               (CloudSessionManager.manager (Handlers.world s)) in
    let in_set := match JsMap.get endpointId (EndpointRegistry.endpointSessions r) with
                  | Some sessions => JsSet.has sessionId sessions
                  | None => false
                  end in
    let s' := Handlers.on_endpoint_unregister endpointId s in
    CloudSessionManager.sessions (CloudSessionManager.manager (Handlers.world s'))
    = CloudSessionManager.sessions (CloudSessionManager.manager (Handlers.world s))
    /\ CloudSessionManager.io_log (Handlers.world s')
       = CloudSessionManager.io_log (Handlers.world s)
    /\ Handlers.socket_log s' = Handlers.socket_log s
    /\ Handlers.on_message_to_claude socket sessionId message s'
       = if in_set
         then Handlers.socket_emit socket (ev_error not_assigned) s'
         else match EndpointRegistry.getSessionAssignment sessionId r with
              | Some assignment =>
                  Handlers.io_emit (endpoint_room (sa_endpointId assignment))
                                   (ev_message_send sessionId message) s'
              | None => Handlers.socket_emit socket (ev_error not_assigned) s'
              end.
Proof.
  intros endpointId sessionId socket message s r in_set s'.
  unfold s', in_set, r, Handlers.on_endpoint_unregister, Handlers.on_message_to_claude,
    EndpointRegistry.getSessionAssignment; simpl.
  repeat split.
  destruct (JsMap.get endpointId
              (EndpointRegistry.endpointSessions
                 (CloudSessionManager.endpointRegistry
                    (CloudSessionManager.manager (Handlers.world s))))) as [ss|];
    [|reflexivity].
  rewrite fold_delete_get. now destruct (JsSet.has sessionId ss).
Qed.

(** After [e2b-sbx] unregisters, session [S2], placed on it after it
    registered, is refused, and session [S1], assigned to it before it
    registered, is still relayed to its room. *)
Example unregister_keeps_early_assignment :
  let s := handle (in_create_session (second_outcomes (Threw "not asked")) sample_options)
                  (handle_all events_until_registered fresh_server) in
  let s' := Handlers.on_endpoint_unregister "e2b-sbx" s in
  Handlers.on_message_to_claude "sock-2" "S2" "hello" s'
  = Handlers.socket_emit "sock-2" (ev_error not_assigned) s'
  /\ Handlers.on_message_to_claude "sock-2" "S1" "hello" s'
     = Handlers.io_emit (endpoint_room "e2b-sbx") (ev_message_send "S1" "hello") s'
  /\ EndpointRegistry.getEndpoint "e2b-sbx"
       (CloudSessionManager.endpointRegistry
          (CloudSessionManager.manager (Handlers.world s'))) = None.
Proof. vm_compute. repeat split. Qed.

(** X17.  A message for a session that [createCloudSession] has just
    returned is relayed, unchanged, to the room of the endpoint the session
    was placed on, also while that endpoint has not registered yet. *)
Theorem X17_message_follows_placement :
  forall (x : CreateOutcomes) (options : CreateCloudSessionOptions)
         (s : Handlers.Server) (session : CloudSession) (socket message : string),
    fst (Handlers.create_session x options s) = Returned session ->
    let s' := snd (Handlers.create_session x options s) in
    Handlers.on_message_to_claude socket (cs_sessionId session) message s'
    = Handlers.io_emit (endpoint_room (cs_endpointId session))
                       (ev_message_send (cs_sessionId session) message) s'.
Proof.
  intros x options s session socket message Hres s'.
  unfold s', Handlers.create_session in *.
  pose proof (createCloudSession_returned x options (Handlers.world s) session) as H.
  destruct (CloudSessionManager.createCloudSession x options (Handlers.world s))
    as [res w']; simpl in *.
  destruct (H Hres) as (_ & Hassign & _).
  unfold Handlers.on_message_to_claude; simpl. now rewrite Hassign.
Qed.

(* ================================================================== *)
(** * Further properties of the cloud runner *)

Section JsMapMoreFacts.
Context {V : Type}.
Implicit Types (m : JsMap.t V) (k : string) (v : V).

Lemma size_delete_le k m : (JsMap.size (JsMap.delete k m) <= JsMap.size m)%nat.
Proof. unfold JsMap.size, JsMap.delete. apply filter_length_le. Qed.

Lemma has_set_same k v m : JsMap.has k (JsMap.set k v m) = true.
Proof. unfold JsMap.has. now rewrite get_set_same. Qed.

Lemma has_delete_same k m : JsMap.has k (JsMap.delete k m) = false.
Proof. unfold JsMap.has. now rewrite get_delete, String.eqb_refl. Qed.

Lemma delete_absent k m : JsMap.get k m = None -> JsMap.delete k m = m.
Proof.
unfold JsMap.delete. induction m as [|[k' v'] m IH]; simpl; [reflexivity|].
destruct (String.eqb k k'); [discriminate|].
intros H. simpl. now rewrite IH.
Qed.

Lemma delete_set_absent k v m : JsMap.get k m = None -> JsMap.delete k (JsMap.set k v m) = m.
Proof.
unfold JsMap.delete. induction m as [|[k' v'] m IH]; simpl.
- now rewrite String.eqb_refl.
- destruct (String.eqb k k') eqn:E; [discriminate|].
  intros H. simpl. rewrite E. simpl. now rewrite IH.
Qed.

Lemma size_set_present k v m : JsMap.has k m = true -> JsMap.size (JsMap.set k v m) = JsMap.size m.
Proof. intros H. now rewrite size_set, H. Qed.

(** Deleting the keys [ks] for which [ok] holds keeps the other entries,
  in order. *)
Lemma fold_delete_filter (ok : string -> bool) ks : forall m,
fold_left (fun m k => if ok k then JsMap.delete k m else m) ks m
= filter (fun kv => negb (ok (fst kv) && existsb (String.eqb (fst kv)) ks)) m.
Proof.
induction ks as [|k ks IH]; intros m; simpl.
- induction m as [|kv m IHm]; simpl; [reflexivity|].
  rewrite andb_false_r. simpl. now rewrite <- IHm.
- rewrite IH. destruct (ok k) eqn:Hok.
  + unfold JsMap.delete. induction m as [|[k' v'] m IHm]; simpl; [reflexivity|].
    rewrite (String.eqb_sym k' k).
    destruct (String.eqb_spec k k') as [<-|Hne]; simpl.
    * rewrite Hok. simpl. apply IHm.
    * destruct (negb (ok k' && existsb (String.eqb k') ks)); [f_equal|]; apply IHm.
  + apply filter_ext. intros [k' v']; simpl.
    destruct (String.eqb_spec k' k) as [->|Hne]; simpl; [|reflexivity].
    now rewrite Hok.
Qed.

Lemma existsb_key kv m : In kv m -> existsb (String.eqb (fst kv)) (JsMap.keys m) = true.
Proof.
intros Hin. apply existsb_exists. exists (fst kv). split.
- unfold JsMap.keys. now apply in_map.
- apply String.eqb_refl.
Qed.

Lemma filter_none {A} (f : A -> bool) (l : list A) :
(forall a, In a l -> f a = false) -> filter f l = [].
Proof.
induction l as [|a l IH]; simpl; intros H; [reflexivity|].
rewrite (H a (or_introl eq_refl)). apply IH. intros b Hb. apply H. now right.
Qed.
End JsMapMoreFacts.

Lemma socket_emit_table e r :
  CloudRunner.activeSessions (CloudRunner.socket_emit e r) = CloudRunner.activeSessions r
  /\ CloudRunner.maxConcurrentSessions (CloudRunner.socket_emit e r)
     = CloudRunner.maxConcurrentSessions r.
Proof. unfold CloudRunner.socket_emit. now destruct (CloudRunner.socket r). Qed.

Lemma react_keeps_limit i r :
  CloudRunner.maxConcurrentSessions (RunnerLifecycle.react i r)
  = CloudRunner.maxConcurrentSessions r.
Proof.
  destruct i; simpl; try reflexivity.
  - unfold CloudRunner.startSession.
    destruct (CloudRunner.atCapacity r); [apply socket_emit_table|].
    destruct (JsMap.has _ _); [reflexivity|].
    destruct child; now rewrite (proj2 (socket_emit_table _ _)).
  - unfold RunnerLifecycle.stopSession. now destruct (JsMap.get sessionId _).
  - unfold RunnerLifecycle.on_exit. now destruct (JsMap.get sessionId _).
  - unfold RunnerLifecycle.on_process_error. now destruct (JsMap.get sessionId _).
Qed.

Lemma react_within_limit i r n :
  CloudRunner.maxConcurrentSessions r = Some n ->
  Z.of_nat (JsMap.size (CloudRunner.activeSessions r)) <= n ->
  Z.of_nat (JsMap.size (CloudRunner.activeSessions (RunnerLifecycle.react i r))) <= n.
Proof.
  intros Hmax Hle. destruct i; simpl; try assumption.
  - unfold CloudRunner.startSession.
    destruct (CloudRunner.atCapacity r) eqn:Hcap;
      [now rewrite (proj1 (socket_emit_table _ _))|].
    destruct (JsMap.has (CloudRunner.sd_sessionId data) (CloudRunner.activeSessions r))
      eqn:Hhas; [assumption|].
    unfold CloudRunner.atCapacity in Hcap. rewrite Hmax in Hcap.
    apply Z.leb_gt in Hcap.
    destruct child; rewrite (proj1 (socket_emit_table _ _)); simpl.
    + rewrite size_set_present by apply has_set_same.
      rewrite size_set, Hhas. lia.
    + pose proof (size_delete_le (CloudRunner.sd_sessionId data)
                    (JsMap.set (CloudRunner.sd_sessionId data)
                       {| CloudRunner.sessionId := CloudRunner.sd_sessionId data;
                          CloudRunner.process := None;
                          CloudRunner.status := CloudRunner.starting;
                          CloudRunner.agentType := CloudRunner.sd_agentType data;
                          CloudRunner.workingDirectory :=
                            Some (or_else (CloudRunner.sd_workingDirectory data)
                                          "/home/user") |}
                       (CloudRunner.activeSessions r))) as Hd.
      rewrite size_set, Hhas in Hd. lia.
  - unfold RunnerLifecycle.stopSession.
    destruct (JsMap.get sessionId (CloudRunner.activeSessions r)); simpl; [|assumption].
    pose proof (size_delete_le sessionId (CloudRunner.activeSessions r)). lia.
  - unfold RunnerLifecycle.on_exit.
    destruct (JsMap.get sessionId (CloudRunner.activeSessions r)) eqn:Hget; simpl;
      [|assumption].
    rewrite size_set_present; [assumption|]. unfold JsMap.has. now rewrite Hget.
  - unfold RunnerLifecycle.on_process_error.
    destruct (JsMap.get sessionId (CloudRunner.activeSessions r)) eqn:Hget; simpl;
      [|assumption].
    rewrite size_set_present; [assumption|]. unfold JsMap.has. now rewrite Hget.
  - pose proof (size_delete_le sessionId (CloudRunner.activeSessions r)). lia.
Qed.

(** X18.  The runner keeps its session limit.  Whatever start requests,
    stop requests, messages, process exits, process errors and clean-up
    timers arrive, in any order, a runner whose table is within its
    [maxConcurrentSessions] stays within it, and the limit itself never
    changes. *)
Theorem X18_runner_keeps_session_limit :
  forall (incidents : list RunnerLifecycle.Incident) (r : CloudRunner.t) (n : Z),
    CloudRunner.maxConcurrentSessions r = Some n ->
    Z.of_nat (JsMap.size (CloudRunner.activeSessions r)) <= n ->
    let r' := RunnerLifecycle.react_all incidents r in
    CloudRunner.maxConcurrentSessions r' = Some n
    /\ Z.of_nat (JsMap.size (CloudRunner.activeSessions r')) <= n.
Proof.
  induction incidents as [|i incidents IH]; simpl; intros r n Hmax Hle; [now split|].
  apply IH.
  - now rewrite react_keeps_limit.
  - now apply react_within_limit.
Qed.

(** X19.  [stopSession] is final and idempotent.  After it the session is
    not in the table, a message for it is dropped, and a second
    [stopSession] changes nothing and has no effect; for a session that is
    not in the table the first call already changes nothing.  A session
    that was in the table is reported with one [session:ended], after the
    [SIGTERM] sent to its process when it has one. *)
Theorem X19_stopSession_final_and_idempotent :
  forall (sessionId text : string) (stdin_open : bool) (r : CloudRunner.t),
    let r1 := fst (RunnerLifecycle.stopSession sessionId r) in
    let effects := snd (RunnerLifecycle.stopSession sessionId r) in
    JsMap.has sessionId (CloudRunner.activeSessions r1) = false
    /\ RunnerLifecycle.sendMessageToAgent sessionId text stdin_open r1 = []
    /\ RunnerLifecycle.stopSession sessionId r1 = (r1, [])
    /\ match JsMap.get sessionId (CloudRunner.activeSessions r) with
       | None => r1 = r /\ effects = []
       | Some session =>
           effects
           = match CloudRunner.process session with
             | Some pid => [RunnerLifecycle.kill pid RunnerLifecycle.SIGTERM;
                            RunnerLifecycle.schedule_force_kill pid]
             | None => []
             end
             ++ (if CloudRunner.socket r
                 then [RunnerLifecycle.emit_session_ended sessionId
                         (CloudRunner.endpointId r)]
                 else [])
       end.
Proof.
  intros sessionId text stdin_open r r1 effects.
  assert (Hgone : JsMap.get sessionId (CloudRunner.activeSessions r1) = None).
  { unfold r1, RunnerLifecycle.stopSession.
    destruct (JsMap.get sessionId (CloudRunner.activeSessions r)) eqn:Hget; simpl.
    - now rewrite get_delete, String.eqb_refl.
    - exact Hget. }
  repeat split.
  - unfold JsMap.has. now rewrite Hgone.
  - unfold RunnerLifecycle.sendMessageToAgent. now rewrite Hgone.
  - unfold RunnerLifecycle.stopSession at 1. now rewrite Hgone.
  - unfold r1, effects, RunnerLifecycle.stopSession, RunnerLifecycle.emit.
    destruct (JsMap.get sessionId (CloudRunner.activeSessions r)); simpl; [reflexivity|].
    now split.
Qed.

(** X20.  Starting a session and stopping it again gives the table back.
    For a runner below its limit and a session id not in its table, a
    successful [startSession] puts the session in the table as [running]
    with its process and reports [session:started]; [stopSession] then
    sends [SIGTERM] to that process and leaves the table exactly as it was
    before the start. *)
Theorem X20_start_then_stop_restores_table :
  forall (data : CloudRunner.StartData) (pid : Z) (r : CloudRunner.t),
    CloudRunner.atCapacity r = false ->
    JsMap.has (CloudRunner.sd_sessionId data) (CloudRunner.activeSessions r) = false ->
    let sid := CloudRunner.sd_sessionId data in
    let r1 := CloudRunner.startSession data (Returned pid) r in
    let r2 := fst (RunnerLifecycle.stopSession sid r1) in
    option_map CloudRunner.status (JsMap.get sid (CloudRunner.activeSessions r1))
    = Some CloudRunner.running
    /\ option_map CloudRunner.process (JsMap.get sid (CloudRunner.activeSessions r1))
       = Some (Some pid)
    /\ CloudRunner.sent r1
       = CloudRunner.sent r
         ++ (if CloudRunner.socket r
             then [ev_session_started sid (CloudRunner.endpointId r)] else [])
    /\ CloudRunner.spawned r1 = CloudRunner.spawned r ++ [sid]
    /\ CloudRunner.activeSessions r2 = CloudRunner.activeSessions r
    /\ snd (RunnerLifecycle.stopSession sid r1)
       = [RunnerLifecycle.kill pid RunnerLifecycle.SIGTERM;
          RunnerLifecycle.schedule_force_kill pid]
         ++ (if CloudRunner.socket r
             then [RunnerLifecycle.emit_session_ended sid (CloudRunner.endpointId r)]
             else []).
Proof.
  intros data pid r Hcap Hhas sid r1 r2.
  assert (Hnone : JsMap.get (CloudRunner.sd_sessionId data) (CloudRunner.activeSessions r)
                  = None).
  { unfold JsMap.has in Hhas.
    now destruct (JsMap.get (CloudRunner.sd_sessionId data) (CloudRunner.activeSessions r)). }
  unfold r2, r1, sid, CloudRunner.startSession. rewrite Hcap, Hhas.
  unfold RunnerLifecycle.stopSession, RunnerLifecycle.emit, CloudRunner.socket_emit.
  simpl.
  destruct (CloudRunner.socket r) eqn:Hsock; simpl;
    repeat (rewrite ?set_set, ?get_set_same, ?Hsock; simpl);
    rewrite ?delete_set_absent by assumption;
    rewrite ?app_nil_r; repeat split.
Qed.

(** X21.  A start that fails to spawn takes no slot.  For a runner below
    its limit and a session id not in its table, when [spawnAgent] throws,
    [startSession] leaves the table exactly as it was and reports
    [session:error] with the error's message. *)
Theorem X21_failed_spawn_takes_no_slot :
  forall (data : CloudRunner.StartData) (message : string) (r : CloudRunner.t),
    CloudRunner.atCapacity r = false ->
    JsMap.has (CloudRunner.sd_sessionId data) (CloudRunner.activeSessions r) = false ->
    let r1 := CloudRunner.startSession data (Threw message) r in
    CloudRunner.activeSessions r1 = CloudRunner.activeSessions r
    /\ CloudRunner.sent r1
       = CloudRunner.sent r
         ++ (if CloudRunner.socket r
             then [ev_session_error (CloudRunner.sd_sessionId data) (Some message)]
             else [])
    /\ CloudRunner.spawned r1 = CloudRunner.spawned r ++ [CloudRunner.sd_sessionId data].
Proof.
  intros data message r Hcap Hhas r1.
  assert (Hnone : JsMap.get (CloudRunner.sd_sessionId data) (CloudRunner.activeSessions r)
                  = None).
  { unfold JsMap.has in Hhas.
    now destruct (JsMap.get (CloudRunner.sd_sessionId data) (CloudRunner.activeSessions r)). }
  unfold r1, CloudRunner.startSession. rewrite Hcap, Hhas.
  unfold CloudRunner.socket_emit; simpl.
  destruct (CloudRunner.socket r) eqn:Hsock; simpl;
    repeat (rewrite ?Hsock; simpl);
    rewrite delete_set_absent by assumption; rewrite ?app_nil_r; repeat split.
Qed.

(** X22.  A session whose process has exited keeps its slot until the
    clean-up timer fires.  The exit handler reports [session:ended] for
    exit code 0 and [session:error] otherwise (also for a death by signal),
    schedules the timer, and leaves the table at the same size, so a runner
    at its limit stays at its limit; the session has no process any more,
    so a message for it is dropped.  The timer's callback removes the
    session. *)
Theorem X22_exited_session_holds_slot_until_timer :
  forall (sessionId text : string) (stdin_open : bool) (code : option Z)
         (r : CloudRunner.t),
    let r1 := fst (RunnerLifecycle.on_exit sessionId code r) in
    JsMap.size (CloudRunner.activeSessions r1) = JsMap.size (CloudRunner.activeSessions r)
    /\ CloudRunner.atCapacity r1 = CloudRunner.atCapacity r
    /\ JsMap.has sessionId (CloudRunner.activeSessions r1)
       = JsMap.has sessionId (CloudRunner.activeSessions r)
    /\ RunnerLifecycle.sendMessageToAgent sessionId text stdin_open r1 = []
    /\ snd (RunnerLifecycle.on_exit sessionId code r)
       = (if CloudRunner.socket r
          then [match code with
                | Some 0 => RunnerLifecycle.emit_session_ended sessionId
                              (CloudRunner.endpointId r)
                | _ => RunnerLifecycle.emit_session_error sessionId
                         (RunnerLifecycle.exited_with_code code)
                end]
          else [])
         ++ [RunnerLifecycle.schedule_forget sessionId]
    /\ JsMap.has sessionId
         (CloudRunner.activeSessions (RunnerLifecycle.on_forget_timer sessionId r1))
       = false.
Proof.
  intros sessionId text stdin_open code r r1.
  assert (Hsize : JsMap.size (CloudRunner.activeSessions r1)
                  = JsMap.size (CloudRunner.activeSessions r)).
  { unfold r1, RunnerLifecycle.on_exit; simpl.
    destruct (JsMap.get sessionId (CloudRunner.activeSessions r)) eqn:Hget; simpl;
      [|reflexivity].
    apply size_set_present. unfold JsMap.has. now rewrite Hget. }
  split; [exact Hsize|]. split.
  { unfold CloudRunner.atCapacity. rewrite Hsize.
    unfold r1, RunnerLifecycle.on_exit; simpl.
    now destruct (JsMap.get sessionId (CloudRunner.activeSessions r)). }
  split.
  { unfold r1, RunnerLifecycle.on_exit, JsMap.has; simpl.
    destruct (JsMap.get sessionId (CloudRunner.activeSessions r)) eqn:Hget; simpl.
    - now rewrite get_set_same.
    - now rewrite Hget. }
  split.
  { unfold r1, RunnerLifecycle.on_exit, RunnerLifecycle.sendMessageToAgent; simpl.
    destruct (JsMap.get sessionId (CloudRunner.activeSessions r)) eqn:Hget; simpl.
    - now rewrite get_set_same.
    - now rewrite Hget. }
  split.
  { unfold RunnerLifecycle.on_exit, RunnerLifecycle.emit; simpl.
    destruct (CloudRunner.socket r); [|reflexivity].
    destruct code as [[| |]|]; reflexivity. }
  apply has_delete_same.
Qed.

Lemma stopSession_facts k r0 r1 es :
  RunnerLifecycle.stopSession k r0 = (r1, es) ->
  CloudRunner.activeSessions r1 = JsMap.delete k (CloudRunner.activeSessions r0)
  /\ CloudRunner.socket r1 = CloudRunner.socket r0
  /\ CloudRunner.endpointId r1 = CloudRunner.endpointId r0
  /\ (JsMap.has k (CloudRunner.activeSessions r0) = true ->
      CloudRunner.socket r0 = true ->
      In (RunnerLifecycle.emit_session_ended k (CloudRunner.endpointId r0)) es)
  /\ (forall id, ~ In (RunnerLifecycle.emit_endpoint_unregister id) es).
Proof.
  unfold RunnerLifecycle.stopSession, RunnerLifecycle.emit, JsMap.has.
  destruct (JsMap.get k (CloudRunner.activeSessions r0)) as [session|] eqn:Hget;
    intros [= <- <-]; simpl.
  - repeat split.
    + intros _ ->. apply in_or_app. right. now left.
    + intros id Hin. apply in_app_or in Hin as [Hin|Hin].
      * destruct (CloudRunner.process session); simpl in Hin;
          repeat (destruct Hin as [Hin|Hin]; [discriminate|]); destruct Hin.
      * destruct (CloudRunner.socket r0); simpl in Hin;
          repeat (destruct Hin as [Hin|Hin]; [discriminate|]); destruct Hin.
  - rewrite (delete_absent _ _ Hget). repeat split; [discriminate | intros id []].
Qed.

(** The loop of [cleanup()]: the table loses the keys it visits, the
    socket and endpoint id stay, earlier effects are kept, every visited
    session that was in the table is reported, and no unregistration is
    sent. *)
Lemma cleanup_loop ks : forall r0 es0 r2 es2,
  fold_left RunnerLifecycle.stop_next ks (r0, es0) = (r2, es2) ->
  CloudRunner.activeSessions r2
  = fold_left (fun m k => if true then JsMap.delete k m else m) ks
              (CloudRunner.activeSessions r0)
  /\ CloudRunner.socket r2 = CloudRunner.socket r0
  /\ CloudRunner.endpointId r2 = CloudRunner.endpointId r0
  /\ (forall e, In e es0 -> In e es2)
  /\ (forall k, In k ks -> JsMap.has k (CloudRunner.activeSessions r0) = true ->
                CloudRunner.socket r0 = true ->
                In (RunnerLifecycle.emit_session_ended k (CloudRunner.endpointId r0)) es2)
  /\ (forall id, In (RunnerLifecycle.emit_endpoint_unregister id) es2 ->
                 In (RunnerLifecycle.emit_endpoint_unregister id) es0).
Proof.
  induction ks as [|k ks IH]; intros r0 es0 r2 es2; simpl.
  - intros [= <- <-]. repeat split; auto. intros k [].
  - unfold RunnerLifecycle.stop_next at 2. simpl.
    destruct (RunnerLifecycle.stopSession k r0) as [r1 es] eqn:Hstop.
    intros Hfold.
    destruct (IH _ _ _ _ Hfold) as (Ht & Hs & Hid & Hkeep & Hrep & Hun).
    destruct (stopSession_facts _ _ _ _ Hstop) as (Ht1 & Hs1 & Hid1 & Hrep1 & Hun1).
    rewrite Ht, Hs, Hid, Ht1, Hs1, Hid1. repeat split.
    + intros e He. apply Hkeep. apply in_or_app. now left.
    + intros k' Hin Hhas Hsock.
      destruct (String.eqb_spec k k') as [<-|Hne].
      * apply Hkeep. apply in_or_app. right. now apply Hrep1.
      * destruct Hin as [Heq|Hin]; [contradiction|].
        rewrite <- Hid1. apply Hrep; [assumption| |now rewrite Hs1].
        rewrite Ht1. unfold JsMap.has in *. rewrite get_delete.
        destruct (String.eqb_spec k k'); [contradiction | assumption].
    + intros id Hin. apply Hun in Hin. apply in_app_or in Hin as [Hin|Hin];
        [assumption | now apply Hun1 in Hin].
Qed.

(** X23.  [cleanup()] stops every session.  Afterwards the table is empty
    and, when the runner has a socket, every session that was in the table
    has been reported with [session:ended]; the endpoint is unregistered
    only when the socket is connected. *)
Theorem X23_cleanup_stops_every_session :
  forall (connected : bool) (r : CloudRunner.t) (sessionId : string),
    let r' := fst (RunnerLifecycle.cleanup connected r) in
    let effects := snd (RunnerLifecycle.cleanup connected r) in
    CloudRunner.activeSessions r' = []
    /\ (if JsMap.has sessionId (CloudRunner.activeSessions r) && CloudRunner.socket r
        then In (RunnerLifecycle.emit_session_ended sessionId (CloudRunner.endpointId r))
                effects
        else True)
    /\ (In (RunnerLifecycle.emit_endpoint_unregister (CloudRunner.endpointId r)) effects
        <-> CloudRunner.socket r && connected = true).
Proof.
  intros connected r sessionId r' effects.
  unfold r', effects, RunnerLifecycle.cleanup.
  destruct (fold_left RunnerLifecycle.stop_next
                      (JsMap.keys (CloudRunner.activeSessions r)) (r, []))
    as [r1 es1] eqn:Hfold.
  destruct (cleanup_loop _ _ _ _ _ Hfold) as (Ht & Hs & Hid & _ & Hrep & Hun).
  simpl. rewrite Hs, Hid. split; [|split].
  - rewrite Ht, (fold_delete_filter (fun _ => true)). apply filter_none.
    intros kv Hin. simpl. now rewrite (existsb_key kv _ Hin).
  - destruct (JsMap.has sessionId (CloudRunner.activeSessions r)) eqn:Hhas; [|exact I].
    destruct (CloudRunner.socket r) eqn:Hsock; [|exact I]. simpl.
    apply in_or_app. left. apply Hrep; [|assumption|reflexivity].
    unfold JsMap.has in Hhas.
    destruct (JsMap.get sessionId (CloudRunner.activeSessions r)) as [v|] eqn:Hget;
      [|discriminate].
    apply get_In in Hget. unfold JsMap.keys.
    change sessionId with (fst (sessionId, v)). now apply in_map.
  - split.
    + intros Hin. apply in_app_or in Hin as [Hin|Hin]; [now apply Hun in Hin|].
      apply in_app_or in Hin as [Hin|Hin].
      * destruct (CloudRunner.socket r && connected); [reflexivity | destruct Hin].
      * destruct (CloudRunner.socket r); simpl in Hin;
          repeat (destruct Hin as [Hin|Hin]; [discriminate|]); destruct Hin.
    + intros ->. apply in_or_app. right. apply in_or_app. left. now left.
Qed.

(* ================================================================== *)
(** * Further properties of the sandbox provider *)

(** X24.  A server URL that contains [localhost] or [127.0.0.1] is refused
    before any SDK call, whatever [String.prototype.trim] returns for the
    key: [spawnEndpoint] throws (the API-key error when the key is empty or
    trims to the empty string, else the localhost error, never wrapped as a
    spawn failure) and the provider is unchanged. *)
Theorem X24_localhost_url_is_refused :
  forall (trim : string -> string) (now : Z) (options : SpawnOptions)
         (startRunner : option bool) (sdk : E2BSandboxes.Sdk) (p : E2BSandboxes.t),
    str_includes "localhost" (sp_serverUrl options)
    || str_includes "127.0.0.1" (sp_serverUrl options) = true ->
    E2BSandboxes.spawnEndpoint trim now options startRunner sdk p
    = (Threw (if String.eqb (E2BSandboxes.e2bApiKey p) ""
                 || String.eqb (trim (E2BSandboxes.e2bApiKey p)) ""
              then E2BSandboxes.api_key_required
              else E2BSandboxes.localhost_refused), p).
Proof.
  intros trim now options startRunner sdk p Hurl.
  unfold E2BSandboxes.spawnEndpoint, E2BSandboxes.api_key_missing. rewrite Hurl.
  now destruct (String.eqb (E2BSandboxes.e2bApiKey p) ""
                || String.eqb (trim (E2BSandboxes.e2bApiKey p)) "").
Qed.

Lemma X24_localhost_url_is_refused_witness :
  str_includes "localhost" (sp_serverUrl (manager_spawn_options "tok-1" "http://localhost:3005"))
  || str_includes "127.0.0.1"
       (sp_serverUrl (manager_spawn_options "tok-1" "http://localhost:3005")) = true
  /\ E2BSandboxes.spawnEndpoint trim_latin1 100
       (manager_spawn_options "tok-1" "http://localhost:3005") None
       {| E2BSandboxes.sdk_create := Returned "sbx"; E2BSandboxes.sdk_run := Returned 7 |}
       (E2BSandboxes.create "e2b_key")
     = (Threw E2BSandboxes.localhost_refused, E2BSandboxes.create "e2b_key").
Proof.
  split; [reflexivity|].
  apply (X24_localhost_url_is_refused trim_latin1 100
           (manager_spawn_options "tok-1" "http://localhost:3005") None
           {| E2BSandboxes.sdk_create := Returned "sbx"; E2BSandboxes.sdk_run := Returned 7 |}
           (E2BSandboxes.create "e2b_key")).
  reflexivity.
Defined.

(** X25.  What a successful [spawnEndpoint] implies, whatever
    [String.prototype.trim] returns for the key.  When it returns an
    endpoint, the key is not empty and does not trim to the empty string,
    the server URL contains neither [localhost] nor [127.0.0.1],
    [Sandbox.create] returned the endpoint's sandbox and, unless
    [startRunner] is [false], the runner was started; the endpoint is
    [e2b-<sandbox>], online, for agent [claude] only, its [maxSessions] is
    [maxConcurrentSessions || 1], and the provider's table is the old one
    with the sandbox set.  When it throws, the table is the old one, or the
    old one with the sandbox that [Sandbox.create] returned. *)
Theorem X25_spawnEndpoint_result :
  forall (trim : string -> string) (now : Z) (options : SpawnOptions)
         (startRunner : option bool) (sdk : E2BSandboxes.Sdk) (p : E2BSandboxes.t),
    let res := E2BSandboxes.spawnEndpoint trim now options startRunner sdk p in
    match fst res with
    | Returned e =>
        E2BSandboxes.e2bApiKey p <> ""
        /\ trim (E2BSandboxes.e2bApiKey p) <> ""
        /\ str_includes "localhost" (sp_serverUrl options) = false
        /\ str_includes "127.0.0.1" (sp_serverUrl options) = false
        /\ E2BSandboxes.sdk_create sdk = Returned (ce_sandboxId e)
        /\ (startRunner = Some false \/ exists pid, E2BSandboxes.sdk_run sdk = Returned pid)
        /\ ce_id e = String.append "e2b-" (ce_sandboxId e)
        /\ ce_status e = st_online
        /\ supportedAgents (ce_capabilities e) = ["claude"]
        /\ maxSessions (ce_capabilities e)
           = match sp_maxConcurrentSessions options with
             | Some n => if JsNumber.truthy n then n else JsNumber.of_Z 1
             | None => JsNumber.of_Z 1
             end
        /\ lastSeen (ce_metadata e) = None
        /\ E2BSandboxes.activeSandboxes (snd res)
           = JsMap.set (ce_sandboxId e) tt (E2BSandboxes.activeSandboxes p)
    | Threw _ =>
        E2BSandboxes.activeSandboxes (snd res) = E2BSandboxes.activeSandboxes p
        \/ exists sandboxId,
             E2BSandboxes.sdk_create sdk = Returned sandboxId
             /\ E2BSandboxes.activeSandboxes (snd res)
                = JsMap.set sandboxId tt (E2BSandboxes.activeSandboxes p)
    end.
Proof.
  intros trim now options startRunner sdk p res.
  unfold res, E2BSandboxes.spawnEndpoint, E2BSandboxes.api_key_missing.
  destruct (String.eqb_spec (E2BSandboxes.e2bApiKey p) "") as [|Hkey];
    [simpl; now left|].
  destruct (String.eqb_spec (trim (E2BSandboxes.e2bApiKey p)) "") as [|Htrim];
    [simpl; now left|].
  simpl.
  destruct (str_includes "localhost" (sp_serverUrl options)); [simpl; now left|].
  destruct (str_includes "127.0.0.1" (sp_serverUrl options)); [simpl; now left|].
  simpl.
  destruct (E2BSandboxes.sdk_create sdk) as [sandboxId|message]; [|simpl; now left].
  destruct startRunner as [[|]|];
    try (destruct (E2BSandboxes.sdk_run sdk) as [pid|message] eqn:Hrun);
    simpl;
    try (right; exists sandboxId; now split);
    repeat split; try assumption; try reflexivity;
    try (now left); right; now exists pid.
Qed.

(** X26.  A sandbox whose runner fails to start is left behind.  When the
    key is not empty and does not trim to the empty string, the server URL
    passes, [Sandbox.create] succeeds and starting the runner throws,
    [spawnEndpoint] throws [Failed to spawn E2B sandbox: ...] but the
    sandbox stays in the provider's table: its status is not [unknown], and
    only a successful [killEndpoint] takes it out again. *)
Theorem X26_failed_runner_start_leaves_sandbox :
  forall (trim : string -> string) (now : Z) (options : SpawnOptions)
         (sdk : E2BSandboxes.Sdk) (p : E2BSandboxes.t) (sandboxId message : string)
         (ping : Outcome unit),
    E2BSandboxes.e2bApiKey p <> "" ->
    trim (E2BSandboxes.e2bApiKey p) <> "" ->
    str_includes "localhost" (sp_serverUrl options)
    || str_includes "127.0.0.1" (sp_serverUrl options) = false ->
    E2BSandboxes.sdk_create sdk = Returned sandboxId ->
    E2BSandboxes.sdk_run sdk = Threw message ->
    let res := E2BSandboxes.spawnEndpoint trim now options None sdk p in
    fst res = Threw (E2BSandboxes.spawn_failed message)
    /\ JsMap.has sandboxId (E2BSandboxes.activeSandboxes (snd res)) = true
    /\ E2BSandboxes.getSandboxStatus sandboxId ping (snd res) <> E2BSandboxes.sb_unknown
    /\ JsMap.has sandboxId
         (E2BSandboxes.activeSandboxes
            (E2BSandboxes.killEndpoint sandboxId (Threw "kill failed") (snd res))) = true
    /\ JsMap.has sandboxId
         (E2BSandboxes.activeSandboxes
            (E2BSandboxes.killEndpoint sandboxId (Returned tt) (snd res))) = false.
Proof.
  intros trim now options sdk p sandboxId message ping Hkey Htrim Hurl Hcreate Hrun res.
  apply String.eqb_neq in Hkey, Htrim.
  unfold res, E2BSandboxes.spawnEndpoint, E2BSandboxes.api_key_missing.
  rewrite Hkey, Htrim, Hurl, Hcreate, Hrun. simpl.
  unfold E2BSandboxes.getSandboxStatus, E2BSandboxes.killEndpoint; simpl.
  rewrite !get_set_same; simpl.
  repeat split.
  - apply has_set_same.
  - now destruct ping.
  - apply has_set_same.
  - apply has_delete_same.
Qed.

Lemma X26_failed_runner_start_leaves_sandbox_witness :
  let sdk := {| E2BSandboxes.sdk_create := Returned "sbx";
                E2BSandboxes.sdk_run := Threw "npm start failed" |} in
  let p := E2BSandboxes.create "e2b_key" in
  let res := E2BSandboxes.spawnEndpoint trim_latin1 100
               (manager_spawn_options "tok-1" "https://vibe.example") None sdk p in
  JsMap.has "sbx" (E2BSandboxes.activeSandboxes p) = false
  /\ fst res = Threw (E2BSandboxes.spawn_failed "npm start failed")
  /\ JsMap.has "sbx" (E2BSandboxes.activeSandboxes (snd res)) = true.
Proof.
  split; [reflexivity|].
  pose proof (X26_failed_runner_start_leaves_sandbox trim_latin1 100
                (manager_spawn_options "tok-1" "https://vibe.example")
                {| E2BSandboxes.sdk_create := Returned "sbx";
                   E2BSandboxes.sdk_run := Threw "npm start failed" |}
                (E2BSandboxes.create "e2b_key") "sbx" "npm start failed" (Returned tt)
                ltac:(discriminate) ltac:(discriminate) eq_refl eq_refl eq_refl) as H.
  split; [exact (proj1 H) | exact (proj1 (proj2 H))].
Defined.

Lemma provider_cleanup_table killed ks : forall p,
  E2BSandboxes.activeSandboxes
    (fold_left (fun p sandboxId =>
                  E2BSandboxes.killEndpoint sandboxId (killed sandboxId) p) ks p)
  = fold_left (fun m k => if kill_succeeded killed k then JsMap.delete k m else m) ks
              (E2BSandboxes.activeSandboxes p).
Proof.
  induction ks as [|k ks IH]; intros p; simpl; [reflexivity|].
  rewrite IH. f_equal.
  unfold E2BSandboxes.killEndpoint, kill_succeeded.
  destruct (JsMap.get k (E2BSandboxes.activeSandboxes p)) eqn:Hget.
  - now destruct (killed k).
  - destruct (killed k); [now rewrite (delete_absent _ _ Hget) | reflexivity].
Qed.

(** X27.  The provider's [cleanup()] removes from the table exactly the
    sandboxes whose kill succeeded: the ones whose kill threw stay, in
    their order, and [killEndpoint] for a sandbox that is not in the table
    changes nothing. *)
Theorem X27_provider_cleanup_keeps_failed_kills :
  forall (killed : string -> Outcome unit) (p : E2BSandboxes.t) (sandboxId : string)
         (outcome : Outcome unit),
    E2BSandboxes.activeSandboxes (E2BSandboxes.cleanup killed p)
    = filter (fun kv => negb (kill_succeeded killed (fst kv)))
             (E2BSandboxes.activeSandboxes p)
    /\ (if JsMap.has sandboxId (E2BSandboxes.activeSandboxes p) then True
        else E2BSandboxes.killEndpoint sandboxId outcome p = p
             /\ E2BSandboxes.getSandboxStatus sandboxId outcome p = E2BSandboxes.sb_unknown).
Proof.
  intros killed p sandboxId outcome. split.
  - unfold E2BSandboxes.cleanup.
    rewrite provider_cleanup_table, fold_delete_filter.
    apply filter_ext_in. intros kv Hin.
    now rewrite (existsb_key kv _ Hin), andb_true_r.
  - unfold JsMap.has, E2BSandboxes.killEndpoint, E2BSandboxes.getSandboxStatus.
    now destruct (JsMap.get sandboxId (E2BSandboxes.activeSandboxes p)).
Qed.

Lemma substring_all s : forall n, (String.length s <= n)%nat -> String.substring 0 n s = s.
Proof.
  induction s as [|c s IH]; intros [|n] H; simpl in *; try reflexivity; try lia.
  f_equal. apply IH. lia.
Qed.

Lemma prefix_empty s : String.prefix "" s = true.
Proof. now destruct s. Qed.

Lemma replace_first_prefix sandboxId :
  replace_first "e2b-" "" (String.append "e2b-" sandboxId) = sandboxId.
Proof.
  simpl. rewrite prefix_empty. apply substring_all. lia.
Qed.

(** X28.  The registry recovers the sandbox id the provider chose.  For
    the endpoint id [e2b-<sandbox>] that the provider builds, the
    [sandboxId] that [registerEndpoint] derives from the registered id is
    [<sandbox>] again, whatever characters it contains: the registered
    endpoint has the provider's id and sandbox id. *)
Theorem X28_sandbox_id_round_trip :
  forall (now now' : Z) (options : SpawnOptions) (sandboxId : string)
         (registration : EndpointRegistration) (r : EndpointRegistry.t),
    reg_endpointId registration = String.append "e2b-" sandboxId ->
    match E2BProvider.spawnEndpoint now options (Returned sandboxId) with
    | Returned spawned =>
        ce_id spawned = reg_endpointId registration
        /\ ce_sandboxId spawned = sandboxId
        /\ option_map ce_sandboxId
             (EndpointRegistry.getEndpoint (ce_id spawned)
                (EndpointRegistry.registerEndpoint now' registration r))
           = Some sandboxId
    | Threw _ => False
    end.
Proof.
  intros now now' options sandboxId registration r Hreg. simpl.
  split; [now rewrite Hreg|]. split; [reflexivity|].
  unfold EndpointRegistry.getEndpoint, EndpointRegistry.registerEndpoint; simpl.
  rewrite Hreg. simpl. rewrite get_set_same. simpl. f_equal.
  apply (replace_first_prefix sandboxId).
Qed.

Lemma X28_sandbox_id_round_trip_witness :
  reg_endpointId (sample_registration "e2b-sbx" 1) = String.append "e2b-" "sbx"
  /\ option_map ce_sandboxId
       (EndpointRegistry.getEndpoint "e2b-sbx"
          (EndpointRegistry.registerEndpoint 200 (sample_registration "e2b-sbx" 1)
                                             EndpointRegistry.empty))
     = Some "sbx".
Proof.
  split; [reflexivity|].
  exact (proj2 (proj2 (X28_sandbox_id_round_trip 100 200
                         (manager_spawn_options "tok-1" "https://vibe.example") "sbx"
                         (sample_registration "e2b-sbx" 1) EndpointRegistry.empty
                         eq_refl))).
Defined.

(* ================================================================== *)
(** * Session sets and moved sessions *)

Lemma assignSession_other_set now sessionId endpointId k r :
  endpointId <> k ->
  JsMap.get k (EndpointRegistry.endpointSessions
                 (snd (EndpointRegistry.assignSession now sessionId endpointId r)))
  = JsMap.get k (EndpointRegistry.endpointSessions r).
Proof.
  intros Hne. simpl.
  destruct (JsMap.get endpointId (EndpointRegistry.endpointSessions r)); [|reflexivity].
  now apply get_set_other.
Qed.

Lemma unassignSession_other_set sessionId a k r :
  JsMap.get sessionId (EndpointRegistry.sessionAssignments r) = Some a ->
  sa_endpointId a <> k ->
  JsMap.get k (EndpointRegistry.endpointSessions
                 (EndpointRegistry.unassignSession sessionId r))
  = JsMap.get k (EndpointRegistry.endpointSessions r).
Proof.
  intros Ha Hne. unfold EndpointRegistry.unassignSession. rewrite Ha. simpl.
  destruct (JsMap.get (sa_endpointId a) (EndpointRegistry.endpointSessions r));
    [|reflexivity].
  now apply get_set_other.
Qed.

(** X5.  An assignment is never moved.  When a session that is assigned to
    one registered endpoint is assigned to another, the first endpoint's
    set keeps it: after the second [assignSession] and even after
    [unassignSession] the session still counts against the first endpoint,
    while the lookup of its assignment gives the second endpoint and then
    nothing. *)
Theorem X5_reassigned_session_keeps_first_slot :
  forall (now1 now2 : Z) (sessionId first second : string) (r : EndpointRegistry.t),
    first <> second ->
    JsMap.has first (EndpointRegistry.endpointSessions r) = true ->
    let r1 := snd (EndpointRegistry.assignSession now1 sessionId first r) in
    let r2 := snd (EndpointRegistry.assignSession now2 sessionId second r1) in
    let r3 := EndpointRegistry.unassignSession sessionId r2 in
    let in_first x := match JsMap.get first (EndpointRegistry.endpointSessions x) with
                      | Some ss => JsSet.has sessionId ss
                      | None => false
                      end in
    option_map sa_endpointId (EndpointRegistry.getSessionAssignment sessionId r2)
    = Some second
    /\ EndpointRegistry.getSessionAssignment sessionId r3 = None
    /\ in_first r1 = true /\ in_first r2 = true /\ in_first r3 = true
    /\ EndpointRegistry.currentSessions r3 first = EndpointRegistry.currentSessions r1 first.
Proof.
  intros now1 now2 sessionId first second r Hne Hhas r1 r2 r3 in_first.
  unfold JsMap.has in Hhas.
  destruct (JsMap.get first (EndpointRegistry.endpointSessions r)) as [ss|] eqn:Hss;
    [|discriminate].
  assert (Hadd : JsSet.has sessionId (JsSet.add sessionId ss) = true).
  { unfold JsSet.add. destruct (JsSet.has sessionId ss) eqn:E; [assumption|].
    apply jsset_has_In. apply in_or_app. right. now left. }
  assert (H1 : JsMap.get first (EndpointRegistry.endpointSessions r1)
               = Some (JsSet.add sessionId ss)).
  { unfold r1; simpl. now rewrite Hss, get_set_same. }
  assert (H2 : JsMap.get first (EndpointRegistry.endpointSessions r2)
               = Some (JsSet.add sessionId ss)).
  { unfold r2. rewrite assignSession_other_set by congruence. exact H1. }
  assert (Ha : JsMap.get sessionId (EndpointRegistry.sessionAssignments r2)
               = Some {| sa_endpointId := second; sa_sessionId := sessionId;
                         sa_assignedAt := now2 |}).
  { unfold r2. apply assignSession_always_records. }
  assert (H3 : JsMap.get first (EndpointRegistry.endpointSessions r3)
               = Some (JsSet.add sessionId ss)).
  { unfold r3. rewrite (unassignSession_other_set _ _ _ _ Ha) by (simpl; congruence).
    exact H2. }
  unfold in_first, EndpointRegistry.getSessionAssignment, EndpointRegistry.currentSessions.
  rewrite H1, H2, H3, Ha, Hadd. repeat split.
  unfold r3. now rewrite unassignSession_get, String.eqb_refl.
Qed.

Lemma X5_reassigned_session_keeps_first_slot_witness :
  "e2b-a" <> "e2b-b"
  /\ JsMap.has "e2b-a" (EndpointRegistry.endpointSessions registry_with_two_endpoints) = true
  /\ EndpointRegistry.getSessionAssignment "s1"
       (EndpointRegistry.unassignSession "s1"
          (snd (EndpointRegistry.assignSession 4 "s1" "e2b-b"
                  (snd (EndpointRegistry.assignSession 3 "s1" "e2b-a"
                          registry_with_two_endpoints))))) = None.
Proof.
  assert (Hne : "e2b-a" <> "e2b-b") by discriminate.
  split; [exact Hne|]. split; [reflexivity|].
  exact (proj1 (proj2 (X5_reassigned_session_keeps_first_slot 3 4 "s1" "e2b-a" "e2b-b"
                         registry_with_two_endpoints Hne eq_refl))).
Defined.

(* ================================================================== *)
(** * Worked instances *)

Lemma X8_placement_starts_immediately_witness :
  let w := Handlers.world
             (handle_all events_until_registered
                         (Handlers.setupCloudEndpointHandlers "https://vibe.example")) in
  EndpointRegistry.findAvailableEndpoint
    (option_map agent_name (o_agentType sample_options))
    (CloudSessionManager.endpointRegistry (CloudSessionManager.manager w))
  = Some registered_sbx
  /\ fst (CloudSessionManager.createCloudSession
            (second_outcomes (Threw "not asked")) sample_options w)
     = Returned (new_session (second_outcomes (Threw "not asked")) sample_options
                             "S2" "e2b-sbx" starting).
Proof.
  split; [reflexivity|].
  exact (proj1 (X8_placement_starts_immediately
                  "https://vibe.example" events_until_registered
                  (second_outcomes (Threw "not asked")) sample_options
                  registered_sbx 8 "S2" eq_refl eq_refl eq_refl)).
Defined.

Lemma X9_provisioning_defers_start_witness :
  CloudSessionManager.io_log
    (snd (CloudSessionManager.createCloudSession
            (sample_outcomes (Returned "sbx")) sample_options
            (Handlers.world fresh_server)))
  = CloudSessionManager.io_log (Handlers.world fresh_server).
Proof.
  pose proof (X9_provisioning_defers_start
                (sample_outcomes (Returned "sbx")) sample_options
                (Handlers.world fresh_server) "sbx" 7 "S1"
                eq_refl eq_refl eq_refl eq_refl eq_refl) as H.
  exact (proj1 (proj2 (proj2 (proj2 (proj2 (proj2 H)))))).
Defined.

Lemma X10_store_failure_orphans_endpoint_witness :
  let res := CloudSessionManager.createCloudSession failing_store_outcomes sample_options
               (Handlers.world fresh_server) in
  store_failure failing_store_outcomes = Some "database unavailable"
  /\ fst res = Threw "database unavailable"
  /\ CloudSessionManager.pendingEndpoints (CloudSessionManager.manager (snd res))
     = [("e2b-sbx", "tok-1")].
Proof.
  pose proof (X10_store_failure_orphans_endpoint failing_store_outcomes sample_options
                (Handlers.world fresh_server) "sbx" "database unavailable"
                eq_refl eq_refl eq_refl) as H.
  split; [reflexivity|]. split; [exact (proj1 H)|].
  exact (proj2 (proj2 (proj2 (proj2 (proj2 (proj2 H)))))).
Defined.

Lemma X11_returned_session_is_stored_and_assigned_witness :
  let res := CloudSessionManager.createCloudSession
               (sample_outcomes (Returned "sbx")) sample_options
               (Handlers.world fresh_server) in
  fst res = Returned (new_session (sample_outcomes (Returned "sbx")) sample_options
                                  "S1" "e2b-sbx" pending)
  /\ option_map sa_endpointId
       (EndpointRegistry.getSessionAssignment "S1"
          (CloudSessionManager.endpointRegistry (CloudSessionManager.manager (snd res))))
     = Some "e2b-sbx".
Proof.
  split; [reflexivity|].
  exact (proj1 (proj2 (X11_returned_session_is_stored_and_assigned
                         (sample_outcomes (Returned "sbx")) sample_options
                         (Handlers.world fresh_server)
                         (new_session (sample_outcomes (Returned "sbx")) sample_options
                                      "S1" "e2b-sbx" pending)
                         eq_refl))).
Defined.

Lemma X12_registration_delivers_deferred_start_witness :
  Handlers.rooms
    (Handlers.on_endpoint_register 200 "sock-1" (runner_registration (Some "tok-1"))
       (snd (Handlers.create_session (sample_outcomes (Returned "sbx")) sample_options
                                     fresh_server)))
  = Handlers.rooms fresh_server ++ [("sock-1", endpoint_room "e2b-sbx")].
Proof.
  pose proof (X12_registration_delivers_deferred_start
                (sample_outcomes (Returned "sbx")) sample_options fresh_server
                "sbx" 7 "S1" 200 "sock-1" (sample_registration "e2b-sbx" 1)
                eq_refl eq_refl eq_refl eq_refl eq_refl eq_refl eq_refl) as H.
  exact (proj1 (proj2 (proj2 H))).
Defined.

Lemma X15_closed_session_refuses_messages_witness :
  let s := handle_all events_until_registered fresh_server in
  CloudSessionManager.getSession "S1" (CloudSessionManager.manager (Handlers.world s))
  <> None
  /\ Handlers.on_message_to_claude "sock-2" "S1" "hello"
       (Handlers.on_session_ended 400 "S1" s)
     = Handlers.socket_emit "sock-2" (ev_error not_assigned)
         (Handlers.on_session_ended 400 "S1" s).
Proof.
  assert (H : CloudSessionManager.getSession "S1"
                (CloudSessionManager.manager
                   (Handlers.world (handle_all events_until_registered fresh_server)))
              <> None) by (vm_compute; discriminate).
  split; [exact H|].
  exact (proj1 (X15_closed_session_refuses_messages 400 "S1" "sock-2" "hello" None
                  (handle_all events_until_registered fresh_server) H)).
Defined.

Lemma X17_message_follows_placement_witness :
  let created := Handlers.create_session (sample_outcomes (Returned "sbx")) sample_options
                                         fresh_server in
  let session := new_session (sample_outcomes (Returned "sbx")) sample_options
                             "S1" "e2b-sbx" pending in
  fst created = Returned session
  /\ Handlers.on_message_to_claude "sock-2" (cs_sessionId session) "hello" (snd created)
     = Handlers.io_emit (endpoint_room (cs_endpointId session))
                        (ev_message_send (cs_sessionId session) "hello") (snd created).
Proof.
  split; [reflexivity|].
  exact (X17_message_follows_placement
           (sample_outcomes (Returned "sbx")) sample_options fresh_server
           (new_session (sample_outcomes (Returned "sbx")) sample_options
                        "S1" "e2b-sbx" pending)
           "sock-2" "hello" eq_refl).
Defined.

Lemma X18_runner_keeps_session_limit_witness :
  CloudRunner.maxConcurrentSessions busy_runner = Some 1
  /\ Z.of_nat (JsMap.size (CloudRunner.activeSessions busy_runner)) <= 1
  /\ Z.of_nat
       (JsMap.size
          (CloudRunner.activeSessions
             (RunnerLifecycle.react_all
                [RunnerLifecycle.i_exit "S1" (Some 0);
                 RunnerLifecycle.i_start
                   {| CloudRunner.sd_sessionId := "S2"; CloudRunner.sd_agentType := claude;
                      CloudRunner.sd_workingDirectory := None;
                      CloudRunner.sd_initialMessage := None |} (Returned 4343);
                 RunnerLifecycle.i_forget "S1"]
                busy_runner))) <= 1.
Proof.
  assert (H : Z.of_nat (JsMap.size (CloudRunner.activeSessions busy_runner)) <= 1)
    by (vm_compute; discriminate).
  split; [reflexivity|]. split; [exact H|].
  exact (proj2 (X18_runner_keeps_session_limit
                  [RunnerLifecycle.i_exit "S1" (Some 0);
                   RunnerLifecycle.i_start
                     {| CloudRunner.sd_sessionId := "S2"; CloudRunner.sd_agentType := claude;
                        CloudRunner.sd_workingDirectory := None;
                        CloudRunner.sd_initialMessage := None |} (Returned 4343);
                   RunnerLifecycle.i_forget "S1"]
                  busy_runner 1 eq_refl H)).
Defined.

Lemma X20_start_then_stop_restores_table_witness :
  CloudRunner.atCapacity idle_runner = false
  /\ JsMap.has (CloudRunner.sd_sessionId start_S1) (CloudRunner.activeSessions idle_runner)
     = false
  /\ CloudRunner.activeSessions
       (fst (RunnerLifecycle.stopSession "S1"
               (CloudRunner.startSession start_S1 (Returned 4242) idle_runner)))
     = CloudRunner.activeSessions idle_runner.
Proof.
  split; [reflexivity|]. split; [reflexivity|].
  pose proof (X20_start_then_stop_restores_table start_S1 4242 idle_runner
                eq_refl eq_refl) as H.
  exact (proj1 (proj2 (proj2 (proj2 (proj2 H))))).
Defined.

Lemma X21_failed_spawn_takes_no_slot_witness :
  CloudRunner.atCapacity idle_runner = false
  /\ JsMap.has (CloudRunner.sd_sessionId start_S1) (CloudRunner.activeSessions idle_runner)
     = false
  /\ CloudRunner.activeSessions
       (CloudRunner.startSession start_S1 (Threw "spawn claude ENOENT") idle_runner)
     = CloudRunner.activeSessions idle_runner.
Proof.
  split; [reflexivity|]. split; [reflexivity|].
  exact (proj1 (X21_failed_spawn_takes_no_slot start_S1 "spawn claude ENOENT" idle_runner
                  eq_refl eq_refl)).
Defined.
